(** * Weather-Pusher: a shallow embedding of [weater_monitor.py]

    The monitor polls a forecast provider, classifies the forecast text and
    pushes cards to a webhook.  This development embeds the class
    [WeatherMonitor] and proves properties of its classification rules, its
    two triggers and its sleep computation.

    Conventions of the embedding.
    - A Python [str] is a [string] holding the UTF-8 encoding of the text; the
      literals below are the literals of the source.  UTF-8 is
      self-synchronising, so [k in t] on well-formed text is substring search
      on the encodings.
    - A Python [int] is a [Z]; [%] is [Z.modulo] (both round towards minus
      infinity) and raises [ZeroDivisionError] on a zero divisor.
    - A Python [float] is a binary64 [float].
    - A calendar date is its proleptic Gregorian ordinal, a [Z]:
      [strftime("%Y-%m-%d")] is injective on dates, so comparing the strings
      the source stores is comparing ordinals, and the difference of two
      dates in days is the difference of their ordinals.
    - An aware [datetime] that is only compared, shifted and printed is the
      number of microseconds since the epoch, a [Z].
    - Logging is not modelled.  Waiting between retries is not modelled.

    The file as shipped and the reach of the embedding.
    - Lines 272 and 293 of the file, both in [_handle_rain_alert], are not
      Python: each reads [[f"..." ) for f in ...]], a round bracket closing
      the square bracket of a list comprehension.  The interpreter refuses
      the whole file for it.  The embedding reads the file statement by
      statement instead: every well-formed statement is embedded as written,
      and a malformed statement raises [SyntaxError] when control reaches
      it.  Nothing is repaired.  All other functions are well-formed.
    - JSON is untyped and the source checks no types.  The embedding covers
      the answers of the documented shape: the body of the provider is a
      JSON object or the JSON null, the entries of its arrays are objects,
      the fields the source concatenates and searches ([textDay],
      [textNight], [text]) and prints are strings, and the webhook answers
      with an object.  The fields the source converts ([fxTime], [pop],
      [fxDate], [precip]) may hold anything: what counts is whether the
      conversion returns or which exception it raises.  Answers of another
      shape are outside the embedding; the source raises [AttributeError]
      or [TypeError] on most of them, for one when the webhook answers with
      JSON that is not an object (line 117). *)

From Stdlib Require Import ZArith List String Ascii Bool Floats Sorted Lia.
From stdpp Require Import base option list gmap sets strings pretty.

#[local] Set Warnings "-clear-no-such-hyp".

Open Scope string_scope.
Open Scope list_scope.
Open Scope Z_scope.

(** ** Python values and exceptions *)

Inductive exn : Type :=
| ZeroDivisionError
| KeyError
| ValueError
| TypeError
| AttributeError
| OverflowError
| SyntaxError.

Inductive result (A : Type) : Type :=
| Ok (a : A)
| Raise (e : exn).
Arguments Ok {A} a.
Arguments Raise {A} e.

#[global] Instance result_ret : MRet result := fun A a => Ok a.
#[global] Instance result_bind : MBind result := fun A B f m =>
  match m with
  | Ok a => f a
  | Raise e => Raise e
  end.

(** [a % b] on Python integers. *)
Definition py_mod (a b : Z) : result Z :=
  if b =? 0 then Raise ZeroDivisionError else Ok (a mod b).

(** Truth value of a Python list. *)
Definition truthy {A : Type} (l : list A) : bool :=
  match l with
  | [] => false
  | _ :: _ => true
  end.

(** [k in t] on strings. *)
Fixpoint str_in (k t : string) : bool :=
  String.prefix k t
  || match t with
     | EmptyString => false
     | String _ t' => str_in k t'
     end.

(** [any(k in t for k in keywords)]. *)
Definition any_in (keywords : list string) (t : string) : bool :=
  existsb (fun k => str_in k t) keywords.

(** The line feed character, written [\n] in the source. *)
Definition nl : string := String "010"%char EmptyString.

(** [sep.join(lines)]. *)
Definition join (sep : string) (lines : list string) : string :=
  String.concat sep lines.

(** [str(n)] for an integer. *)
Definition str_int (n : Z) : string := pretty n.

(** A two-digit field of [strftime], as [%H] and [%M] print it. *)
Definition two_digits (n : Z) : string :=
  if n <? 10 then "0" +:+ str_int n else str_int n.

(** A field of a provider record that the source converts before use.  The
    key may be absent.  [Present raw (Some v)] is a value, printed [raw],
    that converts to [v]; [Present raw None] is a string that the conversion
    refuses, with [ValueError]; [Invalid e] is any other value on which the
    conversion raises [e]: a JSON null ([TypeError], or [AttributeError]
    where a method of the string is called first), a time that leaves the
    range of [datetime] when moved to UTC+8 ([OverflowError]). *)
Inductive field (A : Type) : Type :=
| Absent
| Present (raw : string) (converted : option A)
| Invalid (e : exn).
Arguments Absent {A}.
Arguments Present {A} raw converted.
Arguments Invalid {A} e.

(** [conv(d.get(key, default))] where [conv(default)] is [dflt]. *)
Definition convert_or {A : Type} (dflt : A) (f : field A) : result A :=
  match f with
  | Absent => Ok dflt
  | Present _ (Some v) => Ok v
  | Present _ None => Raise ValueError
  | Invalid e => Raise e
  end.

(** ** Records of the provider and of the monitor *)

(** One entry of the provider's ["daily"] array. *)
Record DailyForecast : Type := mkDaily {
  fxDate : field Z;
  tempMax : option string;
  tempMin : option string;
  textDay : option string;
  textNight : option string;
  windDirDay : option string;
  windScaleDay : option string;
  humidity : option string;
  precip : field float
}.

(** One entry of the provider's ["hourly"] array. *)
Record HourlyItem : Type := mkHourlyItem {
  fxTime : field Z;
  text : option string;
  pop : field Z
}.

(** The dictionaries that [get_hourly_weather] returns. *)
Record HourlyForecast : Type := mkHourly {
  hf_time : string;
  hf_text : string;
  hf_pop : Z
}.

(** A JSON object the provider answers with.  Only the string ["200"]
    passes the test on [code], so a code of another type reads as a string
    other than ["200"]. *)
Record Response : Type := mkResponse {
  code : option string;
  daily : option (list DailyForecast);
  hourly : option (list HourlyItem)
}.

(** The JSON object the webhook answers with.  Only the number 0 passes the
    test on the two keys, so a value of another type reads as a number
    other than 0. *)
Record PostResponse : Type := mkPostResponse {
  StatusCode : option Z;
  post_code : option Z
}.

(** The card posted to the webhook. *)
Record Card : Type := mkCard {
  template : string;
  title : string;
  content : string
}.

(** The values [_load_config] reads. *)
Record Config : Type := mkConfig {
  feishu_webhook_url : string;
  qweather_key : string;
  api_host : string;
  location : string;
  location_name : string;
  daily_push_hour : Z;
  daily_push_minute : Z;
  check_interval_minutes : Z;
  rain_threshold_precip : float;
  rain_threshold_pop : Z
}.

(** The two attributes of the monitor that change between ticks. *)
Record MonitorState : Type := mkState {
  rain_active : bool;
  last_daily_push_date : option Z
}.

(** The state [__init__] sets up. *)
Definition initial_state : MonitorState :=
  {| rain_active := false; last_daily_push_date := None |}.

(** The local time a tick reads: [now.date()], [now.hour], [now.minute] and
    [now.second]. *)
Record datetime : Type := mkDatetime {
  date : Z;
  hour : Z;
  minute : Z;
  second : Z
}.

(** ** The network and the clock

    One attempt of [session.get] or [session.post] either returns the decoded
    JSON or raises a [RequestException]: a transport error, a bad status
    through [raise_for_status], or a body that is not JSON (the
    [JSONDecodeError] of requests is a [RequestException]). *)
Inductive attempt (A : Type) : Type :=
| Returned (a : A)
| RequestException.
Arguments Returned {A} a.
Arguments RequestException {A}.

(** What the outside world answers during one tick: the outcome of the
    [n]-th attempt to get a URL, the outcome of the [n]-th attempt to post a
    card to a URL, and the clock [get_hourly_weather] reads.  The body of an
    answer to a get is an object, or [None] for the JSON null. *)
Record World : Type := mkWorld {
  session_get : string -> nat -> attempt (option Response);
  session_post : string -> Card -> nat -> attempt PostResponse;
  clock : Z
}.

(** A call of [push_to_feishu]: the card and the value returned. *)
Record Pushed : Type := mkPushed {
  card : Card;
  delivered : bool
}.

(** ** The monad of the monitor's methods: they read and write the state,
    push cards, and may raise. *)
Definition M (A : Type) : Type :=
  MonitorState -> result A * MonitorState * list Pushed.

#[global] Instance M_ret : MRet M := fun A a st => (Ok a, st, []).
#[global] Instance M_bind : MBind M := fun A B f m st =>
  match m st with
  | (Ok a, st1, out1) =>
      match f a st1 with
      | (r, st2, out2) => (r, st2, out1 ++ out2)
      end
  | (Raise e, st1, out1) => (Raise e, st1, out1)
  end.

Definition get_state : M MonitorState := fun st => (Ok st, st, []).
Definition put_state (st' : MonitorState) : M unit := fun _ => (Ok tt, st', []).
Definition emit (p : Pushed) : M unit := fun st => (Ok tt, st, [p]).
Definition lift {A : Type} (r : result A) : M A := fun st => (r, st, []).

Definition outcome {A : Type} (x : result A * MonitorState * list Pushed) : result A :=
  x.1.1.
Definition state_after {A : Type} (x : result A * MonitorState * list Pushed) : MonitorState :=
  x.1.2.
Definition pushes {A : Type} (x : result A * MonitorState * list Pushed) : list Pushed :=
  x.2.

(** ** [_request_with_retry] and [push_to_feishu] *)

(** The loop of [_request_with_retry]: attempts [attempt_no],
    [attempt_no + 1], ... until one returns or [remaining] runs out.  It
    returns the body as it is, so a null body comes back as [None], the
    value that also tells that every attempt has raised. *)
Fixpoint request_attempts (get : nat -> attempt (option Response))
    (attempt_no remaining : nat) : option Response :=
  match remaining with
  | O => None
  | S remaining' =>
      match get attempt_no with
      | Returned resp => resp
      | RequestException => request_attempts get (S attempt_no) remaining'
      end
  end.

(** [max_retry], which no caller overrides. *)
Definition max_retry : nat := 5.

Definition _request_with_retry (w : World) (url : string) : option Response :=
  request_attempts (session_get w url) 0 max_retry.

(** The colour of the card, chosen from the title. *)
Definition card_template (title : string) : string :=
  if str_in "⚠️" title || str_in "预警" title then "red"
  else if str_in "📢" title then "green"
  else "blue".

(** [resp_json.get("StatusCode") == 0 or resp_json.get("code") == 0]. *)
Definition accepted (resp_json : PostResponse) : bool :=
  bool_decide (StatusCode resp_json = Some 0)
  || bool_decide (post_code resp_json = Some 0).

(** The loop of [push_to_feishu], for a webhook that answers with objects.
    (On an answer that is JSON but not an object, [resp_json.get] raises an
    [AttributeError] that nothing catches; such answers are outside the
    embedding.) *)
Fixpoint post_attempts (post : nat -> attempt PostResponse)
    (attempt_no remaining : nat) : bool :=
  match remaining with
  | O => false
  | S remaining' =>
      match post attempt_no with
      | Returned resp_json =>
          if accepted resp_json then true
          else post_attempts post (S attempt_no) remaining'
      | RequestException => post_attempts post (S attempt_no) remaining'
      end
  end.

Definition push_to_feishu (cfg : Config) (w : World) (title content : string) : M bool :=
  let data := {| template := card_template title; title := title; content := content |} in
  let sent := post_attempts (session_post w (feishu_webhook_url cfg) data) 0 max_retry in
  _ ← emit {| card := data; delivered := sent |};
  mret sent.

(** ** [get_daily_weather] and [get_hourly_weather] *)

(** [not resp]: no response, or an empty object.  An object that holds
    other keys only is not empty, but it fails the test of the code that
    follows, so the fetch fails either way. *)
Definition falsy (resp : option Response) : bool :=
  match resp with
  | None => true
  | Some r =>
      match code r, daily r, hourly r with
      | None, None, None => true
      | _, _, _ => false
      end
  end.

(** [not resp or resp.get('code') != '200']. *)
Definition fetch_failed (resp : option Response) : bool :=
  falsy resp
  || match resp with
     | None => true
     | Some r => negb (bool_decide (code r = Some "200"))
     end.

Definition daily_url (cfg : Config) : string :=
  api_host cfg +:+ "/v7/weather/3d?location=" +:+ location cfg
  +:+ "&key=" +:+ qweather_key cfg.

Definition hourly_url (cfg : Config) : string :=
  api_host cfg +:+ "/v7/weather/24h?location=" +:+ location cfg
  +:+ "&key=" +:+ qweather_key cfg.

(** [None] is the failure; otherwise the ["daily"] array, empty when the key
    is missing. *)
Definition get_daily_weather (cfg : Config) (w : World) : option (list DailyForecast) :=
  let resp := _request_with_retry w (daily_url cfg) in
  if fetch_failed resp then None
  else
    match resp with
    | None => None
    | Some r => Some (default [] (daily r))
    end.

(** Microseconds in an hour, and the fixed offset of the local zone. *)
Definition hour_us : Z := 3600 * 1000000.
Definition tz_offset : Z := 8 * hour_us.

(** [fx_time.strftime('%H:%M')] after [astimezone] to UTC+8. *)
Definition strftime_HM (t : Z) : string :=
  let seconds_of_day := ((t + tz_offset) / 1000000) mod 86400 in
  two_digits (seconds_of_day / 3600) +:+ ":"
  +:+ two_digits ((seconds_of_day mod 3600) / 60).

(** [datetime.fromisoformat(item["fxTime"].replace(...)).astimezone(...)]: a
    missing key raises [KeyError], a string that is not a timestamp raises
    [ValueError], and any other value raises what the expression raises on
    it. *)
Definition read_fxTime (item : HourlyItem) : result Z :=
  match fxTime item with
  | Absent => Raise KeyError
  | Present _ None => Raise ValueError
  | Present _ (Some t) => Ok t
  | Invalid e => Raise e
  end.

(** [now <= fx_time <= next_6_hours]. *)
Definition in_window (now next_6_hours fx_time : Z) : bool :=
  (now <=? fx_time) && (fx_time <=? next_6_hours).

(** The loop of [get_hourly_weather] over the ["hourly"] array;
    [hourly_forecasts] is the list built so far. *)
Fixpoint hourly_loop (now next_6_hours : Z) (items : list HourlyItem)
    (hourly_forecasts : list HourlyForecast) : result (list HourlyForecast) :=
  match items with
  | [] => Ok hourly_forecasts
  | item :: items' =>
      fx_time ← read_fxTime item;
      if in_window now next_6_hours fx_time then
        p ← convert_or 0 (pop item);
        hourly_loop now next_6_hours items'
          (hourly_forecasts
           ++ [{| hf_time := strftime_HM fx_time;
                  hf_text := default "" (text item);
                  hf_pop := p |}])
      else hourly_loop now next_6_hours items' hourly_forecasts
  end.

Definition get_hourly_weather (cfg : Config) (w : World) : result (list HourlyForecast) :=
  let resp := _request_with_retry w (hourly_url cfg) in
  if fetch_failed resp then Ok []
  else
    match resp with
    | None => Ok []
    | Some r =>
        let now := clock w in
        let next_6_hours := now + 6 * hour_us in
        hourly_loop now next_6_hours (default [] (hourly r)) []
    end.

(** ** The daily digest *)

Definition rain_keywords : list string :=
  ["阵雨"; "中雨"; "大雨"; "暴雨"; "极端降雨"].

Definition other_severe_keywords : list string :=
  ["冰雹"; "台风"; "雪"; "暴雪"; "大雪"; "沙尘暴"; "雾"; "霾"; "冻雨"; "雨夹雪"].

Definition day_map : gmap Z string :=
  {[ 0 := "今天"; 1 := "明天"; 2 := "后天" ]}.

(** [days_diff in day_map]. *)
Definition in_day_map (days_diff : Z) : bool :=
  bool_decide (is_Some (day_map !! days_diff)).

(** [datetime.strptime(daily_forecast.get('fxDate'), '%Y-%m-%d').date()]
    together with the text it was read from: a missing key passes [None] to
    [strptime], which raises [TypeError]; a text that is not a date raises
    [ValueError]. *)
Definition read_fxDate (daily_forecast : DailyForecast) : result (string * Z) :=
  match fxDate daily_forecast with
  | Absent => Raise TypeError
  | Present _ None => Raise ValueError
  | Present raw (Some d) => Ok (raw, d)
  | Invalid e => Raise e
  end.

(** The rain predicate of one day. *)
Definition is_rain_by_keyword (text_to_check : string) : bool :=
  any_in rain_keywords text_to_check.

Definition is_rain_by_precip (precip_mm : float) (text_to_check : string) : bool :=
  (5 <=? precip_mm)%float && str_in "雨" text_to_check.

(** The four lists the loop over the forecast fills. *)
Record Scan : Type := mkScan {
  rain_alerts : list string;
  other_severe_alerts : list string;
  rain_days_indices : list Z;
  severe_days_indices : list Z
}.

Definition empty_scan : Scan :=
  {| rain_alerts := []; other_severe_alerts := [];
     rain_days_indices := []; severe_days_indices := [] |}.

(** The title of the digest, from the two lists of day offsets. *)
Definition rain_suffix (rain_days_set : gset Z) : string :=
  if (size rain_days_set =? 3)%nat then "-未来三天有雨"
  else if bool_decide (rain_days_set = {[0; 1]}) then "-今明天有雨"
  else if bool_decide (rain_days_set = {[1; 2]}) then "-明后天有雨"
  else if bool_decide (rain_days_set = {[0; 2]}) then "-今后天有雨"
  else if bool_decide (rain_days_set = {[0]}) then "-今天有雨"
  else if bool_decide (rain_days_set = {[1]}) then "-明天有雨"
  else if bool_decide (rain_days_set = {[2]}) then "-后天有雨"
  else "".

Definition daily_title (severe_days_indices rain_days_indices : list Z) : string :=
  if truthy severe_days_indices then "⚠️ 今日天气-恶劣天气预警"
  else if truthy rain_days_indices then
    let rain_days_set : gset Z := list_to_set rain_days_indices in
    "⚠️ 今日天气" +:+ rain_suffix rain_days_set
  else "📢 今日天气".

Section Digest.

(** How Python prints a float inside an f-string. *)
Variable float_repr : float -> string.

(** The body of the loop over [forecast_data]; [today] is [now.date()]. *)
Definition scan_day (today : Z) (acc : Scan) (daily_forecast : DailyForecast)
    : result Scan :=
  precip_mm ← convert_or 0%float (precip daily_forecast);
  let text_day := default "" (textDay daily_forecast) in
  let text_night := default "" (textNight daily_forecast) in
  let text_to_check := text_day +:+ text_night in
  fx ← read_fxDate daily_forecast;
  let days_diff := fx.2 - today in
  let date_prefix := default fx.1 (day_map !! days_diff) in
  let acc1 :=
    if is_rain_by_keyword text_to_check || is_rain_by_precip precip_mm text_to_check
    then
      {| rain_alerts :=
           rain_alerts acc
           ++ ["∙ **" +:+ date_prefix +:+ "**: " +:+ text_day
               +:+ "，预计降水 " +:+ float_repr precip_mm +:+ "mm"];
         other_severe_alerts := other_severe_alerts acc;
         rain_days_indices :=
           if in_day_map days_diff then rain_days_indices acc ++ [days_diff]
           else rain_days_indices acc;
         severe_days_indices := severe_days_indices acc |}
    else acc in
  (* the inner loop stops at the first keyword found: one line per day *)
  if any_in other_severe_keywords text_to_check then
    Ok {| rain_alerts := rain_alerts acc1;
          other_severe_alerts :=
            other_severe_alerts acc1
            ++ ["∙ **" +:+ date_prefix +:+ "**: " +:+ text_day];
          rain_days_indices := rain_days_indices acc1;
          severe_days_indices :=
            if in_day_map days_diff then severe_days_indices acc1 ++ [days_diff]
            else severe_days_indices acc1 |}
  else Ok acc1.

(** The loop over [forecast_data]. *)
Fixpoint scan_forecast (today : Z) (forecast_data : list DailyForecast) (acc : Scan)
    : result Scan :=
  match forecast_data with
  | [] => Ok acc
  | daily_forecast :: rest =>
      acc' ← scan_day today acc daily_forecast;
      scan_forecast today rest acc'
  end.

(** The block about today. *)
Definition daily_content (today_data : DailyForecast) : string :=
  let day_text := default "" (textDay today_data) in
  let night_text := default "" (textNight today_data) in
  let weather_summary :=
    if String.eqb day_text night_text then day_text
    else day_text +:+ "转" +:+ night_text in
  "📅 **今日天气 · " +:+ weather_summary +:+ "**  " +:+ nl
  +:+ "🌡 气温：" +:+ default "N/A" (tempMin today_data) +:+ " ~ "
  +:+ default "N/A" (tempMax today_data) +:+ "℃  " +:+ nl
  +:+ "💨 风力：" +:+ default "" (windDirDay today_data) +:+ " "
  +:+ default "" (windScaleDay today_data) +:+ "级  " +:+ nl
  +:+ "💧 湿度：" +:+ default "N/A" (humidity today_data) +:+ "%".

(** The body of the card. *)
Definition full_content (cfg : Config) (today_data : DailyForecast) (s : Scan) : string :=
  let header := "📍 " +:+ location_name cfg +:+ nl in
  let c0 := header +:+ nl +:+ daily_content today_data in
  let c1 :=
    if truthy (other_severe_alerts s) then
      c0 +:+ nl +:+ nl +:+ "---" +:+ nl +:+ "**恶劣天气提醒**  " +:+ nl
      +:+ join nl (other_severe_alerts s)
    else c0 in
  if truthy (rain_alerts s) then
    c1 +:+ nl +:+ nl +:+ "---" +:+ nl +:+ "**降雨提醒**  " +:+ nl
    +:+ join nl (rain_alerts s)
  else c1.

Definition _handle_daily_push (cfg : Config) (w : World) (now : datetime) : M unit :=
  if (hour now =? daily_push_hour cfg) && (minute now =? daily_push_minute cfg) then
    let today_str := date now in
    st ← get_state;
    if negb (bool_decide (last_daily_push_date st = Some today_str)) then
      match get_daily_weather cfg w with
      | None => mret tt
      | Some [] => mret tt
      | Some ((today_data :: _) as forecast_data) =>
          s ← lift (scan_forecast (date now) forecast_data empty_scan);
          let title := daily_title (severe_days_indices s) (rain_days_indices s) in
          _ ← push_to_feishu cfg w title (full_content cfg today_data s);
          st' ← get_state;
          put_state {| rain_active := rain_active st';
                       last_daily_push_date := Some today_str |}
      end
    else mret tt
  else mret tt.

End Digest.

(** ** The rain alert *)

Definition severe_rain_keywords : list string :=
  ["中雨"; "大雨"; "暴雨"; "极端降雨"].

(** The test of the loop over [hourly_forecasts]. *)
Definition qualifying (item : HourlyForecast) : bool :=
  any_in severe_rain_keywords (hf_text item).

(** [detected_forecasts] after the loop. *)
Definition detect (hourly_forecasts : list HourlyForecast) : list HourlyForecast :=
  List.filter qualifying hourly_forecasts.

(** [rain_start_time] after the loop: the time of the first item detected,
    [None] when there is none. *)
Definition rain_start (hourly_forecasts : list HourlyForecast) : option string :=
  hf_time <$> head (detect hourly_forecasts).

(** The title of the alert, line 291. *)
Definition rain_alert_title (rain_start_time : option string) : string :=
  "⚠️ 预计 " +:+ default "None" rain_start_time +:+ " 有强降雨，请注意".

(** A statement that is not Python yields no value: where control reaches
    it, [SyntaxError] is raised.  Lines 272 and 293 are the two such
    statements of the file; each was to build a list of lines. *)
Definition malformed_statement {A : Type} : result A := Raise SyntaxError.

(** Lines 264 to 305, statement by statement.  Line 272 stands under
    [if hourly_forecasts:], so it is reached exactly when the forecast is
    not empty; line 293 stands where the alert is put together. *)
Definition _handle_rain_alert (cfg : Config) (w : World) (now : datetime) : M unit :=
  r ← lift (py_mod (minute now) (check_interval_minutes cfg));
  if r =? 0 then
    hourly_forecasts ← lift (get_hourly_weather cfg w);
    _ ← (if truthy hourly_forecasts then
           (* line 272; line 273 only logs the lines *)
           forecast_lines ← lift (@malformed_statement (list string));
           mret tt
         else mret tt);
    let detected_forecasts := detect hourly_forecasts in
    let rain_start_time := rain_start hourly_forecasts in
    let rain_detected := truthy detected_forecasts in
    st ← get_state;
    if rain_detected then
      if negb (rain_active st) then
        let title := rain_alert_title rain_start_time in
        let header := "📍 " +:+ location_name cfg +:+ nl +:+ nl +:+ "---" +:+ nl in
        (* line 293 *)
        hourly_lines ← lift (@malformed_statement (list string));
        let hourly_content :=
          "💧 **强降雨详情**  " +:+ nl +:+ join ("  " +:+ nl) hourly_lines in
        _ ← push_to_feishu cfg w title (header +:+ hourly_content);
        st' ← get_state;
        put_state {| rain_active := true;
                     last_daily_push_date := last_daily_push_date st' |}
      else mret tt
    else
      put_state {| rain_active := false;
                   last_daily_push_date := last_daily_push_date st |}
  else mret tt.

(** ** The main loop *)

(** Minutes until the next check. *)
Definition next_minute (cfg : Config) (now : datetime) : result Z :=
  r ← py_mod (minute now) (check_interval_minutes cfg);
  n ← py_mod (check_interval_minutes cfg - r) (check_interval_minutes cfg);
  mret (if n =? 0 then check_interval_minutes cfg else n).

Definition sleep_seconds (cfg : Config) (now : datetime) : result Z :=
  n ← next_minute cfg now;
  mret (n * 60 - second now).

(** [time.sleep] refuses a negative length. *)
Definition time_sleep (seconds : Z) : result unit :=
  if seconds <? 0 then Raise ValueError else Ok tt.

(** One iteration of the loop of [run]; the value is the time slept. *)
Definition tick (float_repr : float -> string) (cfg : Config) (w : World)
    (now : datetime) : M Z :=
  _ ← _handle_daily_push float_repr cfg w now;
  _ ← _handle_rain_alert cfg w now;
  s ← lift (sleep_seconds cfg now);
  _ ← lift (time_sleep s);
  mret s.

(** The loop of [run] over the ticks that happen, each with the time it
    reads and what the world answers during it; an exception ends the loop. *)
Fixpoint run (float_repr : float -> string) (cfg : Config)
    (ticks : list (datetime * World)) : M unit :=
  match ticks with
  | [] => mret tt
  | (now, w) :: rest =>
      _ ← tick float_repr cfg w now;
      run float_repr cfg rest
  end.

(** ** [run_test_push] *)

Definition test_daily_summary : string :=
  "📅 **今日天气 · 晴转多云**  " +:+ nl
  +:+ "🌡 气温：22 ~ 34℃  " +:+ nl
  +:+ "💨 风力：南风 4级  " +:+ nl
  +:+ "💧 湿度：80%".

Definition test_rain_warning : string :=
  "⚠️ **降雨预警 · 预计 15:00 开始**  " +:+ nl
  +:+ "∙ 15:00 | 小雨 | 概率 70%  " +:+ nl
  +:+ "∙ 16:00 | 中雨 | 概率 90%  " +:+ nl
  +:+ "∙ 17:00 | 小雨 | 概率 60%".

Definition run_test_push (cfg : Config) (w : World) : M unit :=
  let header := "📍 " +:+ location_name cfg +:+ nl in
  let content :=
    header +:+ nl +:+ test_daily_summary +:+ nl +:+ nl +:+ "---" +:+ nl
    +:+ test_rain_warning in
  let title := "📢【测试】天气及降雨提醒" in
  _ ← push_to_feishu cfg w title content;
  mret tt.

(** ** [_load_config], [__init__] and [main]

    What [configparser] finds when it is asked for an option: nothing, when
    the section or the option is missing; a value whose interpolation fails,
    for one a [%] that is neither doubled nor the start of a reference that
    resolves; or the value after interpolation.  In the first two cases it
    raises a [configparser.Error]. *)
Inductive lookup (A : Type) : Type :=
| NotFound
| InterpolationError
| Found (a : A).
Arguments NotFound {A}.
Arguments InterpolationError {A}.
Arguments Found {A} a.

(** The ten options.  For a number, what is found is the result of [int] or
    [float] on the value: [None] when it does not convert. *)
Record Options : Type := mkOptions {
  ini_feishu_webhook_url : lookup string;
  ini_qweather_key : lookup string;
  ini_api_host : lookup string;
  ini_location : lookup string;
  ini_name : lookup string;
  ini_daily_push_hour : lookup (option Z);
  ini_daily_push_minute : lookup (option Z);
  ini_check_interval_minutes : lookup (option Z);
  ini_rain_threshold_precip : lookup (option float);
  ini_rain_threshold_pop : lookup (option Z)
}.

(** What [config.read] makes of the file: it raises a [configparser.Error]
    on a file it cannot parse (text before the first section, a section or
    an option given twice), it raises [UnicodeDecodeError], a [ValueError],
    on a file that is not UTF-8, and otherwise it holds the options.  A file
    that cannot be opened reads as a file without options. *)
Inductive ConfigFile : Type :=
| Malformed
| Undecodable
| Readable (options : Options).

(** What the constructor of the monitor can raise: a [configparser.Error],
    or a [ValueError]. *)
Inductive startup_exn : Type :=
| configparser_Error
| startup_ValueError.

Inductive started (A : Type) : Type :=
| Started (a : A)
| StartRaise (e : startup_exn).
Arguments Started {A} a.
Arguments StartRaise {A} e.

#[global] Instance started_ret : MRet started := fun A a => Started a.
#[global] Instance started_bind : MBind started := fun A B f m =>
  match m with
  | Started a => f a
  | StartRaise e => StartRaise e
  end.

(** [config.get(section, option)]. *)
Definition config_get (o : lookup string) : started string :=
  match o with
  | Found v => Started v
  | NotFound | InterpolationError => StartRaise configparser_Error
  end.

(** [config.getint(section, option)] and [config.getfloat(section, option)]:
    [get], then the conversion. *)
Definition config_getnumber {A : Type} (o : lookup (option A)) : started A :=
  match o with
  | Found (Some v) => Started v
  | Found None => StartRaise startup_ValueError
  | NotFound | InterpolationError => StartRaise configparser_Error
  end.

Definition _load_config (ini : Options) : started Config :=
  url ← config_get (ini_feishu_webhook_url ini);
  key ← config_get (ini_qweather_key ini);
  host ← config_get (ini_api_host ini);
  loc ← config_get (ini_location ini);
  name ← config_get (ini_name ini);
  h ← config_getnumber (ini_daily_push_hour ini);
  m ← config_getnumber (ini_daily_push_minute ini);
  c ← config_getnumber (ini_check_interval_minutes ini);
  tp ← config_getnumber (ini_rain_threshold_precip ini);
  tq ← config_getnumber (ini_rain_threshold_pop ini);
  mret {| feishu_webhook_url := url; qweather_key := key; api_host := host;
          location := loc; location_name := name;
          daily_push_hour := h; daily_push_minute := m;
          check_interval_minutes := c;
          rain_threshold_precip := tp; rain_threshold_pop := tq |}.

(** [config.read], line 51. *)
Definition config_read (file : ConfigFile) : started Options :=
  match file with
  | Malformed => StartRaise configparser_Error
  | Undecodable => StartRaise startup_ValueError
  | Readable options => Started options
  end.

(** [WeatherMonitor()]: the configuration and the first state. *)
Definition __init__ (file : ConfigFile) : started (Config * MonitorState) :=
  ini ← config_read file;
  cfg ← _load_config ini;
  mret (cfg, {| rain_active := false; last_daily_push_date := None |}).

(** One pass of the loop of [main]: the file it reads, the ticks the monitor
    then lives through, and the world of the test push. *)
Record Session : Type := mkSession {
  session_ini : ConfigFile;
  session_ticks : list (datetime * World);
  session_world : World
}.

(** How [main] is found at the end of the sessions given: it has left on a
    configuration error, after the test push, or on an error in test mode,
    or it is still in its loop. *)
Inductive ending : Type :=
| FatalConfigError
| TestPushDone
| TestPushError
| StillLooping.

(** The loop of [main]; [test] says whether [--test] was given.  A monitor
    whose ticks run out without an exception is still running. *)
Fixpoint main (float_repr : float -> string) (test : bool)
    (sessions : list Session) : ending * list Pushed :=
  match sessions with
  | [] => (StillLooping, [])
  | s :: rest =>
      match __init__ (session_ini s) with
      | StartRaise configparser_Error => (FatalConfigError, [])
      | StartRaise startup_ValueError =>
          if test then (TestPushError, []) else main float_repr test rest
      | Started (cfg, st) =>
          if test then
            match run_test_push cfg (session_world s) st with
            | (Ok _, _, out) => (TestPushDone, out)
            | (Raise _, _, out) => (TestPushError, out)
            end
          else
            match run float_repr cfg (session_ticks s) st with
            | (Raise _, _, out) =>
                (fst (main float_repr test rest),
                 out ++ snd (main float_repr test rest))
            | (Ok _, _, out) => (StillLooping, out)
            end
      end
  end.

(** * Notions used in the statements *)

(** An hourly item is read without an exception when its time parses and
    its probability converts. *)
Definition readable_item (item : HourlyItem) : Prop :=
  (exists t, read_fxTime item = Ok t)
  /\ (exists p, convert_or 0 (pop item) = Ok p).

(** The card of the digest and the value [push_to_feishu] returns for it. *)
Definition digest_card (cfg : Config) (today_data : DailyForecast) (s : Scan)
    : Card :=
  let t := daily_title (severe_days_indices s) (rain_days_indices s) in
  {| template := card_template t;
     title := t;
     content := full_content cfg today_data s |}.

Definition post_result (cfg : Config) (w : World) (data : Card) : bool :=
  post_attempts (session_post w (feishu_webhook_url cfg) data) 0 max_retry.

(** The daily trigger: the configured minute, on a date not yet served. *)
Definition daily_trigger (cfg : Config) (now : datetime) (st : MonitorState) : bool :=
  (hour now =? daily_push_hour cfg) && (minute now =? daily_push_minute cfg)
  && negb (bool_decide (last_daily_push_date st = Some (date now))).

(** The text the predicates of a day look at. *)
Definition text_to_check (d : DailyForecast) : string :=
  default "" (textDay d) +:+ default "" (textNight d).

(** The rule in words: the text names a shower, moderate rain, heavy rain,
    a rainstorm or extreme rainfall, or at least 5.0 mm are expected and the
    text mentions rain. *)
Definition rain_rule (precip_mm : float) (t : string) : Prop :=
  (str_in "阵雨" t = true \/ str_in "中雨" t = true \/ str_in "大雨" t = true
   \/ str_in "暴雨" t = true \/ str_in "极端降雨" t = true)
  \/ ((5 <=? precip_mm)%float = true /\ str_in "雨" t = true).

(** The line of the rain section for a day. *)
Definition rain_line (float_repr : float -> string) (today : Z) (d : DailyForecast)
    (raw : string) (dt : Z) (precip_mm : float) : string :=
  "∙ **" +:+ default raw (day_map !! (dt - today)) +:+ "**: "
  +:+ default "" (textDay d) +:+ "，预计降水 " +:+ float_repr precip_mm +:+ "mm".

(** The offsets the loop records are 0, 1 and 2 only. *)
Definition offsets_in_range (l : list Z) : Prop :=
  Forall (fun z => z = 0 \/ z = 1 \/ z = 2) l.

(** The phrase of each non-empty set of offsets: today, tomorrow, the day
    after, today and tomorrow, tomorrow and the day after, today and the day
    after, the next three days. *)
Definition suffix_table : list (gset Z * string) :=
  [ ({[0]}, "-今天有雨");
    ({[1]}, "-明天有雨");
    ({[2]}, "-后天有雨");
    ({[0; 1]}, "-今明天有雨");
    ({[1; 2]}, "-明后天有雨");
    ({[0; 2]}, "-今后天有雨");
    ({[0; 1; 2]}, "-未来三天有雨") ].

(** The time and the probability the loop reads from an item it can read. *)
Definition item_time (item : HourlyItem) : Z :=
  match fxTime item with
  | Present _ (Some t) => t
  | _ => 0
  end.

Definition item_pop (item : HourlyItem) : Z :=
  match pop item with
  | Present _ (Some p) => p
  | _ => 0
  end.

(** The dictionary built from an item. *)
Definition entry_of (item : HourlyItem) : HourlyForecast :=
  {| hf_time := strftime_HM (item_time item);
     hf_text := default "" (text item);
     hf_pop := item_pop item |}.

Definition item_in_window (now : Z) (item : HourlyItem) : bool :=
  in_window now (now + 6 * hour_us) (item_time item).

(** The strict rule in words: the text names moderate rain, heavy rain, a
    rainstorm or extreme rainfall. *)
Definition strict_rule (t : string) : Prop :=
  str_in "中雨" t = true \/ str_in "大雨" t = true
  \/ str_in "暴雨" t = true \/ str_in "极端降雨" t = true.

(** The dates on which a run pushes the digest: the date of every tick whose
    daily handler pushes, in order.  The run goes on to the next tick when
    the tick ends normally and stops when it raises. *)
Fixpoint digest_dates (float_repr : float -> string) (cfg : Config)
    (ticks : list (datetime * World)) (st : MonitorState) : list Z :=
  match ticks with
  | [] => []
  | (now, w) :: rest =>
      (if truthy (pushes (_handle_daily_push float_repr cfg w now st))
       then [date now] else [])
      ++ match outcome (tick float_repr cfg w now st) with
         | Ok _ =>
             digest_dates float_repr cfg rest
               (state_after (tick float_repr cfg w now st))
         | Raise _ => []
         end
  end.

(** The dates the ticks of a run read. *)
Definition tick_dates (ticks : list (datetime * World)) : list Z :=
  map (fun t => date t.1) ticks.

(** The calls of [_handle_rain_alert] that a run makes, tick after tick. *)
Fixpoint rain_alert_ticks (cfg : Config) (ticks : list (datetime * World)) : M unit :=
  match ticks with
  | [] => mret tt
  | (now, w) :: rest =>
      _ ← _handle_rain_alert cfg w now;
      rain_alert_ticks cfg rest
  end.

(** The check runs in a tick when the minute is a multiple of the interval. *)
Definition check_runs (cfg : Config) (now : datetime) : Prop :=
  py_mod (minute now) (check_interval_minutes cfg) = Ok 0.

(** A qualifying tick: the check runs and finds at least one qualifying
    hour.  A clear tick: the check runs and finds none. *)
Definition qualifying_tick (cfg : Config) (t : datetime * World) : Prop :=
  check_runs cfg t.1
  /\ exists hf, get_hourly_weather cfg t.2 = Ok hf /\ detect hf <> [].

Definition clear_tick (cfg : Config) (t : datetime * World) : Prop :=
  check_runs cfg t.1
  /\ exists hf, get_hourly_weather cfg t.2 = Ok hf /\ detect hf = [].

(** Two configurations that agree on everything but [rain_threshold_precip]
    and [rain_threshold_pop]. *)
Definition same_but_thresholds (cfg1 cfg2 : Config) : Prop :=
  feishu_webhook_url cfg1 = feishu_webhook_url cfg2
  /\ qweather_key cfg1 = qweather_key cfg2
  /\ api_host cfg1 = api_host cfg2
  /\ location cfg1 = location cfg2
  /\ location_name cfg1 = location_name cfg2
  /\ daily_push_hour cfg1 = daily_push_hour cfg2
  /\ daily_push_minute cfg1 = daily_push_minute cfg2
  /\ check_interval_minutes cfg1 = check_interval_minutes cfg2.

(** A card is a rain alert when its title starts as the title of the alert
    does; the titles of the digest start otherwise. *)
Definition is_rain_alert (p : Pushed) : bool :=
  String.prefix "⚠️ 预计 " (title (card p)).

Definition is_digest (p : Pushed) : bool := negb (is_rain_alert p).

(** A day is read without an exception when its precipitation converts and
    its date parses. *)
Definition readable_day (d : DailyForecast) : Prop :=
  (exists p, convert_or 0%float (precip d) = Ok p)
  /\ (exists raw dt, fxDate d = Present raw (Some dt)).

(** What the loop of [get_hourly_weather] needs of an item to go past it:
    its time parses and, when it lies in the window, its probability
    converts. *)
Definition passable_item (now : Z) (item : HourlyItem) : Prop :=
  (exists t, read_fxTime item = Ok t)
  /\ (item_in_window now item = true -> exists p, convert_or 0 (pop item) = Ok p).

(** The exception an item makes the loop of [get_hourly_weather] raise, if
    any: that of its time, or, for an item in the window, that of its
    probability. *)
Definition item_exn (now : Z) (item : HourlyItem) : option exn :=
  match read_fxTime item with
  | Raise e => Some e
  | Ok t =>
      if in_window now (now + 6 * hour_us) t then
        match convert_or 0 (pop item) with
        | Raise e => Some e
        | Ok _ => None
        end
      else None
  end.

(** The exception a day makes the loop of [_handle_daily_push] raise, if
    any: that of its precipitation, which is converted first, or that of its
    date. *)
Definition day_exn (d : DailyForecast) : option exn :=
  match convert_or 0%float (precip d) with
  | Raise e => Some e
  | Ok _ =>
      match read_fxDate d with
      | Raise e => Some e
      | Ok _ => None
      end
  end.

(** Whether the date of a day is today, tomorrow or the day after. *)
Definition day_in_range (today : Z) (d : DailyForecast) : bool :=
  match fxDate d with
  | Present _ (Some dt) => in_day_map (dt - today)
  | _ => false
  end.

(** The severe keywords without those that contain another one. *)
Definition distinct_severe_keywords : list string :=
  ["冰雹"; "台风"; "雪"; "沙尘暴"; "雾"; "霾"; "冻雨"].

(** Whether a tick is clear: the check runs and finds no qualifying hour. *)
Definition clear_tickb (cfg : Config) (t : datetime * World) : bool :=
  match py_mod (minute t.1) (check_interval_minutes cfg) with
  | Ok r =>
      (r =? 0)
      && match get_hourly_weather cfg t.2 with
         | Ok hf => negb (truthy (detect hf))
         | Raise _ => false
         end
  | Raise _ => false
  end.

(** An option is found, with its interpolation done. *)
Definition found {A : Type} (o : lookup A) : Prop :=
  exists a, o = Found a.

(** The five text options are found; the five numbers are found; the five
    numbers convert. *)
Definition texts_found (ini : Options) : Prop :=
  found (ini_feishu_webhook_url ini) /\ found (ini_qweather_key ini)
  /\ found (ini_api_host ini) /\ found (ini_location ini)
  /\ found (ini_name ini).

Definition numbers_found (ini : Options) : Prop :=
  found (ini_daily_push_hour ini) /\ found (ini_daily_push_minute ini)
  /\ found (ini_check_interval_minutes ini)
  /\ found (ini_rain_threshold_precip ini)
  /\ found (ini_rain_threshold_pop ini).

Definition converts {A : Type} (o : lookup (option A)) : Prop :=
  exists v, o = Found (Some v).

Definition numbers_convert (ini : Options) : Prop :=
  converts (ini_daily_push_hour ini) /\ converts (ini_daily_push_minute ini)
  /\ converts (ini_check_interval_minutes ini)
  /\ converts (ini_rain_threshold_precip ini)
  /\ converts (ini_rain_threshold_pop ini).

(** * Sample configuration, forecasts and worlds *)

Definition sample_config : Config :=
  {| feishu_webhook_url := "https://open.feishu.cn/hook";
     qweather_key := "KEY";
     api_host := "https://devapi.qweather.com";
     location := "101010100";
     location_name := "北京";
     daily_push_hour := 8;
     daily_push_minute := 0;
     check_interval_minutes := 5;
     rain_threshold_precip := 5%float;
     rain_threshold_pop := 50 |}.

(** The three days of the example: sunny, then moderate rain with 12 mm,
    then overcast, dated today, tomorrow and the day after. *)
Definition example_day (raw : string) (dt : Z) (t : string)
    (raw_mm : string) (mm : float) : DailyForecast :=
  {| fxDate := Present raw (Some dt);
     tempMax := Some "30"; tempMin := Some "21";
     textDay := Some t; textNight := Some t;
     windDirDay := Some "南风"; windScaleDay := Some "3";
     humidity := Some "60";
     precip := Present raw_mm (Some mm) |}.

(** 739007 is the ordinal of 2024-05-01. *)
Definition example_triple : list DailyForecast :=
  [ example_day "2024-05-01" 739007 "晴" "0.0" 0%float;
    example_day "2024-05-02" 739008 "中雨" "12.0" 12%float;
    example_day "2024-05-03" 739009 "阴" "0.0" 0%float ].

(** 2024-05-01T00:00:00+08:00, in microseconds since the epoch. *)
Definition may_first : Z := 1714492800 * 1000000.

(** The world of the boundary case: the clock reads 15:00 local time and the
    provider lists one hour, 21:00, exactly six hours ahead. *)
Definition boundary_item : HourlyItem :=
  {| fxTime := Present "2024-05-01T21:00+08:00" (Some (may_first + 21 * hour_us));
     text := Some "大雨";
     pop := Present "80" (Some 80) |}.

Definition boundary_world : World :=
  {| session_get := fun _ _ =>
       Returned (Some {| code := Some "200"; daily := None;
                         hourly := Some [boundary_item] |});
     session_post := fun _ _ _ =>
       Returned {| StatusCode := Some 0; post_code := None |};
     clock := may_first + 15 * hour_us |}.

(** The hours of the example: light rain at 15:00, moderate rain at 16:00,
    light rain at 17:00. *)
Definition example_hours : list HourlyForecast :=
  [ {| hf_time := "15:00"; hf_text := "小雨"; hf_pop := 70 |};
    {| hf_time := "16:00"; hf_text := "中雨"; hf_pop := 90 |};
    {| hf_time := "17:00"; hf_text := "小雨"; hf_pop := 60 |} ].

Definition example_hour_item (raw : string) (t : Z) (txt : string) (p : Z)
    : HourlyItem :=
  {| fxTime := Present raw (Some t); text := Some txt;
     pop := Present (str_int p) (Some p) |}.

(** A world whose clock reads 14:30 local time and whose provider lists the
    hours of the example. *)
Definition example_rain_world : World :=
  {| session_get := fun _ _ =>
       Returned
         (Some
            {| code := Some "200"; daily := None;
               hourly := Some
                 [ example_hour_item "2024-05-01T15:00+08:00"
                     (may_first + 15 * hour_us) "小雨" 70;
                   example_hour_item "2024-05-01T16:00+08:00"
                     (may_first + 16 * hour_us) "中雨" 90;
                   example_hour_item "2024-05-01T17:00+08:00"
                     (may_first + 17 * hour_us) "小雨" 60 ] |});
     session_post := fun _ _ _ =>
       Returned {| StatusCode := Some 0; post_code := None |};
     clock := may_first + 14 * hour_us + 1800 * 1000000 |}.

(** A provider that answers with the example triple, dated from 739007. *)
Definition example_daily_response : Response :=
  {| code := Some "200"; daily := Some example_triple; hourly := None |}.

(** Two worlds that differ in the webhook only: one accepts the card on the
    first attempt, the other refuses every attempt. *)
Definition accepting_world : World :=
  {| session_get := fun _ _ => Returned (Some example_daily_response);
     session_post := fun _ _ _ =>
       Returned {| StatusCode := Some 0; post_code := None |};
     clock := may_first + 8 * hour_us |}.

Definition refusing_world : World :=
  {| session_get := fun _ _ => Returned (Some example_daily_response);
     session_post := fun _ _ _ => RequestException;
     clock := may_first + 8 * hour_us |}.

(** Three ticks of one day, at 08:00:00, 08:00:30 and 08:01:00, with the
    digest due at 08:00. *)
Definition double_tick : list (datetime * World) :=
  [ (mkDatetime 739007 8 0 0, accepting_world);
    (mkDatetime 739007 8 0 30, accepting_world);
    (mkDatetime 739007 8 1 0, accepting_world) ].

(** A world whose provider lists light rain only. *)
Definition light_rain_world : World :=
  {| session_get := fun _ _ =>
       Returned
         (Some
            {| code := Some "200"; daily := None;
               hourly := Some
                 [ example_hour_item "2024-05-01T15:00+08:00"
                     (may_first + 15 * hour_us) "小雨" 70 ] |});
     session_post := fun _ _ _ =>
       Returned {| StatusCode := Some 0; post_code := None |};
     clock := may_first + 14 * hour_us + 1800 * 1000000 |}.

(** Five minutes apart: the rain of the example, then light rain only, then
    the rain of the example again. *)
Definition rain_clear_rain : list (datetime * World) :=
  [ (mkDatetime 739007 14 30 0, example_rain_world);
    (mkDatetime 739007 14 35 0, light_rain_world);
    (mkDatetime 739007 14 40 0, example_rain_world) ].

(** The example triple followed by a rainy day a week later. *)
Definition week_later_forecast : list DailyForecast :=
  example_triple ++ [example_day "2024-05-09" 739015 "中雨" "12.0" 12%float].

(** A fourth day without a date. *)
Definition undated_day : DailyForecast :=
  {| fxDate := Absent;
     tempMax := Some "30"; tempMin := Some "21";
     textDay := Some "晴"; textNight := Some "晴";
     windDirDay := Some "南风"; windScaleDay := Some "3";
     humidity := Some "60";
     precip := Present "0.0" (Some 0%float) |}.

(** A provider whose second record has no [fxTime]. *)
Definition untimed_item : HourlyItem :=
  {| fxTime := Absent; text := Some "晴"; pop := Absent |}.

Definition untimed_response : Response :=
  {| code := Some "200"; daily := None;
     hourly := Some [boundary_item; untimed_item] |}.

Definition untimed_item_world : World :=
  {| session_get := fun _ _ => Returned (Some untimed_response);
     session_post := fun _ _ _ => RequestException;
     clock := may_first + 15 * hour_us |}.

(** The options that [sample_config] is read from. *)
Definition sample_options : Options :=
  {| ini_feishu_webhook_url := Found "https://open.feishu.cn/hook";
     ini_qweather_key := Found "KEY";
     ini_api_host := Found "https://devapi.qweather.com";
     ini_location := Found "101010100";
     ini_name := Found "北京";
     ini_daily_push_hour := Found (Some 8);
     ini_daily_push_minute := Found (Some 0);
     ini_check_interval_minutes := Found (Some 5);
     ini_rain_threshold_precip := Found (Some 5%float);
     ini_rain_threshold_pop := Found (Some 50) |}.

Definition sample_ini : ConfigFile := Readable sample_options.

(** The same options with a check interval written [five], which [int]
    refuses. *)
Definition misspelt_options : Options :=
  {| ini_feishu_webhook_url := Found "https://open.feishu.cn/hook";
     ini_qweather_key := Found "KEY";
     ini_api_host := Found "https://devapi.qweather.com";
     ini_location := Found "101010100";
     ini_name := Found "北京";
     ini_daily_push_hour := Found (Some 8);
     ini_daily_push_minute := Found (Some 0);
     ini_check_interval_minutes := Found None;
     ini_rain_threshold_precip := Found (Some 5%float);
     ini_rain_threshold_pop := Found (Some 50) |}.

Definition misspelt_ini : ConfigFile := Readable misspelt_options.

(** The same options with a probability threshold written [50%]: the lone
    [%] fails the interpolation.  And with an hour that does not convert
    and no probability threshold at all. *)
Definition percent_options : Options :=
  {| ini_feishu_webhook_url := Found "https://open.feishu.cn/hook";
     ini_qweather_key := Found "KEY";
     ini_api_host := Found "https://devapi.qweather.com";
     ini_location := Found "101010100";
     ini_name := Found "北京";
     ini_daily_push_hour := Found (Some 8);
     ini_daily_push_minute := Found (Some 0);
     ini_check_interval_minutes := Found (Some 5);
     ini_rain_threshold_precip := Found (Some 5%float);
     ini_rain_threshold_pop := InterpolationError |}.

Definition two_faults_options : Options :=
  {| ini_feishu_webhook_url := Found "https://open.feishu.cn/hook";
     ini_qweather_key := Found "KEY";
     ini_api_host := Found "https://devapi.qweather.com";
     ini_location := Found "101010100";
     ini_name := Found "北京";
     ini_daily_push_hour := Found None;
     ini_daily_push_minute := Found (Some 0);
     ini_check_interval_minutes := Found (Some 5);
     ini_rain_threshold_precip := Found (Some 5%float);
     ini_rain_threshold_pop := NotFound |}.

(** A world that answers the daily request with the example triple and the
    hourly request with a record that has no [fxTime]. *)
Definition crashing_world : World :=
  {| session_get := fun url _ =>
       if String.eqb url (daily_url sample_config)
       then Returned (Some example_daily_response)
       else Returned (Some untimed_response);
     session_post := fun _ _ _ =>
       Returned {| StatusCode := Some 0; post_code := None |};
     clock := may_first + 8 * hour_us |}.

(** A monitor that meets [crashing_world] at 08:00:00, and the monitor
    started after it, which ticks at 08:00:10 of the same day. *)
Definition crash_and_restart : list Session :=
  [ {| session_ini := sample_ini;
       session_ticks := [(mkDatetime 739007 8 0 0, crashing_world)];
       session_world := accepting_world |};
    {| session_ini := sample_ini;
       session_ticks := [(mkDatetime 739007 8 0 10, accepting_world)];
       session_world := accepting_world |} ].

(** A world whose provider raises twice and then answers. *)
Definition flaky_world : World :=
  {| session_get := fun _ n =>
       if (n <? 2)%nat then RequestException
       else Returned (Some example_daily_response);
     session_post := fun _ _ _ => RequestException;
     clock := may_first + 8 * hour_us |}.

(** * Properties *)

(** ** The sleep computation *)

Lemma py_mod_ok (a b : Z) : b <> 0 -> py_mod a b = Ok (a mod b).
Proof.
  intros Hb. unfold py_mod.
  destruct (Z.eqb_spec b 0) as [E | _]; [contradiction | reflexivity].
Qed.

Lemma py_mod_zero_divisor (a : Z) : py_mod a 0 = Raise ZeroDivisionError.
Proof. reflexivity. Qed.

(** [next_minute] with a positive interval, in closed form. *)
Lemma next_minute_pos (cfg : Config) (now : datetime) :
  1 <= check_interval_minutes cfg ->
  next_minute cfg now
  = Ok (check_interval_minutes cfg
        - minute now mod check_interval_minutes cfg).
Proof.
  intros Hc. unfold next_minute.
  set (c := check_interval_minutes cfg) in *.
  rewrite py_mod_ok by lia. cbn [mbind result_bind].
  rewrite py_mod_ok by lia. cbn [mbind result_bind mret result_ret].
  f_equal.
  pose proof (Z.mod_pos_bound (minute now) c ltac:(lia)) as Hr.
  set (r := minute now mod c) in *.
  destruct (Z.eq_dec r 0) as [E | N].
  - rewrite E, Z.sub_0_r, Z.mod_same by lia. cbn. lia.
  - rewrite (Z.mod_small (c - r) c) by lia.
    destruct (Z.eqb_spec (c - r) 0); [lia | reflexivity].
Qed.

(** C9. For every time whose minute and second lie in [0, 59] and every
    interval of at least one minute, the tick computes a sleep that
    [time.sleep] accepts and that is strictly positive; the minute it wakes
    in, [minute + next_minute], is a multiple of the interval and is the
    first one after the current minute; and on a boundary the loop waits a
    full interval: [next_minute] is the interval itself and the wake-up is
    exactly [check_interval_minutes] minutes after the start of the current
    minute. *)
Theorem sleep_aligns_to_next_boundary (cfg : Config) (now : datetime) :
  0 <= minute now <= 59 ->
  0 <= second now <= 59 ->
  1 <= check_interval_minutes cfg ->
  exists n s : Z,
    next_minute cfg now = Ok n
    /\ sleep_seconds cfg now = Ok s
    /\ time_sleep s = Ok tt
    /\ s = n * 60 - second now
    /\ 0 < s
    /\ 1 <= n <= check_interval_minutes cfg
    /\ (minute now + n) mod check_interval_minutes cfg = 0
    /\ (forall k : Z, 0 < k < n ->
          (minute now + k) mod check_interval_minutes cfg <> 0)
    /\ (minute now mod check_interval_minutes cfg = 0 ->
          n = check_interval_minutes cfg
          /\ second now + s = check_interval_minutes cfg * 60).
Proof.
  intros Hm Hs Hc.
  set (c := check_interval_minutes cfg) in *.
  pose proof (Z.mod_pos_bound (minute now) c ltac:(lia)) as Hr.
  pose proof (Z.div_mod (minute now) c ltac:(lia)) as Hdm.
  exists (c - minute now mod c), ((c - minute now mod c) * 60 - second now).
  assert (Hn : next_minute cfg now = Ok (c - minute now mod c))
    by (apply next_minute_pos; exact Hc).
  set (r := minute now mod c) in *.
  set (q := minute now / c) in *.
  split; [exact Hn |].
  split; [unfold sleep_seconds; rewrite Hn; reflexivity |].
  split.
  { unfold time_sleep.
    destruct (Z.ltb_spec ((c - r) * 60 - second now) 0); [lia | reflexivity]. }
  split; [reflexivity |].
  split; [lia |].
  split; [lia |].
  split.
  { replace (minute now + (c - r)) with ((q + 1) * c) by lia.
    apply Z.mod_mul. lia. }
  split.
  { intros k Hk Hz.
    assert (E : minute now + k = q * c + (r + k)) by lia.
    rewrite E, Z.add_comm, Z.mod_add, Z.mod_small in Hz by lia. lia. }
  intros Hz. lia.
Qed.

Lemma sleep_aligns_to_next_boundary_witness :
  exists n s : Z,
    next_minute sample_config (mkDatetime 739000 8 0 0) = Ok n
    /\ sleep_seconds sample_config (mkDatetime 739000 8 0 0) = Ok s
    /\ n = 5 /\ s = 300.
Proof.
  destruct (sleep_aligns_to_next_boundary sample_config (mkDatetime 739000 8 0 0))
    as (n & s & Hn & Hs & _ & _ & _ & _ & _ & _ & Hb); cbn; try lia.
  exists n, s. cbn in Hb. destruct Hb as [En Es]; [reflexivity |].
  repeat split; [exact Hn | exact Hs | exact En | lia].
Defined.

(** ** The two handlers, case by case *)

Lemma _handle_daily_push_cases (float_repr : float -> string) (cfg : Config)
    (w : World) (now : datetime) (st : MonitorState) :
  _handle_daily_push float_repr cfg w now st
  = if daily_trigger cfg now st then
      match get_daily_weather cfg w with
      | Some (today_data :: rest) =>
          match scan_forecast float_repr (date now) (today_data :: rest) empty_scan with
          | Ok s =>
              let data := digest_card cfg today_data s in
              (Ok tt,
               {| rain_active := rain_active st;
                  last_daily_push_date := Some (date now) |},
               [{| card := data; delivered := post_result cfg w data |}])
          | Raise e => (Raise e, st, [])
          end
      | _ => (Ok tt, st, [])
      end
    else (Ok tt, st, []).
Proof.
  unfold _handle_daily_push, daily_trigger.
  destruct ((hour now =? daily_push_hour cfg) && (minute now =? daily_push_minute cfg));
    [| reflexivity].
  cbv [mbind M_bind get_state]. cbn [andb].
  destruct (negb (bool_decide (last_daily_push_date st = Some (date now))));
    [| reflexivity].
  destruct (get_daily_weather cfg w) as [[| today_data rest] |]; try reflexivity.
  unfold lift.
  destruct (scan_forecast float_repr (date now) (today_data :: rest) empty_scan);
    reflexivity.
Qed.

(** The check runs on the minutes that are multiples of the interval.  It
    gets past line 272 only with an empty forecast, in which nothing can be
    detected: it then resets the flag. *)
Lemma _handle_rain_alert_cases (cfg : Config) (w : World) (now : datetime)
    (st : MonitorState) :
  _handle_rain_alert cfg w now st
  = match py_mod (minute now) (check_interval_minutes cfg) with
    | Raise e => (Raise e, st, [])
    | Ok r =>
        if r =? 0 then
          match get_hourly_weather cfg w with
          | Raise e => (Raise e, st, [])
          | Ok [] =>
              (Ok tt,
               {| rain_active := false;
                  last_daily_push_date := last_daily_push_date st |},
               [])
          | Ok (_ :: _) => (Raise SyntaxError, st, [])
          end
        else (Ok tt, st, [])
    end.
Proof.
  unfold _handle_rain_alert, lift. cbv [mbind M_bind get_state].
  destruct (py_mod (minute now) (check_interval_minutes cfg)) as [r | e];
    [| reflexivity].
  destruct (r =? 0); [| reflexivity].
  destruct (get_hourly_weather cfg w) as [[| f hf] | e]; reflexivity.
Qed.

(** ** The rain rule of the digest *)

Lemma in_day_map_spec (z : Z) : in_day_map z = true <-> z = 0 \/ z = 1 \/ z = 2.
Proof.
  unfold in_day_map, day_map. rewrite bool_decide_eq_true.
  split.
  - intros [x Hx].
    destruct (decide (z = 0)); [auto |].
    destruct (decide (z = 1)); [auto |].
    destruct (decide (z = 2)); [auto |].
    rewrite !lookup_insert_ne in Hx by congruence.
    rewrite lookup_singleton_ne in Hx by congruence. discriminate.
  - intros [-> | [-> | ->]]; vm_compute; eauto.
Qed.

Lemma rain_rule_decides (precip_mm : float) (t : string) :
  is_rain_by_keyword t || is_rain_by_precip precip_mm t = true
  <-> rain_rule precip_mm t.
Proof.
  unfold rain_rule, is_rain_by_keyword, is_rain_by_precip, any_in, rain_keywords.
  cbn [existsb].
  rewrite !orb_true_iff, andb_true_iff. intuition congruence.
Qed.

(** C6. A day the loop can read is flagged as a rain day, that is, gets a
    line in [rain_alerts] (and its offset in [rain_days_indices] when the
    offset is 0, 1 or 2), if and only if its day and night texts together
    contain one of the five rain keywords, or its precipitation is at least
    5.0 mm and the text contains the rain character; a day that does not
    meet the rule leaves both lists as they were.  On the example triple the
    rain days are [{1}], no day is severe, and the title ends in "rain
    tomorrow". *)
Theorem rain_day_iff_rule (float_repr : float -> string) :
  (forall (today : Z) (acc : Scan) (d : DailyForecast)
          (precip_mm : float) (raw : string) (dt : Z),
      convert_or 0%float (precip d) = Ok precip_mm ->
      fxDate d = Present raw (Some dt) ->
      exists acc' : Scan,
        scan_day float_repr today acc d = Ok acc'
        /\ (rain_rule precip_mm (text_to_check d) ->
              rain_alerts acc'
              = rain_alerts acc ++ [rain_line float_repr today d raw dt precip_mm]
              /\ (0 <= dt - today <= 2 ->
                    rain_days_indices acc' = rain_days_indices acc ++ [dt - today])
              /\ (~ 0 <= dt - today <= 2 ->
                    rain_days_indices acc' = rain_days_indices acc))
        /\ (~ rain_rule precip_mm (text_to_check d) ->
              rain_alerts acc' = rain_alerts acc
              /\ rain_days_indices acc' = rain_days_indices acc))
  /\ (exists s : Scan,
        scan_forecast float_repr 739007 example_triple empty_scan = Ok s
        /\ list_to_set (rain_days_indices s) = ({[1]} : gset Z)
        /\ severe_days_indices s = []
        /\ daily_title (severe_days_indices s) (rain_days_indices s)
           = "⚠️ 今日天气" +:+ "-明天有雨").
Proof.
  split.
  - intros today acc d precip_mm raw dt Hp Hd.
    unfold scan_day, read_fxDate. rewrite Hp, Hd.
    cbv [mbind result_bind]. cbn [fst snd].
    fold (text_to_check d).
    pose proof (rain_rule_decides precip_mm (text_to_check d)) as Hrule.
    pose proof (in_day_map_spec (dt - today)) as Hmap.
    destruct (is_rain_by_keyword (text_to_check d)
              || is_rain_by_precip precip_mm (text_to_check d)) eqn:Er;
      destruct (any_in other_severe_keywords (text_to_check d));
      eexists; (split; [reflexivity |]); cbn [rain_alerts rain_days_indices];
      (split; [intros Hr | intros Hn]).
    all: try (exfalso; apply Hn, Hrule; reflexivity).
    all: try (apply Hrule in Hr; discriminate Hr).
    all: try (split; reflexivity).
    all: split; [reflexivity |]; split; intros Hoff.
    all: destruct (in_day_map (dt - today)) eqn:Ei; try reflexivity.
    all: try (assert (true = true) as Ht by reflexivity; apply Hmap in Ht; lia).
    all: assert (false = true) as Hf by (apply Hmap; lia); discriminate Hf.
  - eexists. split; [vm_compute; reflexivity |].
    split; [vm_compute; reflexivity |].
    split; vm_compute; reflexivity.
Qed.

(** ** The title of the digest *)

Lemma offsets_in_range_snoc (l : list Z) (z : Z) :
  offsets_in_range l -> in_day_map z = true -> offsets_in_range (l ++ [z]).
Proof.
  intros Hl Hz. apply Forall_app. split; [exact Hl |].
  constructor; [apply in_day_map_spec; exact Hz | constructor].
Qed.

Lemma scan_day_offsets (float_repr : float -> string) (today : Z)
    (acc acc' : Scan) (d : DailyForecast) :
  scan_day float_repr today acc d = Ok acc' ->
  offsets_in_range (rain_days_indices acc)
  /\ offsets_in_range (severe_days_indices acc) ->
  offsets_in_range (rain_days_indices acc')
  /\ offsets_in_range (severe_days_indices acc').
Proof.
  unfold scan_day, read_fxDate. intros H [Hr Hs].
  destruct (convert_or 0%float (precip d)) as [p | e]; [| discriminate H].
  destruct (fxDate d) as [| raw [dt |] | ?]; try discriminate H.
  cbv [mbind result_bind] in H. cbn [fst snd] in H.
  destruct (is_rain_by_keyword _ || is_rain_by_precip _ _);
    destruct (any_in other_severe_keywords _);
    destruct (in_day_map (dt - today)) eqn:Ei;
    injection H as <-; cbn [rain_days_indices severe_days_indices];
    split; auto using offsets_in_range_snoc.
Qed.

Lemma scan_forecast_offsets (float_repr : float -> string) (today : Z)
    (forecast_data : list DailyForecast) :
  forall acc s : Scan,
    scan_forecast float_repr today forecast_data acc = Ok s ->
    offsets_in_range (rain_days_indices acc)
    /\ offsets_in_range (severe_days_indices acc) ->
    offsets_in_range (rain_days_indices s)
    /\ offsets_in_range (severe_days_indices s).
Proof.
  induction forecast_data as [| d rest IH]; intros acc s H Hacc.
  - injection H as <-. exact Hacc.
  - cbn [scan_forecast] in H.
    destruct (scan_day float_repr today acc d) as [acc' |] eqn:Ed;
      [| discriminate H].
    cbv [mbind result_bind] in H.
    apply (IH acc' s H). eapply scan_day_offsets; eauto.
Qed.

Lemma offsets_in_range_subseteq (l : list Z) :
  offsets_in_range l -> (list_to_set l : gset Z) ⊆ {[0; 1; 2]}.
Proof.
  intros Hl x Hx. apply elem_of_list_to_set in Hx.
  unfold offsets_in_range in Hl. rewrite Forall_forall in Hl.
  destruct (Hl x Hx) as [-> | [-> | ->]]; set_solver.
Qed.

Lemma list_to_set_empty_nil (l : list Z) :
  (list_to_set l : gset Z) = ∅ <-> l = [].
Proof.
  split; [| intros ->; reflexivity].
  destruct l as [| z l]; [reflexivity |].
  intros H. exfalso.
  assert (Hz : z ∈ (list_to_set (z :: l) : gset Z)) by set_solver.
  rewrite H in Hz. set_solver.
Qed.

Lemma truthy_false {A : Type} (l : list A) : truthy l = false <-> l = [].
Proof. destruct l; cbn; split; intros H; first [reflexivity | discriminate H | congruence]. Qed.

Lemma truthy_true {A : Type} (l : list A) : truthy l = true <-> l <> [].
Proof. destruct l; cbn; split; intros H; first [reflexivity | discriminate H | congruence]. Qed.

Lemma subsets_of_three (S : gset Z) :
  S ⊆ {[0; 1; 2]} -> S <> ∅ ->
  S = {[0]} \/ S = {[1]} \/ S = {[2]} \/ S = {[0; 1]} \/ S = {[1; 2]}
  \/ S = {[0; 2]} \/ S = {[0; 1; 2]}.
Proof.
  intros Hsub Hne.
  destruct (decide (0 ∈ S)) as [I0 | N0], (decide (1 ∈ S)) as [I1 | N1],
    (decide (2 ∈ S)) as [I2 | N2].
  - do 6 right. set_solver.
  - do 3 right. left. set_solver.
  - do 5 right. left. set_solver.
  - left. set_solver.
  - do 4 right. left. set_solver.
  - right. left. set_solver.
  - do 2 right. left. set_solver.
  - exfalso. apply Hne. set_solver.
Qed.

Lemma daily_title_rain (severe rain : list Z) :
  severe = [] -> rain <> [] ->
  daily_title severe rain = "⚠️ 今日天气" +:+ rain_suffix (list_to_set rain).
Proof.
  intros -> Hr. unfold daily_title. cbn [truthy].
  apply truthy_true in Hr. rewrite Hr. reflexivity.
Qed.

Lemma suffix_table_distinct (S S' : gset Z) (suffix : string) :
  In (S, suffix) suffix_table -> In (S', suffix) suffix_table -> S' = S.
Proof.
  unfold suffix_table. cbn [In]. intros H H'.
  repeat (destruct H as [H | H]; [injection H as <- <- |]); try contradiction;
    repeat (destruct H' as [H' | H'];
            [pose proof (f_equal snd H') as E; cbn [snd] in E;
             first [discriminate E | exact (eq_sym (f_equal fst H'))] |]);
    contradiction.
Qed.

(** Every card [_handle_daily_push] pushes is the digest card of the
    forecast it fetched. *)
Lemma daily_push_card (float_repr : float -> string) (cfg : Config) (w : World)
    (now : datetime) (st : MonitorState) (p : Pushed) :
  In p (pushes (_handle_daily_push float_repr cfg w now st)) ->
  exists (today_data : DailyForecast) (rest : list DailyForecast) (s : Scan),
    get_daily_weather cfg w = Some (today_data :: rest)
    /\ scan_forecast float_repr (date now) (today_data :: rest) empty_scan = Ok s
    /\ p = {| card := digest_card cfg today_data s;
              delivered := post_result cfg w (digest_card cfg today_data s) |}.
Proof.
  rewrite _handle_daily_push_cases.
  destruct (daily_trigger cfg now st); [| intros []].
  destruct (get_daily_weather cfg w) as [[| today_data rest] |]; try (intros []).
  destruct (scan_forecast float_repr (date now) (today_data :: rest) empty_scan)
    as [s | e] eqn:Es; [| intros []].
  cbn. intros [<- | []]. exists today_data, rest, s. auto.
Qed.

(** C4. When no day is severe and the set of rain offsets is a non-empty
    subset [S] of [{0, 1, 2}], the title is the warning title followed by the
    phrase the table assigns to [S]; the phrase is not empty, so the title is
    neither the bare warning title nor the default title, and no other set of
    the table has the same phrase.  The offsets the loop records always form
    a subset of [{0, 1, 2}], so every digest with rain days and no severe day
    is covered. *)
Theorem rain_suffix_total_and_exact :
  (forall (S : gset Z) (severe rain : list Z),
      S ⊆ {[0; 1; 2]} -> S <> ∅ ->
      (list_to_set severe : gset Z) = ∅ ->
      (list_to_set rain : gset Z) = S ->
      exists suffix : string,
        In (S, suffix) suffix_table
        /\ suffix <> ""
        /\ daily_title severe rain = "⚠️ 今日天气" +:+ suffix
        /\ daily_title severe rain <> "📢 今日天气"
        /\ (forall S' : gset Z, In (S', suffix) suffix_table -> S' = S))
  /\ (forall (float_repr : float -> string) (today : Z)
             (forecast_data : list DailyForecast) (s : Scan),
        scan_forecast float_repr today forecast_data empty_scan = Ok s ->
        (list_to_set (rain_days_indices s) : gset Z) ⊆ {[0; 1; 2]}).
Proof.
  split.
  - intros S severe rain Hsub Hne Hsev Hrain.
    apply list_to_set_empty_nil in Hsev.
    assert (Hr : rain <> []).
    { intros ->. apply Hne. rewrite <- Hrain. reflexivity. }
    pose proof (daily_title_rain severe rain Hsev Hr) as Ht.
    rewrite Hrain in Ht. rewrite Ht. clear Ht Hrain Hr Hsev.
    destruct (subsets_of_three S Hsub Hne)
      as [-> | [-> | [-> | [-> | [-> | [-> | ->]]]]]].
    + exists "-今天有雨".
      split; [cbn; tauto |]. split; [discriminate |].
      split; [vm_compute; reflexivity |]. split; [vm_compute; discriminate |].
      intros S' HS'. eapply suffix_table_distinct; [| exact HS']. cbn; tauto.
    + exists "-明天有雨".
      split; [cbn; tauto |]. split; [discriminate |].
      split; [vm_compute; reflexivity |]. split; [vm_compute; discriminate |].
      intros S' HS'. eapply suffix_table_distinct; [| exact HS']. cbn; tauto.
    + exists "-后天有雨".
      split; [cbn; tauto |]. split; [discriminate |].
      split; [vm_compute; reflexivity |]. split; [vm_compute; discriminate |].
      intros S' HS'. eapply suffix_table_distinct; [| exact HS']. cbn; tauto.
    + exists "-今明天有雨".
      split; [cbn; tauto |]. split; [discriminate |].
      split; [vm_compute; reflexivity |]. split; [vm_compute; discriminate |].
      intros S' HS'. eapply suffix_table_distinct; [| exact HS']. cbn; tauto.
    + exists "-明后天有雨".
      split; [cbn; tauto |]. split; [discriminate |].
      split; [vm_compute; reflexivity |]. split; [vm_compute; discriminate |].
      intros S' HS'. eapply suffix_table_distinct; [| exact HS']. cbn; tauto.
    + exists "-今后天有雨".
      split; [cbn; tauto |]. split; [discriminate |].
      split; [vm_compute; reflexivity |]. split; [vm_compute; discriminate |].
      intros S' HS'. eapply suffix_table_distinct; [| exact HS']. cbn; tauto.
    + exists "-未来三天有雨".
      split; [cbn; tauto |]. split; [discriminate |].
      split; [vm_compute; reflexivity |]. split; [vm_compute; discriminate |].
      intros S' HS'. eapply suffix_table_distinct; [| exact HS']. cbn; tauto.
  - intros float_repr today forecast_data s Hs.
    apply offsets_in_range_subseteq.
    eapply (scan_forecast_offsets float_repr today forecast_data empty_scan s Hs).
    split; constructor.
Qed.

Lemma rain_suffix_total_and_exact_witness :
  exists suffix : string,
    In ({[0; 2]} : gset Z, suffix) suffix_table
    /\ suffix <> ""
    /\ daily_title [] [2; 0; 2] = "⚠️ 今日天气" +:+ suffix
    /\ daily_title [] [2; 0; 2] <> "📢 今日天气"
    /\ (forall S' : gset Z, In (S', suffix) suffix_table -> S' = {[0; 2]}).
Proof.
  apply (proj1 rain_suffix_total_and_exact {[0; 2]} [] [2; 0; 2]).
  - set_solver.
  - set_solver.
  - reflexivity.
  - apply (bool_decide_unpack _). vm_compute. exact I.
Defined.

(** C5. The title is a function of the two sets of offsets: two digests
    whose severe sets and rain sets agree get the same title, whatever the
    forecasts, the configuration and the day.  A severe day decides the
    title whatever the rain days are, and with no severe and no rain day the
    title is the plain one, without the warning sign. *)
Theorem title_determined_severe_first :
  (forall severe1 rain1 severe2 rain2 : list Z,
      (list_to_set severe1 : gset Z) = list_to_set severe2 ->
      (list_to_set rain1 : gset Z) = list_to_set rain2 ->
      daily_title severe1 rain1 = daily_title severe2 rain2)
  /\ (forall severe rain : list Z,
        (list_to_set severe : gset Z) <> ∅ ->
        daily_title severe rain = "⚠️ 今日天气-恶劣天气预警")
  /\ (forall severe rain : list Z,
        (list_to_set severe : gset Z) = ∅ ->
        (list_to_set rain : gset Z) = ∅ ->
        daily_title severe rain = "📢 今日天气"
        /\ str_in "⚠️" (daily_title severe rain) = false)
  /\ (forall (float_repr1 float_repr2 : float -> string) (cfg1 cfg2 : Config)
             (w1 w2 : World) (now1 now2 : datetime) (st1 st2 : MonitorState)
             (p1 p2 : Pushed) (data1 data2 : list DailyForecast) (s1 s2 : Scan),
        In p1 (pushes (_handle_daily_push float_repr1 cfg1 w1 now1 st1)) ->
        In p2 (pushes (_handle_daily_push float_repr2 cfg2 w2 now2 st2)) ->
        get_daily_weather cfg1 w1 = Some data1 ->
        get_daily_weather cfg2 w2 = Some data2 ->
        scan_forecast float_repr1 (date now1) data1 empty_scan = Ok s1 ->
        scan_forecast float_repr2 (date now2) data2 empty_scan = Ok s2 ->
        (list_to_set (severe_days_indices s1) : gset Z)
        = list_to_set (severe_days_indices s2) ->
        (list_to_set (rain_days_indices s1) : gset Z)
        = list_to_set (rain_days_indices s2) ->
        title (card p1) = title (card p2)).
Proof.
  assert (Hdet : forall severe1 rain1 severe2 rain2 : list Z,
             (list_to_set severe1 : gset Z) = list_to_set severe2 ->
             (list_to_set rain1 : gset Z) = list_to_set rain2 ->
             daily_title severe1 rain1 = daily_title severe2 rain2).
  { intros severe1 rain1 severe2 rain2 Hs Hr. unfold daily_title.
    assert (Es : truthy severe1 = truthy severe2).
    { destruct severe1 as [| a l1], severe2 as [| b l2]; try reflexivity;
        exfalso.
      - symmetry in Hs. apply list_to_set_empty_nil in Hs. discriminate Hs.
      - apply list_to_set_empty_nil in Hs. discriminate Hs. }
    assert (Er : truthy rain1 = truthy rain2).
    { destruct rain1 as [| a l1], rain2 as [| b l2]; try reflexivity;
        exfalso.
      - symmetry in Hr. apply list_to_set_empty_nil in Hr. discriminate Hr.
      - apply list_to_set_empty_nil in Hr. discriminate Hr. }
    rewrite Es, Er, Hr. reflexivity. }
  split; [exact Hdet |].
  split.
  { intros severe rain Hne. unfold daily_title.
    destruct severe as [| a l]; [exfalso; apply Hne; reflexivity | reflexivity]. }
  split.
  { intros severe rain Hs Hr.
    apply list_to_set_empty_nil in Hs. apply list_to_set_empty_nil in Hr.
    subst. split; vm_compute; reflexivity. }
  intros fr1 fr2 cfg1 cfg2 w1 w2 now1 now2 st1 st2 p1 p2 data1 data2 s1 s2
    Hp1 Hp2 Hd1 Hd2 Hs1 Hs2 Hsev Hrain.
  apply daily_push_card in Hp1 as (t1 & r1 & s1' & Hg1 & Hsc1 & ->).
  apply daily_push_card in Hp2 as (t2 & r2 & s2' & Hg2 & Hsc2 & ->).
  rewrite Hd1 in Hg1. injection Hg1 as ->.
  rewrite Hd2 in Hg2. injection Hg2 as ->.
  rewrite Hs1 in Hsc1. injection Hsc1 as <-.
  rewrite Hs2 in Hsc2. injection Hsc2 as <-.
  cbn [card title digest_card]. apply Hdet; assumption.
Qed.

Lemma title_determined_severe_first_witness :
  daily_title [1] [0; 1; 2] = daily_title [1; 1] [2; 1; 0; 0]
  /\ daily_title [1] [0; 1; 2] = "⚠️ 今日天气-恶劣天气预警".
Proof.
  split.
  - apply (proj1 title_determined_severe_first [1] [0; 1; 2] [1; 1] [2; 1; 0; 0]);
      apply (bool_decide_unpack _); vm_compute; exact I.
  - reflexivity.
Defined.

Lemma rain_day_iff_rule_witness :
  exists acc' : Scan,
    scan_day (fun _ => "12.0") 739007 empty_scan
      (example_day "2024-05-02" 739008 "中雨" "12.0" 12%float) = Ok acc'.
Proof.
  destruct (proj1 (rain_day_iff_rule (fun _ => "12.0")) 739007 empty_scan
              (example_day "2024-05-02" 739008 "中雨" "12.0" 12%float)
              12%float "2024-05-02" 739008 eq_refl eq_refl)
    as (acc' & Hacc & _).
  exists acc'. exact Hacc.
Defined.

(** ** The window of [get_hourly_weather] *)

Lemma hourly_loop_ok (now : Z) (items : list HourlyItem) :
  forall acc res : list HourlyForecast,
    hourly_loop now (now + 6 * hour_us) items acc = Ok res ->
    res = acc ++ map entry_of (List.filter (item_in_window now) items).
Proof.
  induction items as [| item items IH]; intros acc res H.
  - injection H as <-. cbn. rewrite app_nil_r. reflexivity.
  - cbn [hourly_loop] in H. cbn [List.filter].
    unfold item_in_window at 1. unfold item_time at 1.
    unfold read_fxTime in H.
    destruct (fxTime item) as [| raw [t |] | ?] eqn:Et; try discriminate H.
    cbv [mbind result_bind] in H.
    destruct (in_window now (now + 6 * hour_us) t) eqn:Ew.
    + destruct (pop item) as [| rawp [p |] | ?] eqn:Ep; cbn [convert_or] in H;
        try discriminate H; apply IH in H; rewrite H, <- app_assoc;
        cbn [map app]; unfold entry_of, item_time, item_pop; rewrite Et, Ep;
        reflexivity.
    + apply IH in H. exact H.
Qed.

Lemma hourly_loop_total (now next : Z) (items : list HourlyItem) :
  Forall readable_item items ->
  forall acc : list HourlyForecast,
    exists res, hourly_loop now next items acc = Ok res.
Proof.
  induction 1 as [| item items [[t Ht] [p Hp]] _ IH]; intros acc.
  - eexists. reflexivity.
  - cbn [hourly_loop]. rewrite Ht. cbv [mbind result_bind].
    destruct (in_window now next t); [rewrite Hp |]; apply IH.
Qed.

(** A fetch that succeeds: some attempt returned an object whose code is
    the string 200. *)
Lemma fetch_failed_false (resp : option Response) :
  fetch_failed resp = false <-> exists r, resp = Some r /\ code r = Some "200".
Proof.
  unfold fetch_failed, falsy. split.
  - destruct resp as [r |]; [| discriminate].
    intros H. apply orb_false_iff in H as [_ H].
    apply negb_false_iff, bool_decide_eq_true in H. eauto.
  - intros (r & -> & Hc). rewrite Hc. reflexivity.
Qed.

Lemma fetch_failed_true (resp : option Response) :
  fetch_failed resp = true
  <-> resp = None \/ exists r, resp = Some r /\ code r <> Some "200".
Proof.
  split.
  - intros H. destruct resp as [r |]; [right | left; reflexivity].
    exists r. split; [reflexivity |]. intros Hc.
    assert (Hf : fetch_failed (Some r) = false)
      by (apply fetch_failed_false; eauto).
    congruence.
  - intros [-> | (r & -> & Hc)]; [reflexivity |].
    destruct (fetch_failed (Some r)) eqn:Ef; [reflexivity |].
    apply fetch_failed_false in Ef as (r' & [= <-] & Hc'). contradiction.
Qed.

(** C3, as stated, fails: a record whose time is exactly six hours after
    the clock is returned, not left out. *)
Lemma window_keeps_the_sixth_hour :
  item_time boundary_item = clock boundary_world + 6 * hour_us
  /\ get_hourly_weather sample_config boundary_world
     = Ok [{| hf_time := "21:00"; hf_text := "大雨"; hf_pop := 80 |}].
Proof. split; vm_compute; reflexivity. Qed.

(** C3, amended. After a fetch that succeeds, [get_hourly_weather] returns
    exactly the provider's hourly records whose time lies in the closed
    window from the clock to six hours later, both ends included, in the
    provider's order, each as its local HH:MM label (UTC+8), its text and
    its probability as an integer; it does return when every record can be
    read. *)
Theorem hourly_window_is_closed (cfg : Config) (w : World) (r : Response) :
  _request_with_retry w (hourly_url cfg) = Some r ->
  code r = Some "200" ->
  (forall res : list HourlyForecast,
      get_hourly_weather cfg w = Ok res ->
      res = map entry_of
              (List.filter (item_in_window (clock w)) (default [] (hourly r))))
  /\ (Forall readable_item (default [] (hourly r)) ->
      exists res, get_hourly_weather cfg w = Ok res)
  /\ (forall item : HourlyItem,
        item_in_window (clock w) item = true
        <-> clock w <= item_time item <= clock w + 6 * 3600 * 1000000)
  /\ (forall item : HourlyItem,
        hf_time (entry_of item)
        = two_digits (((item_time item + 8 * 3600 * 1000000) / 1000000)
                        mod 86400 / 3600)
          +:+ ":"
          +:+ two_digits ((((item_time item + 8 * 3600 * 1000000) / 1000000)
                           mod 86400) mod 3600 / 60)).
Proof.
  intros Hreq Hcode.
  assert (Hf : fetch_failed (Some r) = false)
    by (apply fetch_failed_false; eauto).
  assert (Hg : get_hourly_weather cfg w
               = hourly_loop (clock w) (clock w + 6 * hour_us)
                   (default [] (hourly r)) []).
  { unfold get_hourly_weather. rewrite Hreq, Hf. reflexivity. }
  split; [| split; [| split]].
  - intros res Hres. rewrite Hg in Hres.
    apply hourly_loop_ok in Hres. exact Hres.
  - intros Hall. rewrite Hg. apply hourly_loop_total. exact Hall.
  - intros item. unfold item_in_window, in_window, hour_us.
    rewrite andb_true_iff, !Z.leb_le. lia.
  - intros item. reflexivity.
Qed.

Lemma hourly_window_is_closed_witness :
  exists res, get_hourly_weather sample_config boundary_world = Ok res.
Proof.
  refine (proj1 (proj2 (hourly_window_is_closed sample_config boundary_world
            {| code := Some "200"; daily := None; hourly := Some [boundary_item] |}
            eq_refl eq_refl)) _).
  repeat constructor; eexists; reflexivity.
Defined.

(** ** The qualifying hours and the card of the alert *)

Lemma qualifying_iff_strict_rule (item : HourlyForecast) :
  qualifying item = true <-> strict_rule (hf_text item).
Proof.
  unfold qualifying, strict_rule, any_in, severe_rain_keywords. cbn [existsb].
  rewrite !orb_true_iff. intuition congruence.
Qed.

(** No call of [_handle_rain_alert] pushes a card. *)
Lemma rain_alert_pushes_nothing (cfg : Config) (w : World) (now : datetime)
    (st : MonitorState) :
  pushes (_handle_rain_alert cfg w now st) = [].
Proof.
  rewrite _handle_rain_alert_cases.
  destruct (py_mod (minute now) (check_interval_minutes cfg)) as [r | e];
    [| reflexivity].
  destruct (r =? 0); [| reflexivity].
  destruct (get_hourly_weather cfg w) as [[| f hf] | e]; reflexivity.
Qed.

(** When the check runs on a forecast that is not empty, the call stops at
    line 272. *)
Lemma rain_alert_stops_at_malformed_line (cfg : Config) (w : World)
    (now : datetime) (st : MonitorState) (hf : list HourlyForecast) :
  check_runs cfg now ->
  get_hourly_weather cfg w = Ok hf ->
  hf <> [] ->
  _handle_rain_alert cfg w now st = (Raise SyntaxError, st, []).
Proof.
  unfold check_runs. intros Hc Hg Hne.
  rewrite _handle_rain_alert_cases, Hc, Hg. cbn [Z.eqb].
  destruct hf as [| f hf]; [contradiction | reflexivity].
Qed.

Lemma detect_nonempty (hf : list HourlyForecast) : detect hf <> [] -> hf <> [].
Proof. intros H ->. apply H. reflexivity. Qed.

(** C7. The test of an hour is the one the claim describes: a record
    qualifies if and only if its text contains one of the four strict
    keywords, every text that qualifies meets the daily keyword rule, and
    the shower and light-rain texts do not qualify although a shower meets
    the daily rule.  The card is not what the claim describes, because none
    is ever built: line 293, which is to list the qualifying hours, is
    malformed, and so is line 272, which every forecast that is not empty
    meets first.  No call of [_handle_rain_alert] pushes a card, and a call
    whose check runs and finds a qualifying hour raises [SyntaxError] with
    the state as it was.  On the hours of the example the 16:00 record alone
    qualifies and line 291 computes a title that names 16:00, yet the call
    raises, pushes nothing and leaves [rain_active] false. *)
Theorem qualifying_rule_and_malformed_alert :
  (forall item : HourlyForecast,
      qualifying item = true <-> strict_rule (hf_text item))
  /\ (forall t : string,
        any_in severe_rain_keywords t = true -> is_rain_by_keyword t = true)
  /\ (is_rain_by_keyword "阵雨" = true
      /\ forall (time : string) (p : Z),
           qualifying {| hf_time := time; hf_text := "阵雨"; hf_pop := p |} = false
           /\ qualifying {| hf_time := time; hf_text := "小雨"; hf_pop := p |} = false)
  /\ (forall (cfg : Config) (w : World) (now : datetime) (st : MonitorState),
        pushes (_handle_rain_alert cfg w now st) = [])
  /\ (forall (cfg : Config) (w : World) (now : datetime) (st : MonitorState)
             (hourly_forecasts : list HourlyForecast),
        minute now mod check_interval_minutes cfg = 0 ->
        check_interval_minutes cfg <> 0 ->
        get_hourly_weather cfg w = Ok hourly_forecasts ->
        List.filter qualifying hourly_forecasts <> [] ->
        _handle_rain_alert cfg w now st = (Raise SyntaxError, st, []))
  /\ (detect example_hours
      = [{| hf_time := "16:00"; hf_text := "中雨"; hf_pop := 90 |}]
      /\ rain_alert_title (rain_start example_hours)
         = "⚠️ 预计 " +:+ "16:00" +:+ " 有强降雨，请注意"
      /\ get_hourly_weather sample_config example_rain_world = Ok example_hours
      /\ _handle_rain_alert sample_config example_rain_world
           (mkDatetime 739007 14 30 0) initial_state
         = (Raise SyntaxError, initial_state, [])).
Proof.
  split; [exact qualifying_iff_strict_rule |].
  split.
  { intros t. unfold any_in, is_rain_by_keyword, any_in, severe_rain_keywords,
      rain_keywords. cbn [existsb]. rewrite !orb_true_iff. tauto. }
  split.
  { split; [vm_compute; reflexivity |]. intros time p.
    split; vm_compute; reflexivity. }
  split; [exact rain_alert_pushes_nothing |].
  split.
  { intros cfg w now st hf Hm Hc Hg Hd.
    apply (rain_alert_stops_at_malformed_line cfg w now st hf).
    - unfold check_runs. rewrite py_mod_ok by exact Hc. rewrite Hm. reflexivity.
    - exact Hg.
    - apply detect_nonempty. exact Hd. }
  split; [vm_compute; reflexivity |].
  split; [vm_compute; reflexivity |].
  split; vm_compute; reflexivity.
Qed.

Lemma qualifying_rule_and_malformed_alert_witness :
  _handle_rain_alert sample_config example_rain_world
    (mkDatetime 739007 14 30 0)
    {| rain_active := false; last_daily_push_date := Some 739006 |}
  = (Raise SyntaxError,
     {| rain_active := false; last_daily_push_date := Some 739006 |}, []).
Proof.
  apply (proj1 (proj2 (proj2 (proj2 (proj2 qualifying_rule_and_malformed_alert))))
           sample_config example_rain_world (mkDatetime 739007 14 30 0)
           {| rain_active := false; last_daily_push_date := Some 739006 |}
           example_hours).
  - reflexivity.
  - discriminate.
  - vm_compute. reflexivity.
  - vm_compute. discriminate.
Defined.

(** ** Failures of the two fetches, and the daily push *)

Lemma request_attempts_all_raise (get : nat -> attempt (option Response)) (remaining : nat) :
  forall attempt_no : nat,
    (forall n : nat, (attempt_no <= n < attempt_no + remaining)%nat ->
                     get n = RequestException) ->
    request_attempts get attempt_no remaining = None.
Proof.
  induction remaining as [| k IH]; intros attempt_no H; [reflexivity |].
  cbn [request_attempts]. rewrite (H attempt_no) by lia.
  apply IH. intros n Hn. apply H. lia.
Qed.

Lemma get_daily_weather_Some (cfg : Config) (w : World) (l : list DailyForecast) :
  get_daily_weather cfg w = Some l
  <-> exists r, _request_with_retry w (daily_url cfg) = Some r
                /\ code r = Some "200" /\ l = default [] (daily r).
Proof.
  unfold get_daily_weather.
  destruct (fetch_failed (_request_with_retry w (daily_url cfg))) eqn:Ef.
  - split; [discriminate |].
    intros (r & Hr & Hc & _).
    assert (Hf : fetch_failed (_request_with_retry w (daily_url cfg)) = false)
      by (apply fetch_failed_false; eauto).
    congruence.
  - apply fetch_failed_false in Ef as (r & -> & Hc). split.
    + intros [= <-]. eauto.
    + intros (r' & [= <-] & _ & ->). reflexivity.
Qed.

Lemma get_daily_weather_None (cfg : Config) (w : World) :
  get_daily_weather cfg w = None
  <-> _request_with_retry w (daily_url cfg) = None
      \/ exists r, _request_with_retry w (daily_url cfg) = Some r
                   /\ code r <> Some "200".
Proof.
  rewrite <- fetch_failed_true. unfold get_daily_weather.
  destruct (fetch_failed (_request_with_retry w (daily_url cfg))) eqn:Ef.
  - tauto.
  - apply fetch_failed_false in Ef as (r & -> & _).
    split; discriminate.
Qed.

(** What [_handle_daily_push] does to the state and to the list of pushes. *)
Lemma daily_push_effect (float_repr : float -> string) (cfg : Config) (w : World)
    (now : datetime) (st : MonitorState) :
  let r := _handle_daily_push float_repr cfg w now st in
  rain_active (state_after r) = rain_active st
  /\ (pushes r = [] /\ state_after r = st
      \/ exists p, pushes r = [p]
                   /\ outcome r = Ok tt
                   /\ daily_trigger cfg now st = true
                   /\ state_after r
                      = {| rain_active := rain_active st;
                           last_daily_push_date := Some (date now) |}).
Proof.
  cbv zeta. rewrite _handle_daily_push_cases.
  destruct (daily_trigger cfg now st); [| split; [reflexivity | left; split; reflexivity]].
  destruct (get_daily_weather cfg w) as [[| today_data rest] |];
    try (split; [reflexivity | left; split; reflexivity]).
  destruct (scan_forecast float_repr (date now) (today_data :: rest) empty_scan)
    as [s | e]; [| split; [reflexivity | left; split; reflexivity]].
  split; [reflexivity |]. right. eexists. repeat split.
Qed.

Lemma daily_trigger_true (cfg : Config) (now : datetime) (st : MonitorState) :
  daily_trigger cfg now st = true
  <-> hour now = daily_push_hour cfg
      /\ minute now = daily_push_minute cfg
      /\ last_daily_push_date st <> Some (date now).
Proof.
  unfold daily_trigger.
  rewrite !andb_true_iff, !Z.eqb_eq, negb_true_iff, bool_decide_eq_false.
  tauto.
Qed.

(** C8. The two fetches fail differently.  When every attempt raises, or the
    provider's code is not the string 200, [get_daily_weather] returns
    [None], which no successful fetch returns, and [get_hourly_weather]
    returns the empty list.  On a failed daily fetch [_handle_daily_push]
    pushes nothing and leaves the state as it was.  Whenever it calls
    [push_to_feishu] it ends normally with [last_daily_push_date] set to
    today, whatever the webhook answered: the state after the call does not
    depend on the webhook at all, and both a delivered and an undelivered
    push mark the date. *)
Theorem fetch_failures_and_daily_marking :
  (forall (w : World) (url : string),
      (forall n : nat, (n < max_retry)%nat -> session_get w url n = RequestException) ->
      _request_with_retry w url = None)
  /\ (forall (cfg : Config) (w : World),
        _request_with_retry w (daily_url cfg) = None
        \/ (exists r, _request_with_retry w (daily_url cfg) = Some r
                      /\ code r <> Some "200") ->
        get_daily_weather cfg w = None)
  /\ (forall (cfg : Config) (w : World) (l : list DailyForecast),
        get_daily_weather cfg w = Some l ->
        exists r, _request_with_retry w (daily_url cfg) = Some r
                  /\ code r = Some "200" /\ l = default [] (daily r))
  /\ (forall (cfg : Config) (w : World),
        _request_with_retry w (hourly_url cfg) = None
        \/ (exists r, _request_with_retry w (hourly_url cfg) = Some r
                      /\ code r <> Some "200") ->
        get_hourly_weather cfg w = Ok [])
  /\ (forall (float_repr : float -> string) (cfg : Config) (w : World)
             (now : datetime) (st : MonitorState),
        get_daily_weather cfg w = None ->
        _handle_daily_push float_repr cfg w now st = (Ok tt, st, []))
  /\ (forall (float_repr : float -> string) (cfg : Config) (w : World)
             (now : datetime) (st : MonitorState) (p : Pushed),
        In p (pushes (_handle_daily_push float_repr cfg w now st)) ->
        outcome (_handle_daily_push float_repr cfg w now st) = Ok tt
        /\ pushes (_handle_daily_push float_repr cfg w now st) = [p]
        /\ last_daily_push_date
             (state_after (_handle_daily_push float_repr cfg w now st))
           = Some (date now))
  /\ (forall (float_repr : float -> string) (cfg : Config) (w : World)
             (post : string -> Card -> nat -> attempt PostResponse)
             (now : datetime) (st : MonitorState),
        state_after (_handle_daily_push float_repr cfg w now st)
        = state_after
            (_handle_daily_push float_repr cfg
               {| session_get := session_get w; session_post := post;
                  clock := clock w |} now st))
  /\ (forall float_repr : float -> string,
        (exists p, _handle_daily_push float_repr sample_config accepting_world
                     (mkDatetime 739007 8 0 0) initial_state
                   = (Ok tt,
                      {| rain_active := false;
                         last_daily_push_date := Some 739007 |}, [p])
                   /\ delivered p = true)
        /\ (exists p, _handle_daily_push float_repr sample_config refusing_world
                        (mkDatetime 739007 8 0 0) initial_state
                      = (Ok tt,
                         {| rain_active := false;
                            last_daily_push_date := Some 739007 |}, [p])
                      /\ delivered p = false)).
Proof.
  split.
  { intros w url H. apply request_attempts_all_raise.
    intros n Hn. apply H. lia. }
  split; [intros cfg w H; apply get_daily_weather_None; exact H |].
  split; [intros cfg w l H; apply get_daily_weather_Some; exact H |].
  split.
  { intros cfg w H. apply fetch_failed_true in H.
    unfold get_hourly_weather. rewrite H. reflexivity. }
  split.
  { intros fr cfg w now st H. rewrite _handle_daily_push_cases, H.
    destruct (daily_trigger cfg now st); reflexivity. }
  split.
  { intros fr cfg w now st p Hp.
    destruct (daily_push_effect fr cfg w now st)
      as [_ [[Hnil _] | (q & Hq & Ho & _ & Hst)]].
    - rewrite Hnil in Hp. destruct Hp.
    - rewrite Hq in Hp. destruct Hp as [-> | []].
      rewrite Hst. auto. }
  split.
  { intros fr cfg w post now st. rewrite !_handle_daily_push_cases.
    destruct (daily_trigger cfg now st); [| reflexivity].
    change (get_daily_weather cfg
              {| session_get := session_get w; session_post := post;
                 clock := clock w |})
      with (get_daily_weather cfg w).
    destruct (get_daily_weather cfg w) as [[| today_data rest] |];
      try reflexivity.
    destruct (scan_forecast fr (date now) (today_data :: rest) empty_scan);
      reflexivity. }
  intros fr. split; eexists; split; vm_compute; reflexivity.
Qed.

Lemma fetch_failures_and_daily_marking_witness :
  get_daily_weather sample_config
    {| session_get := fun _ _ => RequestException;
       session_post := fun _ _ _ => RequestException;
       clock := 0 |} = None.
Proof.
  apply (proj1 (proj2 fetch_failures_and_daily_marking)).
  left.
  apply (proj1 fetch_failures_and_daily_marking).
  intros n _. reflexivity.
Defined.

(** ** One tick, and runs of the loop *)

(** What [_handle_rain_alert] does to the state and to the list of pushes. *)
Lemma rain_alert_effect (cfg : Config) (w : World) (now : datetime)
    (st : MonitorState) :
  let r := _handle_rain_alert cfg w now st in
  last_daily_push_date (state_after r) = last_daily_push_date st
  /\ (length (pushes r) <= 1)%nat.
Proof.
  cbv zeta. rewrite rain_alert_pushes_nothing, _handle_rain_alert_cases.
  split; [| cbn; lia].
  destruct (py_mod (minute now) (check_interval_minutes cfg)) as [r | e];
    [| reflexivity].
  destruct (r =? 0); [| reflexivity].
  destruct (get_hourly_weather cfg w) as [[| f hf] | e]; reflexivity.
Qed.

(** A tick leaves in [last_daily_push_date] what its daily handler left. *)
Lemma tick_last_daily_push_date (float_repr : float -> string) (cfg : Config)
    (w : World) (now : datetime) (st : MonitorState) :
  last_daily_push_date (state_after (tick float_repr cfg w now st))
  = last_daily_push_date
      (state_after (_handle_daily_push float_repr cfg w now st)).
Proof.
  unfold tick. cbv [mbind M_bind lift].
  destruct (_handle_daily_push float_repr cfg w now st) as [[[u | e] st1] out1];
    [| reflexivity].
  pose proof (rain_alert_effect cfg w now st1) as [Hl _]. cbv zeta in Hl.
  destruct (_handle_rain_alert cfg w now st1) as [[[u2 | e] st2] out2];
    [| exact Hl].
  destruct (sleep_seconds cfg now) as [s | e]; [| exact Hl].
  destruct (time_sleep s); exact Hl.
Qed.

Lemma digest_dates_are_tick_dates (float_repr : float -> string) (cfg : Config)
    (ticks : list (datetime * World)) :
  forall (st : MonitorState) (d : Z),
    In d (digest_dates float_repr cfg ticks st) -> In d (tick_dates ticks).
Proof.
  induction ticks as [| [now w] rest IH]; intros st d H; [destruct H |].
  cbn [digest_dates] in H. cbn [tick_dates map fst]. apply in_app_or in H.
  destruct H as [H | H].
  - destruct (truthy _); [| destruct H].
    destruct H as [<- | []]. left. reflexivity.
  - destruct (outcome _); [| destruct H]. right. eapply IH. exact H.
Qed.

(** Once a date is served, no later tick of a run whose dates do not go
    back serves it again. *)
Lemma served_date_not_repeated (float_repr : float -> string) (cfg : Config)
    (ticks : list (datetime * World)) :
  forall (st : MonitorState) (d0 : Z),
    last_daily_push_date st = Some d0 ->
    StronglySorted Z.le (d0 :: tick_dates ticks) ->
    ~ In d0 (digest_dates float_repr cfg ticks st).
Proof.
  induction ticks as [| [now w] rest IH]; intros st d0 Hlast Hs H;
    [destruct H |].
  cbn [digest_dates] in H. cbn [tick_dates map fst] in Hs.
  apply StronglySorted_inv in Hs as [Hs Hall].
  apply StronglySorted_inv in Hs as [Hrest Hnow].
  apply Forall_inv in Hall as Hle. apply Forall_inv_tail in Hall.
  pose proof (daily_push_effect float_repr cfg w now st) as [_ Heff].
  cbv zeta in Heff.
  pose proof (tick_last_daily_push_date float_repr cfg w now st) as Htick.
  destruct Heff as [[Hnil Hst] | (p & Hp & _ & Htr & Hst)].
  - rewrite Hnil in H. cbn [truthy app] in H.
    destruct (outcome (tick float_repr cfg w now st)); [| destruct H].
    refine (IH _ d0 _ _ H).
    + rewrite Htick, Hst. exact Hlast.
    + constructor; assumption.
  - apply daily_trigger_true in Htr as (_ & _ & Hne).
    assert (Hlt : d0 < date now).
    { assert (d0 <> date now) by congruence. lia. }
    rewrite Hp in H. cbn [truthy app] in H.
    destruct H as [E | H]; [lia |].
    destruct (outcome (tick float_repr cfg w now st)); [| destruct H].
    apply digest_dates_are_tick_dates in H.
    rewrite List.Forall_forall in Hnow. specialize (Hnow d0 H). lia.
Qed.

Lemma digest_dates_NoDup (float_repr : float -> string) (cfg : Config)
    (ticks : list (datetime * World)) :
  forall st : MonitorState,
    StronglySorted Z.le (tick_dates ticks) ->
    NoDup (digest_dates float_repr cfg ticks st).
Proof.
  induction ticks as [| [now w] rest IH]; intros st Hs; [constructor |].
  cbn [digest_dates]. cbn [tick_dates map fst] in Hs.
  pose proof Hs as Hs'. apply StronglySorted_inv in Hs' as [Hrest Hnow].
  pose proof (daily_push_effect float_repr cfg w now st) as [_ Heff].
  cbv zeta in Heff.
  pose proof (tick_last_daily_push_date float_repr cfg w now st) as Htick.
  destruct Heff as [[Hnil Hst] | (p & Hp & _ & _ & Hst)].
  - rewrite Hnil. cbn [truthy app].
    destruct (outcome (tick float_repr cfg w now st)); [| constructor].
    apply IH. exact Hrest.
  - rewrite Hp. cbn [truthy app].
    destruct (outcome (tick float_repr cfg w now st));
      [| apply NoDup_singleton].
    constructor; [| apply IH; exact Hrest].
    rewrite list_elem_of_In.
    apply served_date_not_repeated; [| exact Hs].
    rewrite Htick, Hst. reflexivity.
Qed.

(** ** The flag of the rain alert *)

(** A call of [_handle_rain_alert] never sets the flag: it leaves it or
    resets it. *)
Lemma rain_alert_never_sets_flag (cfg : Config) (w : World) (now : datetime)
    (st : MonitorState) :
  rain_active (state_after (_handle_rain_alert cfg w now st)) = true ->
  rain_active st = true.
Proof.
  rewrite _handle_rain_alert_cases.
  destruct (py_mod (minute now) (check_interval_minutes cfg)) as [r | e];
    [| auto].
  destruct (r =? 0); [| auto].
  destruct (get_hourly_weather cfg w) as [[| f hf] | e]; auto.
  cbn. discriminate.
Qed.

Lemma rain_alert_ticks_pushes_nothing (cfg : Config)
    (ticks : list (datetime * World)) :
  forall st : MonitorState,
    pushes (rain_alert_ticks cfg ticks st) = []
    /\ (rain_active (state_after (rain_alert_ticks cfg ticks st)) = true ->
        rain_active st = true).
Proof.
  induction ticks as [| [now w] rest IH]; intros st; [split; auto |].
  cbn [rain_alert_ticks]. cbv [mbind M_bind].
  pose proof (rain_alert_pushes_nothing cfg w now st) as Hp.
  pose proof (rain_alert_never_sets_flag cfg w now st) as Hf.
  destruct (_handle_rain_alert cfg w now st) as [[[u | e] st1] out1];
    cbn [pushes state_after fst snd] in Hp, Hf |- *; subst out1;
    [| split; auto].
  destruct (IH st1) as [IHp IHf].
  destruct (rain_alert_ticks cfg rest st1) as [[r st2] out2].
  cbn [pushes state_after fst snd] in IHp, IHf |- *. subst out2. split; auto.
Qed.

(** ** The two kinds of card in the pushes of a run *)

Lemma daily_title_is_not_alert (severe rain : list Z) :
  String.prefix "⚠️ 预计 " (daily_title severe rain) = false.
Proof.
  unfold daily_title.
  destruct (truthy severe); [reflexivity |].
  destruct (truthy rain); reflexivity.
Qed.

Lemma daily_pushes_are_digests (float_repr : float -> string) (cfg : Config)
    (w : World) (now : datetime) (st : MonitorState) :
  List.filter is_rain_alert (pushes (_handle_daily_push float_repr cfg w now st)) = []
  /\ List.filter is_digest (pushes (_handle_daily_push float_repr cfg w now st))
     = pushes (_handle_daily_push float_repr cfg w now st).
Proof.
  rewrite _handle_daily_push_cases.
  destruct (daily_trigger cfg now st); [| split; reflexivity].
  destruct (get_daily_weather cfg w) as [[| today_data rest] |];
    try (split; reflexivity).
  destruct (scan_forecast float_repr (date now) (today_data :: rest) empty_scan)
    as [s | e]; [| split; reflexivity].
  cbn [pushes snd List.filter]. unfold is_digest, is_rain_alert.
  cbn [card title digest_card].
  rewrite daily_title_is_not_alert. split; reflexivity.
Qed.

Lemma rain_alert_title_is_alert (rain_start_time : option string) :
  String.prefix "⚠️ 预计 " (rain_alert_title rain_start_time) = true.
Proof.
  unfold rain_alert_title.
  generalize (default "None" rain_start_time +:+ " 有强降雨，请注意").
  intros rest. cbn. destruct rest; reflexivity.
Qed.

Lemma rain_pushes_are_alerts (cfg : Config) (w : World) (now : datetime)
    (st : MonitorState) :
  List.filter is_rain_alert (pushes (_handle_rain_alert cfg w now st))
  = pushes (_handle_rain_alert cfg w now st)
  /\ List.filter is_digest (pushes (_handle_rain_alert cfg w now st)) = [].
Proof. rewrite rain_alert_pushes_nothing. split; reflexivity. Qed.

(** The pushes, the outcome and the state of a tick, from its handlers. *)
Lemma tick_pushes (float_repr : float -> string) (cfg : Config) (w : World)
    (now : datetime) (st : MonitorState) :
  pushes (tick float_repr cfg w now st)
  = pushes (_handle_daily_push float_repr cfg w now st)
    ++ match outcome (_handle_daily_push float_repr cfg w now st) with
       | Ok _ =>
           pushes (_handle_rain_alert cfg w now
                     (state_after (_handle_daily_push float_repr cfg w now st)))
       | Raise _ => []
       end.
Proof.
  unfold tick. cbv [mbind M_bind mret M_ret lift].
  destruct (_handle_daily_push float_repr cfg w now st) as [[[u | e] st1] out1];
    cbn [outcome state_after pushes fst snd]; [| rewrite app_nil_r; reflexivity].
  destruct (_handle_rain_alert cfg w now st1) as [[[u2 | e] st2] out2];
    cbn [pushes snd]; [| reflexivity].
  destruct (sleep_seconds cfg now) as [s | e]; cbn [pushes snd];
    [| rewrite app_nil_r; reflexivity].
  destruct (time_sleep s); cbn [pushes snd]; rewrite !app_nil_r; reflexivity.
Qed.

Lemma run_cons (float_repr : float -> string) (cfg : Config) (now : datetime)
    (w : World) (rest : list (datetime * World)) (st : MonitorState) :
  run float_repr cfg ((now, w) :: rest) st
  = match outcome (tick float_repr cfg w now st) with
    | Ok _ =>
        (outcome (run float_repr cfg rest
                    (state_after (tick float_repr cfg w now st))),
         state_after (run float_repr cfg rest
                        (state_after (tick float_repr cfg w now st))),
         pushes (tick float_repr cfg w now st)
         ++ pushes (run float_repr cfg rest
                      (state_after (tick float_repr cfg w now st))))
    | Raise e =>
        (Raise e, state_after (tick float_repr cfg w now st),
         pushes (tick float_repr cfg w now st))
    end.
Proof.
  cbn [run]. cbv [mbind M_bind].
  destruct (tick float_repr cfg w now st) as [[[s | e] st1] out1];
    cbn [outcome state_after pushes fst snd]; [| reflexivity].
  destruct (run float_repr cfg rest st1) as [[r st2] out2]. reflexivity.
Qed.

(** A tick pushes what its daily handler pushes, and never sets the flag. *)
Lemma tick_pushes_daily (float_repr : float -> string) (cfg : Config) (w : World)
    (now : datetime) (st : MonitorState) :
  pushes (tick float_repr cfg w now st)
  = pushes (_handle_daily_push float_repr cfg w now st).
Proof.
  rewrite tick_pushes.
  destruct (outcome (_handle_daily_push float_repr cfg w now st));
    [rewrite rain_alert_pushes_nothing |]; apply app_nil_r.
Qed.

Lemma tick_never_sets_flag (float_repr : float -> string) (cfg : Config)
    (w : World) (now : datetime) (st : MonitorState) :
  rain_active (state_after (tick float_repr cfg w now st)) = true ->
  rain_active st = true.
Proof.
  pose proof (daily_push_effect float_repr cfg w now st) as [Hd _].
  cbv zeta in Hd. rewrite <- Hd. clear Hd.
  unfold tick. cbv [mbind M_bind lift].
  destruct (_handle_daily_push float_repr cfg w now st) as [[[u | e] st1] out1];
    cbn [state_after fst snd]; [| auto].
  pose proof (rain_alert_never_sets_flag cfg w now st1) as Hr.
  destruct (_handle_rain_alert cfg w now st1) as [[[u2 | e] st2] out2];
    cbn [state_after fst snd] in Hr |- *; [| exact Hr].
  destruct (sleep_seconds cfg now) as [s | e]; cbn [fst snd]; [| exact Hr].
  destruct (time_sleep s); exact Hr.
Qed.

Lemma run_never_pushes_alert (float_repr : float -> string) (cfg : Config)
    (ticks : list (datetime * World)) :
  forall st : MonitorState,
    List.filter is_rain_alert (pushes (run float_repr cfg ticks st)) = []
    /\ (rain_active (state_after (run float_repr cfg ticks st)) = true ->
        rain_active st = true).
Proof.
  induction ticks as [| [now w] rest IH]; intros st; [split; auto |].
  rewrite run_cons.
  pose proof (tick_never_sets_flag float_repr cfg w now st) as Hf.
  assert (Hp : List.filter is_rain_alert (pushes (tick float_repr cfg w now st)) = []).
  { rewrite tick_pushes_daily. apply daily_pushes_are_digests. }
  destruct (outcome (tick float_repr cfg w now st)) as [s | e];
    cbn [pushes state_after fst snd]; [| split; auto].
  destruct (IH (state_after (tick float_repr cfg w now st))) as [IHp IHf].
  rewrite List.filter_app, Hp, IHp. split; auto.
Qed.

(** The digest cards among the pushes of a run are as many as the dates
    served. *)
Lemma run_digests (float_repr : float -> string) (cfg : Config)
    (ticks : list (datetime * World)) :
  forall st : MonitorState,
    length (List.filter is_digest (pushes (run float_repr cfg ticks st)))
    = length (digest_dates float_repr cfg ticks st).
Proof.
  induction ticks as [| [now w] rest IH]; intros st; [reflexivity |].
  rewrite run_cons. cbn [digest_dates].
  assert (Ht : length (List.filter is_digest (pushes (tick float_repr cfg w now st)))
               = length (if truthy (pushes (_handle_daily_push float_repr cfg w now st))
                         then [date now] else [])).
  { rewrite tick_pushes, List.filter_app.
    destruct (daily_pushes_are_digests float_repr cfg w now st) as [_ ->].
    assert (Hz : List.filter is_digest
                   match outcome (_handle_daily_push float_repr cfg w now st) with
                   | Ok _ =>
                       pushes (_handle_rain_alert cfg w now
                                 (state_after
                                    (_handle_daily_push float_repr cfg w now st)))
                   | Raise _ => []
                   end = []).
    { destruct (outcome (_handle_daily_push float_repr cfg w now st));
        [apply rain_pushes_are_alerts | reflexivity]. }
    rewrite Hz, app_nil_r.
    destruct (daily_push_effect float_repr cfg w now st)
      as [_ [[-> _] | (p & -> & _)]]; reflexivity. }
  destruct (outcome (tick float_repr cfg w now st)) as [s | e];
    cbn [pushes snd].
  - rewrite List.filter_app, !length_app, Ht, IH. reflexivity.
  - rewrite length_app, Ht. cbn. lia.
Qed.

(** ** The daily push, once per date *)

(** C2. [_handle_daily_push] pushes only in the configured hour and minute
    and only when today's date differs from [last_daily_push_date]; when it
    pushes it pushes one card and sets [last_daily_push_date] to today; and
    a call on a date already served pushes nothing and changes nothing, so a
    second tick in the trigger minute, or any later tick of that day, does
    not push again.  Hence in every run of the loop whose ticks read dates
    that do not go back, no date is served twice; the digest cards among the
    pushes of a run are as many as the dates served; and a run whose ticks
    all read the same date pushes at most one digest card. *)
Theorem daily_push_once_per_date :
  (forall (float_repr : float -> string) (cfg : Config) (w : World)
          (now : datetime) (st : MonitorState),
      pushes (_handle_daily_push float_repr cfg w now st) <> [] ->
      (hour now = daily_push_hour cfg
       /\ minute now = daily_push_minute cfg
       /\ last_daily_push_date st <> Some (date now))
      /\ length (pushes (_handle_daily_push float_repr cfg w now st)) = 1%nat
      /\ last_daily_push_date
           (state_after (_handle_daily_push float_repr cfg w now st))
         = Some (date now))
  /\ (forall (float_repr : float -> string) (cfg : Config) (w : World)
             (now : datetime) (st : MonitorState),
        last_daily_push_date st = Some (date now) ->
        _handle_daily_push float_repr cfg w now st = (Ok tt, st, []))
  /\ (forall (float_repr : float -> string) (cfg : Config)
             (ticks : list (datetime * World)) (st : MonitorState),
        Sorted Z.le (tick_dates ticks) ->
        NoDup (digest_dates float_repr cfg ticks st))
  /\ (forall (float_repr : float -> string) (cfg : Config)
             (ticks : list (datetime * World)) (st : MonitorState),
        length (List.filter is_digest (pushes (run float_repr cfg ticks st)))
        = length (digest_dates float_repr cfg ticks st))
  /\ (forall (float_repr : float -> string) (cfg : Config)
             (ticks : list (datetime * World)) (st : MonitorState) (d : Z),
        Forall (fun t => date t.1 = d) ticks ->
        (length (List.filter is_digest (pushes (run float_repr cfg ticks st)))
         <= 1)%nat).
Proof.
  split.
  { intros fr cfg w now st Hp.
    destruct (daily_push_effect fr cfg w now st)
      as [_ [[Hnil _] | (p & Hq & _ & Htr & Hst)]]; [contradiction |].
    apply daily_trigger_true in Htr. rewrite Hq, Hst. auto. }
  split.
  { intros fr cfg w now st Hlast. rewrite _handle_daily_push_cases.
    unfold daily_trigger. rewrite Hlast, bool_decide_eq_true_2 by reflexivity.
    rewrite andb_false_r. reflexivity. }
  assert (Hnodup : forall (fr : float -> string) (cfg : Config)
                          (ticks : list (datetime * World)) (st : MonitorState),
             Sorted Z.le (tick_dates ticks) ->
             NoDup (digest_dates fr cfg ticks st)).
  { intros fr cfg ticks st Hs. apply digest_dates_NoDup.
    apply Sorted_StronglySorted; [| exact Hs].
    intros x y z. apply Z.le_trans. }
  split; [exact Hnodup |].
  split; [intros fr cfg ticks st; apply run_digests |].
  intros fr cfg ticks st d Hall. rewrite run_digests.
  assert (Hsorted : Sorted Z.le (tick_dates ticks)).
  { clear st. induction Hall as [| [now w] rest Hd Hrest IH]; [constructor |].
    cbn [tick_dates map]. constructor; [exact IH |].
    destruct Hrest as [| [now' w'] rest' Hd' _]; constructor.
    cbn [fst] in *. lia. }
  specialize (Hnodup fr cfg ticks st Hsorted).
  assert (Hin : forall x, In x (digest_dates fr cfg ticks st) -> x = d).
  { intros x Hx. apply digest_dates_are_tick_dates in Hx.
    unfold tick_dates in Hx. apply in_map_iff in Hx as (t & <- & Ht).
    rewrite List.Forall_forall in Hall. apply Hall. exact Ht. }
  destruct (digest_dates fr cfg ticks st) as [| x [| y l]]; cbn; try lia.
  exfalso.
  assert (x = d) by (apply Hin; left; reflexivity).
  assert (y = d) by (apply Hin; right; left; reflexivity).
  subst. apply NoDup_cons in Hnodup as [Hn _]. apply Hn. left.
Qed.

Lemma daily_push_once_per_date_witness :
  NoDup (digest_dates (fun _ => "12.0") sample_config double_tick initial_state)
  /\ digest_dates (fun _ => "12.0") sample_config double_tick initial_state
     = [739007]
  /\ length (List.filter is_digest
               (pushes (run (fun _ => "12.0") sample_config double_tick
                          initial_state))) = 1%nat.
Proof.
  split.
  - apply (proj1 (proj2 (proj2 daily_push_once_per_date))).
    unfold double_tick, tick_dates. cbn. repeat constructor; lia.
  - split; vm_compute; reflexivity.
Defined.

(** ** The alert, once per episode *)

(** The check is gated on the minute (line 266).  At 14:32 with an interval
    of 5 the handler returns at once: a forecast that holds a qualifying
    hour is not even fetched, nothing is pushed and the flag stays clear;
    and a forecast without a qualifying hour does not reset a flag that is
    set. *)
Lemma off_boundary_tick_is_skipped :
  (get_hourly_weather sample_config example_rain_world = Ok example_hours
   /\ detect example_hours <> []
   /\ rain_active initial_state = false
   /\ _handle_rain_alert sample_config example_rain_world
        (mkDatetime 739007 14 32 0) initial_state
      = (Ok tt, initial_state, []))
  /\ (exists hf,
        get_hourly_weather sample_config light_rain_world = Ok hf
        /\ detect hf = []
        /\ _handle_rain_alert sample_config light_rain_world
             (mkDatetime 739007 14 32 0)
             {| rain_active := true; last_daily_push_date := None |}
           = (Ok tt, {| rain_active := true; last_daily_push_date := None |}, [])).
Proof.
  split.
  - split; [vm_compute; reflexivity |].
    split; [vm_compute; discriminate |].
    split; vm_compute; reflexivity.
  - eexists. split; [vm_compute; reflexivity |].
    split; vm_compute; reflexivity.
Qed.

(** C1. The hysteresis the claim describes is what lines 287 to 305 are
    written for, but the alert never comes about.  A tick whose check runs
    and finds a qualifying hour, the flag being clear, is to push one alert
    and set the flag; the call raises [SyntaxError] at line 272 instead,
    pushes nothing and leaves the flag clear.  So no sequence of calls
    pushes an alert or sets the flag, and no run of the loop pushes one: the
    counts of one alert for consecutive qualifying ticks and of two alerts
    for a qualifying, a clear and a qualifying tick are both zero, the first
    qualifying tick ending the sequence.  The flag is reset only by a check
    that runs on an empty forecast; a forecast that is not empty and holds
    no qualifying hour raises too. *)
Theorem rain_alert_is_never_pushed :
  (forall (cfg : Config) (t : datetime * World) (st : MonitorState),
      qualifying_tick cfg t ->
      _handle_rain_alert cfg t.2 t.1 st = (Raise SyntaxError, st, []))
  /\ (forall (cfg : Config) (ticks : list (datetime * World)) (st : MonitorState),
        pushes (rain_alert_ticks cfg ticks st) = []
        /\ (rain_active st = false ->
            rain_active (state_after (rain_alert_ticks cfg ticks st)) = false))
  /\ (forall (float_repr : float -> string) (cfg : Config)
             (ticks : list (datetime * World)) (st : MonitorState),
        List.filter is_rain_alert (pushes (run float_repr cfg ticks st)) = []
        /\ (rain_active st = false ->
            rain_active (state_after (run float_repr cfg ticks st)) = false))
  /\ (forall (cfg : Config) (t : datetime * World) (st : MonitorState)
             (hf : list HourlyForecast),
        check_runs cfg t.1 ->
        get_hourly_weather cfg t.2 = Ok hf ->
        _handle_rain_alert cfg t.2 t.1 st
        = match hf with
          | [] =>
              (Ok tt,
               {| rain_active := false;
                  last_daily_push_date := last_daily_push_date st |}, [])
          | _ :: _ => (Raise SyntaxError, st, [])
          end)
  /\ (qualifying_tick sample_config (mkDatetime 739007 14 30 0, example_rain_world)
      /\ rain_active initial_state = false
      /\ _handle_rain_alert sample_config example_rain_world
           (mkDatetime 739007 14 30 0) initial_state
         = (Raise SyntaxError, initial_state, []))
  /\ (qualifying_tick sample_config (mkDatetime 739007 14 30 0, example_rain_world)
      /\ clear_tick sample_config (mkDatetime 739007 14 35 0, light_rain_world)
      /\ qualifying_tick sample_config (mkDatetime 739007 14 40 0, example_rain_world)
      /\ rain_alert_ticks sample_config rain_clear_rain initial_state
         = (Raise SyntaxError, initial_state, [])).
Proof.
  assert (Hq : qualifying_tick sample_config
                 (mkDatetime 739007 14 30 0, example_rain_world)).
  { split; [reflexivity |]. exists example_hours.
    split; [vm_compute; reflexivity | vm_compute; discriminate]. }
  assert (Hq' : qualifying_tick sample_config
                  (mkDatetime 739007 14 40 0, example_rain_world)).
  { split; [reflexivity |]. exists example_hours.
    split; [vm_compute; reflexivity | vm_compute; discriminate]. }
  split.
  { intros cfg [now w] st [Hc (hf & Hg & Hd)]. cbn [fst snd] in *.
    apply (rain_alert_stops_at_malformed_line cfg w now st hf Hc Hg).
    apply detect_nonempty. exact Hd. }
  split.
  { intros cfg ticks st.
    destruct (rain_alert_ticks_pushes_nothing cfg ticks st) as [Hp Hf].
    split; [exact Hp |]. intros Hst.
    destruct (rain_active (state_after (rain_alert_ticks cfg ticks st)));
      [| reflexivity].
    rewrite Hf in Hst by reflexivity. discriminate Hst. }
  split.
  { intros fr cfg ticks st.
    destruct (run_never_pushes_alert fr cfg ticks st) as [Hp Hf].
    split; [exact Hp |]. intros Hst.
    destruct (rain_active (state_after (run fr cfg ticks st))); [| reflexivity].
    rewrite Hf in Hst by reflexivity. discriminate Hst. }
  split.
  { intros cfg [now w] st hf Hc Hg. cbn [fst snd] in *. unfold check_runs in Hc.
    rewrite _handle_rain_alert_cases, Hc, Hg. reflexivity. }
  split.
  { split; [exact Hq |]. split; vm_compute; reflexivity. }
  split; [exact Hq |]. split; [| split; [exact Hq' |]].
  - split; [reflexivity |]. eexists.
    split; [vm_compute; reflexivity | vm_compute; reflexivity].
  - vm_compute. reflexivity.
Qed.

Lemma rain_alert_is_never_pushed_witness :
  _handle_rain_alert sample_config example_rain_world
    (mkDatetime 739007 14 40 0)
    {| rain_active := false; last_daily_push_date := Some 739007 |}
  = (Raise SyntaxError,
     {| rain_active := false; last_daily_push_date := Some 739007 |}, []).
Proof.
  apply (proj1 rain_alert_is_never_pushed sample_config
           (mkDatetime 739007 14 40 0, example_rain_world)).
  split; [reflexivity |]. exists example_hours.
  split; [vm_compute; reflexivity | vm_compute; discriminate].
Defined.

(** ** The two thresholds of the configuration *)

(** C10. Two configurations that differ only in [rain_threshold_precip] and
    [rain_threshold_pop] make the monitor behave the same: both handlers,
    every tick and every run return the same value, leave the same state
    and push the same cards, in every world and from every state.  The rain
    rule of the digest compares the precipitation with the constant 5.0, and
    whether an hour qualifies does not depend on its probability. *)
Theorem thresholds_have_no_effect (cfg1 cfg2 : Config) :
  same_but_thresholds cfg1 cfg2 ->
  (forall (float_repr : float -> string) (w : World) (now : datetime)
          (st : MonitorState),
      _handle_daily_push float_repr cfg1 w now st
      = _handle_daily_push float_repr cfg2 w now st)
  /\ (forall (w : World) (now : datetime) (st : MonitorState),
        _handle_rain_alert cfg1 w now st = _handle_rain_alert cfg2 w now st)
  /\ (forall (float_repr : float -> string) (w : World) (now : datetime)
             (st : MonitorState),
        tick float_repr cfg1 w now st = tick float_repr cfg2 w now st)
  /\ (forall (float_repr : float -> string) (ticks : list (datetime * World))
             (st : MonitorState),
        run float_repr cfg1 ticks st = run float_repr cfg2 ticks st)
  /\ (forall (precip_mm : float) (t : string),
        is_rain_by_precip precip_mm t
        = PrimFloat.leb 5%float precip_mm && str_in "雨" t)
  /\ (forall (time txt : string) (pop1 pop2 : Z),
        qualifying {| hf_time := time; hf_text := txt; hf_pop := pop1 |}
        = qualifying {| hf_time := time; hf_text := txt; hf_pop := pop2 |}).
Proof.
  destruct cfg1 as [u1 k1 h1 l1 n1 ph1 pm1 ci1 tp1 tq1].
  destruct cfg2 as [u2 k2 h2 l2 n2 ph2 pm2 ci2 tp2 tq2].
  unfold same_but_thresholds. cbn.
  intros (-> & -> & -> & -> & -> & -> & -> & ->).
  assert (Hd : forall fr w now st,
             _handle_daily_push fr (mkConfig u2 k2 h2 l2 n2 ph2 pm2 ci2 tp1 tq1) w now st
             = _handle_daily_push fr (mkConfig u2 k2 h2 l2 n2 ph2 pm2 ci2 tp2 tq2) w now st)
    by reflexivity.
  assert (Hr : forall w now st,
             _handle_rain_alert (mkConfig u2 k2 h2 l2 n2 ph2 pm2 ci2 tp1 tq1) w now st
             = _handle_rain_alert (mkConfig u2 k2 h2 l2 n2 ph2 pm2 ci2 tp2 tq2) w now st)
    by reflexivity.
  assert (Ht : forall fr w now st,
             tick fr (mkConfig u2 k2 h2 l2 n2 ph2 pm2 ci2 tp1 tq1) w now st
             = tick fr (mkConfig u2 k2 h2 l2 n2 ph2 pm2 ci2 tp2 tq2) w now st)
    by reflexivity.
  split; [exact Hd |]. split; [exact Hr |]. split; [exact Ht |].
  split; [| split; reflexivity].
  intros fr ticks. induction ticks as [| [now w] rest IH]; intros st;
    [reflexivity |].
  cbn [run]. cbv [mbind M_bind]. rewrite Ht.
  destruct (tick fr _ w now st) as [[[s | e] st1] out1]; [| reflexivity].
  rewrite IH. reflexivity.
Qed.

Lemma thresholds_have_no_effect_witness :
  tick (fun _ => "12.0") sample_config accepting_world
    (mkDatetime 739007 8 0 0) initial_state
  = tick (fun _ => "12.0")
      {| feishu_webhook_url := feishu_webhook_url sample_config;
         qweather_key := qweather_key sample_config;
         api_host := api_host sample_config;
         location := location sample_config;
         location_name := location_name sample_config;
         daily_push_hour := daily_push_hour sample_config;
         daily_push_minute := daily_push_minute sample_config;
         check_interval_minutes := check_interval_minutes sample_config;
         rain_threshold_precip := 50%float;
         rain_threshold_pop := 0 |}
      accepting_world (mkDatetime 739007 8 0 0) initial_state.
Proof.
  apply (proj1 (proj2 (proj2 (thresholds_have_no_effect sample_config _
            ltac:(repeat split))))).
Defined.

(** * Further properties of the code *)

(** ** Substrings *)

Lemma prefix_nil (t : string) : String.prefix "" t = true.
Proof. destruct t; reflexivity. Qed.

Lemma prefix_iff_append (k : string) :
  forall t : string,
    String.prefix k t = true <-> exists post, t = k +:+ post.
Proof.
  induction k as [| a k IH]; intros t.
  - rewrite prefix_nil. split; [intros _; exists t; reflexivity | reflexivity].
  - destruct t as [| b t]; cbn [String.prefix String.append].
    + split; [discriminate | intros [post H]; discriminate H].
    + destruct (ascii_dec a b) as [-> | Hab].
      * rewrite IH. split; intros [post H]; exists post;
          [rewrite H; reflexivity | cbn in H; injection H as H; exact H].
      * split; [discriminate |].
        intros [post H]. cbn in H. injection H as E _. congruence.
Qed.

Lemma append_assoc (a b c : string) : (a +:+ b) +:+ c = a +:+ b +:+ c.
Proof.
  induction a as [| x a IH]; [reflexivity |].
  change (String x ((a +:+ b) +:+ c) = String x (a +:+ b +:+ c)).
  rewrite IH. reflexivity.
Qed.

Lemma str_in_spec (k t : string) :
  str_in k t = true <-> exists pre post : string, t = pre +:+ k +:+ post.
Proof.
  induction t as [| c t IH].
  - cbn [str_in]. rewrite orb_false_r, prefix_iff_append. split.
    + intros [post H]. exists "", post. exact H.
    + intros (pre & post & H). destruct pre as [| x pre]; [| discriminate H].
      exists post. exact H.
  - cbn [str_in]. rewrite orb_true_iff, IH, prefix_iff_append. split.
    + intros [[post H] | (pre & post & H)].
      * exists "", post. exact H.
      * exists (String c pre), post. rewrite H. reflexivity.
    + intros (pre & post & H). destruct pre as [| x pre].
      * left. exists post. exact H.
      * right. exists pre, post.
        change (String c t = String x (pre +:+ k +:+ post)) in H.
        injection H as _ H. exact H.
Qed.

Lemma str_in_trans (a b t : string) :
  str_in a b = true -> str_in b t = true -> str_in a t = true.
Proof.
  rewrite !str_in_spec.
  intros (p1 & q1 & ->) (p2 & q2 & ->).
  exists (p2 +:+ p1), (q1 +:+ q2).
  rewrite !append_assoc. reflexivity.
Qed.

Lemma str_in_append_l (k a b : string) :
  str_in k a = true -> str_in k (a +:+ b) = true.
Proof.
  rewrite !str_in_spec. intros (p & q & ->).
  exists p, (q +:+ b). rewrite !append_assoc. reflexivity.
Qed.

Lemma str_in_append_r (k a b : string) :
  str_in k b = true -> str_in k (a +:+ b) = true.
Proof.
  rewrite !str_in_spec. intros (p & q & ->).
  exists (a +:+ p), q. rewrite !append_assoc. reflexivity.
Qed.

(** X4. [k in t] holds exactly when [t] is some text, then [k], then some
    text: the test the classifiers use is substring search, with no
    condition on where the keyword stands, so a keyword found in a text is
    found in every text that contains it. *)
Theorem str_in_iff_substring (k t : string) :
  (str_in k t = true <-> exists pre post : string, t = pre +:+ k +:+ post)
  /\ (forall a b : string,
        str_in k t = true -> str_in k (a +:+ t +:+ b) = true).
Proof.
  split; [apply str_in_spec |].
  intros a b H. apply str_in_append_r, str_in_append_l. exact H.
Qed.

Lemma str_in_iff_substring_witness :
  str_in "中雨" ("小到" +:+ "中雨" +:+ "转晴") = true.
Proof.
  apply (proj2 (str_in_iff_substring "中雨" "中雨") "小到" "转晴").
  reflexivity.
Defined.

Lemma any_in_append (keywords : list string) (a b : string) :
  any_in keywords a = true \/ any_in keywords b = true ->
  any_in keywords (a +:+ b) = true.
Proof.
  unfold any_in. rewrite !existsb_exists.
  intros [(k & Hk & H) | (k & Hk & H)]; exists k; split; auto.
  - apply str_in_append_l. exact H.
  - apply str_in_append_r. exact H.
Qed.

(** ** More on the rules of the digest *)

Lemma scan_day_readable (float_repr : float -> string) (today : Z) (acc : Scan)
    (d : DailyForecast) (precip_mm : float) (raw : string) (dt : Z) :
  convert_or 0%float (precip d) = Ok precip_mm ->
  fxDate d = Present raw (Some dt) ->
  exists acc' : Scan,
    scan_day float_repr today acc d = Ok acc'
    /\ rain_alerts acc'
       = (if is_rain_by_keyword (text_to_check d)
             || is_rain_by_precip precip_mm (text_to_check d)
          then rain_alerts acc ++ [rain_line float_repr today d raw dt precip_mm]
          else rain_alerts acc)
    /\ rain_days_indices acc'
       = (if (is_rain_by_keyword (text_to_check d)
              || is_rain_by_precip precip_mm (text_to_check d))
             && in_day_map (dt - today)
          then rain_days_indices acc ++ [dt - today]
          else rain_days_indices acc)
    /\ other_severe_alerts acc'
       = (if any_in other_severe_keywords (text_to_check d)
          then other_severe_alerts acc
               ++ ["∙ **" +:+ default raw (day_map !! (dt - today)) +:+ "**: "
                   +:+ default "" (textDay d)]
          else other_severe_alerts acc)
    /\ severe_days_indices acc'
       = (if any_in other_severe_keywords (text_to_check d)
             && in_day_map (dt - today)
          then severe_days_indices acc ++ [dt - today]
          else severe_days_indices acc).
Proof.
  intros Hp Hd. unfold scan_day, read_fxDate. rewrite Hp, Hd.
  cbv [mbind result_bind]. cbn [fst snd]. fold (text_to_check d).
  destruct (is_rain_by_keyword (text_to_check d)
            || is_rain_by_precip precip_mm (text_to_check d));
    destruct (any_in other_severe_keywords (text_to_check d));
    destruct (in_day_map (dt - today));
    eexists; (split; [reflexivity |]); repeat split; reflexivity.
Qed.

(** X5. Whatever the precipitation, a day whose day and night texts do not
    contain the rain character is not a rain day: the loop adds no line and
    no offset for it.  Every rain keyword contains that character, so the
    amount alone never flags a day. *)
Theorem no_rain_day_without_rain_character (float_repr : float -> string)
    (today : Z) (acc acc' : Scan) (d : DailyForecast) :
  str_in "雨" (text_to_check d) = false ->
  scan_day float_repr today acc d = Ok acc' ->
  rain_alerts acc' = rain_alerts acc
  /\ rain_days_indices acc' = rain_days_indices acc.
Proof.
  intros Hno Hs.
  assert (Hrule : forall p,
             is_rain_by_keyword (text_to_check d)
             || is_rain_by_precip p (text_to_check d) = false).
  { intros p. apply not_true_iff_false. intros H.
    assert (Hin : str_in "雨" (text_to_check d) = true).
    { apply orb_true_iff in H as [H | H].
      - unfold is_rain_by_keyword, any_in, rain_keywords in H.
        cbn [existsb] in H. rewrite !orb_true_iff in H.
        destruct H as [H | [H | [H | [H | [H | H]]]]]; try discriminate H;
          refine (str_in_trans _ _ _ _ H); vm_compute; reflexivity.
      - unfold is_rain_by_precip in H. apply andb_true_iff in H as [_ H].
        exact H. }
    congruence. }
  unfold scan_day in Hs.
  destruct (convert_or 0%float (precip d)) as [p | e] eqn:Ep;
    [| discriminate Hs].
  unfold read_fxDate in Hs.
  destruct (fxDate d) as [| raw [dt |] | ?] eqn:Ed; try discriminate Hs.
  destruct (scan_day_readable float_repr today acc d p raw dt Ep Ed)
    as (acc1 & H1 & Hra & Hri & _).
  unfold scan_day, read_fxDate in H1. rewrite Ep, Ed in H1.
  rewrite H1 in Hs. injection Hs as <-.
  rewrite Hra, Hri, Hrule. auto.
Qed.

Lemma no_rain_day_without_rain_character_witness :
  exists acc' : Scan,
    scan_day (fun _ => "30.0") 739007 empty_scan
      (example_day "2024-05-01" 739007 "多云" "30.0" 30%float) = Ok acc'
    /\ rain_alerts acc' = [] /\ rain_days_indices acc' = [].
Proof.
  eexists. split; [vm_compute; reflexivity |].
  apply (no_rain_day_without_rain_character (fun _ => "30.0") 739007 empty_scan _
           (example_day "2024-05-01" 739007 "多云" "30.0" 30%float)).
  - vm_compute. reflexivity.
  - vm_compute. reflexivity.
Defined.

(** X6. Rain that only the night text names flags the day as well, and the
    line then shows the day text, not the night text. *)
Theorem night_rain_flags_the_day (float_repr : float -> string) (today : Z)
    (acc : Scan) (d : DailyForecast) (precip_mm : float) (raw : string) (dt : Z) :
  convert_or 0%float (precip d) = Ok precip_mm ->
  fxDate d = Present raw (Some dt) ->
  is_rain_by_keyword (default "" (textNight d)) = true ->
  exists acc' : Scan,
    scan_day float_repr today acc d = Ok acc'
    /\ rain_alerts acc'
       = rain_alerts acc
         ++ ["∙ **" +:+ default raw (day_map !! (dt - today)) +:+ "**: "
             +:+ default "" (textDay d) +:+ "，预计降水 "
             +:+ float_repr precip_mm +:+ "mm"].
Proof.
  intros Hp Hd Hn.
  destruct (scan_day_readable float_repr today acc d precip_mm raw dt Hp Hd)
    as (acc' & Hs & Hra & _).
  exists acc'. split; [exact Hs |].
  assert (Hk : is_rain_by_keyword (text_to_check d) = true).
  { unfold is_rain_by_keyword, text_to_check in *.
    apply any_in_append. right. exact Hn. }
  rewrite Hra, Hk. reflexivity.
Qed.

Lemma night_rain_flags_the_day_witness :
  exists acc' : Scan,
    scan_day (fun _ => "1.0") 739007 empty_scan
      {| fxDate := Present "2024-05-01" (Some 739007);
         tempMax := None; tempMin := None;
         textDay := Some "晴"; textNight := Some "中雨";
         windDirDay := None; windScaleDay := None; humidity := None;
         precip := Present "1.0" (Some 1%float) |} = Ok acc'
    /\ rain_alerts acc'
       = [] ++ ["∙ **" +:+ default "2024-05-01" (day_map !! (739007 - 739007))
                +:+ "**: " +:+ default "" (Some "晴") +:+ "，预计降水 "
                +:+ "1.0" +:+ "mm"].
Proof.
  apply (night_rain_flags_the_day (fun _ => "1.0") 739007 empty_scan
           {| fxDate := Present "2024-05-01" (Some 739007);
              tempMax := None; tempMin := None;
              textDay := Some "晴"; textNight := Some "中雨";
              windDirDay := None; windScaleDay := None; humidity := None;
              precip := Present "1.0" (Some 1%float) |}
           1%float "2024-05-01" 739007 eq_refl eq_refl).
  vm_compute. reflexivity.
Defined.

(** X7. Three of the ten severe keywords contain the keyword for snow, so
    they never decide the test: a day is severe exactly when its text
    contains one of the other seven. *)
Theorem severe_test_uses_seven_keywords (t : string) :
  any_in other_severe_keywords t = any_in distinct_severe_keywords t.
Proof.
  apply eq_true_iff_eq.
  unfold any_in, other_severe_keywords, distinct_severe_keywords.
  cbn [existsb]. rewrite !orb_true_iff.
  assert (H1 : str_in "暴雪" t = true -> str_in "雪" t = true)
    by (apply str_in_trans; vm_compute; reflexivity).
  assert (H2 : str_in "大雪" t = true -> str_in "雪" t = true)
    by (apply str_in_trans; vm_compute; reflexivity).
  assert (H3 : str_in "雨夹雪" t = true -> str_in "雪" t = true)
    by (apply str_in_trans; vm_compute; reflexivity).
  tauto.
Qed.

(** ** The retries *)

(** What the loop of [_request_with_retry] returns: the body of the first
    attempt that does not raise, if there is one in time. *)
Lemma request_attempts_first (get : nat -> attempt (option Response))
    (remaining : nat) :
  forall (attempt_no n : nat) (body : option Response),
    (attempt_no <= n < attempt_no + remaining)%nat ->
    get n = Returned body ->
    (forall m : nat, (attempt_no <= m < n)%nat -> get m = RequestException) ->
    request_attempts get attempt_no remaining = body.
Proof.
  induction remaining as [| k IH]; intros attempt_no n body Hn Hr Hb; [lia |].
  cbn [request_attempts].
  destruct (decide (n = attempt_no)) as [-> | Hne].
  - rewrite Hr. reflexivity.
  - rewrite (Hb attempt_no) by lia.
    apply (IH (S attempt_no) n body); [lia | exact Hr |].
    intros m Hm. apply Hb. lia.
Qed.

Lemma request_attempts_cases (get : nat -> attempt (option Response))
    (remaining : nat) :
  forall attempt_no : nat,
    (forall n : nat, (attempt_no <= n < attempt_no + remaining)%nat ->
                     get n = RequestException)
    \/ exists (n : nat) (body : option Response),
         (attempt_no <= n < attempt_no + remaining)%nat
         /\ get n = Returned body
         /\ forall m : nat, (attempt_no <= m < n)%nat -> get m = RequestException.
Proof.
  induction remaining as [| k IH]; intros attempt_no; [left; intros n Hn; lia |].
  destruct (get attempt_no) as [body |] eqn:Eg.
  - right. exists attempt_no, body. split; [lia |]. split; [exact Eg |].
    intros m Hm. lia.
  - destruct (IH (S attempt_no)) as [Hall | (n & body & Hn & Hr & Hb)].
    + left. intros n Hn. destruct (decide (n = attempt_no)) as [-> | Hne];
        [exact Eg | apply Hall; lia].
    + right. exists n, body. split; [lia |]. split; [exact Hr |].
      intros m Hm. destruct (decide (m = attempt_no)) as [-> | Hne];
        [exact Eg | apply Hb; lia].
Qed.

(** X1. [_request_with_retry] makes five attempts at most and returns the
    body of the first one that does not raise; when all five raise it
    returns [None]; what a sixth attempt would bring plays no part.  [None]
    does not tell that every attempt has raised: it is also what a null
    body, returned at once, comes back as.  The two callers treat both
    alike, as a failed fetch. *)
Theorem request_returns_first_answer :
  (forall (w : World) (url : string) (n : nat) (body : option Response),
      (n < 5)%nat ->
      session_get w url n = Returned body ->
      (forall m : nat, (m < n)%nat -> session_get w url m = RequestException) ->
      _request_with_retry w url = body)
  /\ (forall (w : World) (url : string),
        (forall n : nat, (n < 5)%nat -> session_get w url n = RequestException) ->
        _request_with_retry w url = None)
  /\ (forall (w : World) (url : string) (r : Response),
        _request_with_retry w url = Some r ->
        exists n : nat,
          (n < 5)%nat
          /\ session_get w url n = Returned (Some r)
          /\ forall m : nat, (m < n)%nat ->
                             session_get w url m = RequestException)
  /\ (forall (w : World) (url : string),
        _request_with_retry w url = None ->
        (forall n : nat, (n < 5)%nat -> session_get w url n = RequestException)
        \/ exists n : nat,
             (n < 5)%nat
             /\ session_get w url n = Returned None
             /\ forall m : nat, (m < n)%nat ->
                                session_get w url m = RequestException)
  /\ (forall (w w' : World) (url : string),
        (forall n : nat, (n < 5)%nat -> session_get w' url n = session_get w url n) ->
        _request_with_retry w' url = _request_with_retry w url)
  /\ (forall (cfg : Config) (w : World),
        session_get w (daily_url cfg) 0 = Returned None ->
        session_get w (hourly_url cfg) 0 = Returned None ->
        get_daily_weather cfg w = None /\ get_hourly_weather cfg w = Ok []).
Proof.
  assert (H1 : forall (w : World) (url : string) (n : nat) (body : option Response),
             (n < 5)%nat ->
             session_get w url n = Returned body ->
             (forall m : nat, (m < n)%nat -> session_get w url m = RequestException) ->
             _request_with_retry w url = body).
  { intros w url n body Hn Hr Hb. unfold _request_with_retry, max_retry.
    apply (request_attempts_first _ 5 0 n body); [lia | exact Hr |].
    intros m Hm. apply Hb. lia. }
  assert (H2 : forall (w : World) (url : string),
             (forall n : nat, (n < 5)%nat -> session_get w url n = RequestException) ->
             _request_with_retry w url = None).
  { intros w url H. apply request_attempts_all_raise.
    intros n Hn. apply H. unfold max_retry in Hn. lia. }
  assert (Hc : forall (w : World) (url : string),
             (forall n : nat, (n < 5)%nat -> session_get w url n = RequestException)
             \/ exists (n : nat) (body : option Response),
                  (n < 5)%nat
                  /\ session_get w url n = Returned body
                  /\ forall m : nat, (m < n)%nat ->
                                     session_get w url m = RequestException).
  { intros w url.
    destruct (request_attempts_cases (session_get w url) 5 0)
      as [Hall | (n & body & Hn & Hr & Hb)].
    - left. intros n Hn. apply Hall. lia.
    - right. exists n, body. split; [lia |]. split; [exact Hr |].
      intros m Hm. apply Hb. lia. }
  split; [exact H1 |]. split; [exact H2 |].
  split.
  { intros w url r Hsome.
    destruct (Hc w url) as [Hall | (n & body & Hn & Hr & Hb)].
    - rewrite (H2 w url Hall) in Hsome. discriminate Hsome.
    - rewrite (H1 w url n body Hn Hr Hb) in Hsome. subst body. eauto. }
  split.
  { intros w url Hnone.
    destruct (Hc w url) as [Hall | (n & body & Hn & Hr & Hb)]; [left; exact Hall |].
    rewrite (H1 w url n body Hn Hr Hb) in Hnone. subst body. right. eauto. }
  split.
  { intros w w' url Hsame.
    destruct (Hc w url) as [Hall | (n & body & Hn & Hr & Hb)].
    - rewrite (H2 w url Hall). apply H2.
      intros n Hn. rewrite Hsame by exact Hn. apply Hall. exact Hn.
    - rewrite (H1 w url n body Hn Hr Hb). apply (H1 w' url n body Hn).
      + rewrite Hsame by exact Hn. exact Hr.
      + intros m Hm. rewrite Hsame by lia. apply Hb. exact Hm. }
  intros cfg w Hd Hh.
  assert (Ed : _request_with_retry w (daily_url cfg) = None).
  { apply (H1 w _ 0%nat None); [lia | exact Hd | intros m Hm; lia]. }
  assert (Eh : _request_with_retry w (hourly_url cfg) = None).
  { apply (H1 w _ 0%nat None); [lia | exact Hh | intros m Hm; lia]. }
  unfold get_daily_weather, get_hourly_weather. rewrite Ed, Eh. split; reflexivity.
Qed.

Lemma request_returns_first_answer_witness :
  _request_with_retry flaky_world (daily_url sample_config)
  = Some example_daily_response.
Proof.
  apply (proj1 request_returns_first_answer flaky_world
           (daily_url sample_config) 2%nat (Some example_daily_response)).
  - lia.
  - reflexivity.
  - intros m Hm. destruct m as [| [| m]]; [reflexivity | reflexivity | lia].
Defined.



(** ** The colour of the cards *)


Lemma card_template_rain_alert_title (rain_start_time : option string) :
  card_template (rain_alert_title rain_start_time) = "red".
Proof. reflexivity. Qed.



(** ** The label of an hour *)

Lemma string_length_append (a b : string) :
  String.length (a +:+ b) = (String.length a + String.length b)%nat.
Proof.
  induction a as [| x a IH]; [reflexivity |].
  change (S (String.length (a +:+ b)) = S (String.length a + String.length b)).
  rewrite IH. reflexivity.
Qed.

Lemma two_digits_length (n : Z) :
  0 <= n < 100 -> String.length (two_digits n) = 2%nat.
Proof.
  intros Hn.
  assert (Hall : forallb (fun k => Nat.eqb (String.length (two_digits (Z.of_nat k))) 2)
                   (seq 0 100) = true) by (vm_compute; reflexivity).
  rewrite forallb_forall in Hall.
  specialize (Hall (Z.to_nat n)). rewrite Z2Nat.id in Hall by lia.
  apply Nat.eqb_eq, Hall, in_seq. lia.
Qed.

Lemma seconds_of_day_split (d h m r : Z) :
  0 <= h < 24 -> 0 <= m < 60 -> 0 <= r < 60000000 ->
  ((d * 86400000000 + h * 3600000000 + m * 60000000 + r) / 1000000) mod 86400
  = h * 3600 + m * 60 + r / 1000000.
Proof.
  intros Hh Hm Hr.
  pose proof (Z.div_mod r 1000000 ltac:(lia)) as Hdm.
  pose proof (Z.mod_pos_bound r 1000000 ltac:(lia)) as Hb.
  assert (Hs : 0 <= r / 1000000 < 60).
  { split; [apply Z.div_pos; lia | apply Z.div_lt_upper_bound; lia]. }
  assert (Hq : (d * 86400000000 + h * 3600000000 + m * 60000000 + r) / 1000000
               = d * 86400 + h * 3600 + m * 60 + r / 1000000).
  { symmetry. apply (Z.div_unique _ _ _ (r mod 1000000)); lia. }
  rewrite Hq. symmetry.
  apply (Z.mod_unique _ _ d); lia.
Qed.

(** X8. The label [get_hourly_weather] prints for an instant is the clock
    of the UTC+8 zone at that instant: at [h] hours, [m] minutes and any
    fraction of a minute past a local midnight it is the two digits of [h],
    a colon and the two digits of [m].  Every label is five characters long,
    and instants a day apart have the same label. *)
Theorem strftime_HM_is_local_clock :
  (forall d h m r : Z,
      0 <= h < 24 -> 0 <= m < 60 -> 0 <= r < 60000000 ->
      strftime_HM (d * 86400000000 + h * 3600000000 + m * 60000000 + r
                   - 8 * 3600000000)
      = two_digits h +:+ ":" +:+ two_digits m)
  /\ (forall t : Z, String.length (strftime_HM t) = 5%nat)
  /\ (forall t : Z, strftime_HM (t + 24 * hour_us) = strftime_HM t).
Proof.
  split; [| split].
  - intros d h m r Hh Hm Hr. unfold strftime_HM, tz_offset, hour_us.
    replace (d * 86400000000 + h * 3600000000 + m * 60000000 + r
             - 8 * 3600000000 + 8 * (3600 * 1000000))
      with (d * 86400000000 + h * 3600000000 + m * 60000000 + r) by lia.
    rewrite seconds_of_day_split by assumption.
    assert (Hs : 0 <= r / 1000000 < 60).
    { split; [apply Z.div_pos; lia | apply Z.div_lt_upper_bound; lia]. }
    assert (E1 : (h * 3600 + m * 60 + r / 1000000) / 3600 = h).
    { symmetry. apply (Z.div_unique _ _ _ (m * 60 + r / 1000000)); lia. }
    assert (E2 : (h * 3600 + m * 60 + r / 1000000) mod 3600
                 = m * 60 + r / 1000000).
    { symmetry. apply (Z.mod_unique _ _ h); lia. }
    assert (E3 : (m * 60 + r / 1000000) / 60 = m).
    { symmetry. apply (Z.div_unique _ _ _ (r / 1000000)); lia. }
    rewrite E1, E2, E3. reflexivity.
  - intros t. unfold strftime_HM.
    set (s := ((t + tz_offset) / 1000000) mod 86400).
    assert (Hs : 0 <= s < 86400) by (apply Z.mod_pos_bound; lia).
    assert (H1 : 0 <= s / 3600 < 24).
    { split; [apply Z.div_pos; lia | apply Z.div_lt_upper_bound; lia]. }
    assert (H2 : 0 <= s mod 3600 / 60 < 60).
    { pose proof (Z.mod_pos_bound s 3600 ltac:(lia)).
      split; [apply Z.div_pos; lia | apply Z.div_lt_upper_bound; lia]. }
    rewrite !string_length_append, !two_digits_length by lia. reflexivity.
  - intros t. unfold strftime_HM, tz_offset, hour_us.
    replace ((t + 24 * (3600 * 1000000) + 8 * (3600 * 1000000)) / 1000000)
      with ((t + 8 * (3600 * 1000000)) / 1000000 + 1 * 86400).
    + rewrite Z.mod_add by lia. reflexivity.
    + rewrite <- Z.div_add by lia. f_equal. lia.
Qed.

Lemma strftime_HM_is_local_clock_witness :
  strftime_HM (19844 * 86400000000 + 16 * 3600000000 + 5 * 60000000 + 1
               - 8 * 3600000000)
  = two_digits 16 +:+ ":" +:+ two_digits 5.
Proof.
  apply (proj1 strftime_HM_is_local_clock 19844 16 5 1); lia.
Defined.

(** ** What makes the two loops over the provider's records raise *)

Lemma item_exn_None (now : Z) (item : HourlyItem) :
  item_exn now item = None <-> passable_item now item.
Proof.
  unfold item_exn, passable_item, item_in_window, item_time, read_fxTime.
  destruct (fxTime item) as [| raw [t |] | e0].
  - split; [discriminate | intros [[t Ht] _]; discriminate Ht].
  - destruct (in_window now (now + 6 * hour_us) t).
    + destruct (convert_or 0 (pop item)) as [p | e].
      * split; [| reflexivity]. intros _. split; eauto.
      * split; [discriminate |]. intros [_ Hp].
        destruct (Hp eq_refl) as [p Hp']. discriminate Hp'.
    + split; [| reflexivity]. intros _. split; [eauto | discriminate].
  - split; [discriminate | intros [[t Ht] _]; discriminate Ht].
  - split; [discriminate | intros [[t Ht] _]; discriminate Ht].
Qed.

(** One step of the loop: past an item that raises nothing, on with the
    rest; at an item that raises, out with its exception. *)
Lemma hourly_loop_step (now : Z) (item : HourlyItem) (items : list HourlyItem)
    (acc : list HourlyForecast) :
  match item_exn now item with
  | Some e => hourly_loop now (now + 6 * hour_us) (item :: items) acc = Raise e
  | None =>
      exists acc', hourly_loop now (now + 6 * hour_us) (item :: items) acc
                   = hourly_loop now (now + 6 * hour_us) items acc'
  end.
Proof.
  unfold item_exn. cbn [hourly_loop].
  destruct (read_fxTime item) as [t | e]; cbv [mbind result_bind];
    [| reflexivity].
  destruct (in_window now (now + 6 * hour_us) t); [| eauto].
  destruct (convert_or 0 (pop item)) as [p | e]; [eauto | reflexivity].
Qed.

Lemma hourly_loop_returns_iff (now : Z) (items : list HourlyItem) :
  forall acc : list HourlyForecast,
    (exists res, hourly_loop now (now + 6 * hour_us) items acc = Ok res)
    <-> Forall (passable_item now) items.
Proof.
  induction items as [| item items IH]; intros acc.
  - split; [intros _; constructor | intros _; eexists; reflexivity].
  - rewrite Forall_cons, <- item_exn_None.
    pose proof (hourly_loop_step now item items acc) as Hstep.
    destruct (item_exn now item) as [e |].
    + rewrite Hstep. split; [intros [res H]; discriminate H |].
      intros [H _]. discriminate H.
    + destruct Hstep as [acc' ->]. rewrite IH. tauto.
Qed.

Lemma hourly_loop_first_failure (now : Z) (before : list HourlyItem)
    (item : HourlyItem) (after : list HourlyItem) (e : exn) :
  Forall (passable_item now) before ->
  item_exn now item = Some e ->
  forall acc : list HourlyForecast,
    hourly_loop now (now + 6 * hour_us) (before ++ item :: after) acc = Raise e.
Proof.
  intros Hb Hitem. induction Hb as [| b before Hpass _ IH]; intros acc.
  - cbn [app]. pose proof (hourly_loop_step now item after acc) as Hstep.
    rewrite Hitem in Hstep. exact Hstep.
  - cbn [app].
    pose proof (hourly_loop_step now b (before ++ item :: after) acc) as Hstep.
    apply item_exn_None in Hpass. rewrite Hpass in Hstep.
    destruct Hstep as [acc' ->]. apply IH.
Qed.

Lemma hourly_loop_raise_inv (now : Z) (items : list HourlyItem) :
  forall (acc : list HourlyForecast) (e : exn),
    hourly_loop now (now + 6 * hour_us) items acc = Raise e ->
    exists (before : list HourlyItem) (item : HourlyItem) (after : list HourlyItem),
      items = before ++ item :: after
      /\ Forall (passable_item now) before
      /\ item_exn now item = Some e.
Proof.
  induction items as [| item items IH]; intros acc e H; [discriminate H |].
  pose proof (hourly_loop_step now item items acc) as Hstep.
  destruct (item_exn now item) as [e' |] eqn:Ei.
  - rewrite Hstep in H. injection H as ->.
    exists [], item, items. split; [reflexivity |]. split; [constructor | exact Ei].
  - destruct Hstep as [acc' Hstep]. rewrite Hstep in H.
    destruct (IH acc' e H) as (before & item' & after & -> & Hb & He).
    exists (item :: before), item', after. split; [reflexivity |].
    split; [| exact He]. constructor; [apply item_exn_None; exact Ei | exact Hb].
Qed.

(** X9. After a fetch that succeeds, [get_hourly_weather] returns normally
    exactly when the time of every record converts and the probability of
    every record inside the window converts.  Otherwise it raises what the
    first record it cannot pass raises, and returns nothing of what it had
    collected: [KeyError] for a record without [fxTime], [ValueError] for a
    time or a probability that is a string of the wrong form, and whatever
    the conversion raises on another value.  A probability that does not
    convert is harmless outside the window, where it is not looked at.
    When the fetch raises in a minute in which the check runs,
    [_handle_rain_alert] raises the same and leaves the state as it was. *)
Theorem hourly_fetch_returns_iff_passable (cfg : Config) (w : World) (r : Response) :
  _request_with_retry w (hourly_url cfg) = Some r ->
  code r = Some "200" ->
  ((exists res, get_hourly_weather cfg w = Ok res)
   <-> Forall (passable_item (clock w)) (default [] (hourly r)))
  /\ (forall (before : list HourlyItem) (item : HourlyItem)
             (after : list HourlyItem) (e : exn),
        default [] (hourly r) = before ++ item :: after ->
        Forall (passable_item (clock w)) before ->
        item_exn (clock w) item = Some e ->
        get_hourly_weather cfg w = Raise e)
  /\ (forall e : exn,
        get_hourly_weather cfg w = Raise e ->
        exists (before : list HourlyItem) (item : HourlyItem)
               (after : list HourlyItem),
          default [] (hourly r) = before ++ item :: after
          /\ Forall (passable_item (clock w)) before
          /\ item_exn (clock w) item = Some e)
  /\ (forall item : HourlyItem,
        (fxTime item = Absent -> item_exn (clock w) item = Some KeyError)
        /\ (forall raw : string,
              fxTime item = Present raw None ->
              item_exn (clock w) item = Some ValueError)
        /\ (forall e : exn,
              fxTime item = Invalid e -> item_exn (clock w) item = Some e)
        /\ (forall (raw : string) (t : Z),
              fxTime item = Present raw (Some t) ->
              in_window (clock w) (clock w + 6 * hour_us) t = false ->
              item_exn (clock w) item = None))
  /\ (forall (now : datetime) (st : MonitorState) (e : exn),
        check_runs cfg now ->
        get_hourly_weather cfg w = Raise e ->
        _handle_rain_alert cfg w now st = (Raise e, st, [])).
Proof.
  intros Hreq Hcode.
  assert (Hf : fetch_failed (Some r) = false)
    by (apply fetch_failed_false; eauto).
  assert (Hg : get_hourly_weather cfg w
               = hourly_loop (clock w) (clock w + 6 * hour_us)
                   (default [] (hourly r)) []).
  { unfold get_hourly_weather. rewrite Hreq, Hf. reflexivity. }
  split; [rewrite Hg; apply hourly_loop_returns_iff |].
  split.
  { intros before item after e Heq Hb Hitem. rewrite Hg, Heq.
    apply hourly_loop_first_failure; assumption. }
  split.
  { intros e He. rewrite Hg in He. eapply hourly_loop_raise_inv. exact He. }
  split.
  { intros item. unfold item_exn, read_fxTime.
    split; [intros ->; reflexivity |].
    split; [intros raw ->; reflexivity |].
    split; [intros e ->; reflexivity |].
    intros raw t -> ->. reflexivity. }
  intros now st e Hc He. unfold check_runs in Hc.
  rewrite _handle_rain_alert_cases, Hc, He. reflexivity.
Qed.

Lemma hourly_fetch_returns_iff_passable_witness :
  get_hourly_weather sample_config untimed_item_world = Raise KeyError.
Proof.
  refine (proj1 (proj2 (hourly_fetch_returns_iff_passable sample_config
            untimed_item_world untimed_response eq_refl eq_refl))
          [boundary_item] untimed_item [] KeyError eq_refl _ eq_refl).
  constructor; [| constructor].
  split; [eexists; reflexivity |]. intros _. eexists. reflexivity.
Defined.

Lemma day_exn_None (d : DailyForecast) : day_exn d = None <-> readable_day d.
Proof.
  unfold day_exn, readable_day, read_fxDate.
  destruct (convert_or 0%float (precip d)) as [p | e].
  - destruct (fxDate d) as [| raw [dt |] | e0].
    + split; [discriminate | intros [_ (raw & dt & H)]; discriminate H].
    + split; [| reflexivity]. intros _. split; eauto.
    + split; [discriminate | intros [_ (raw' & dt & H)]; discriminate H].
    + split; [discriminate | intros [_ (raw & dt & H)]; discriminate H].
  - split; [discriminate | intros [[p Hp] _]; discriminate Hp].
Qed.

Lemma scan_day_step (float_repr : float -> string) (today : Z) (acc : Scan)
    (d : DailyForecast) :
  match day_exn d with
  | Some e => scan_day float_repr today acc d = Raise e
  | None => exists acc', scan_day float_repr today acc d = Ok acc'
  end.
Proof.
  unfold day_exn, scan_day.
  destruct (convert_or 0%float (precip d)) as [p | e]; cbv [mbind result_bind];
    [| reflexivity].
  destruct (read_fxDate d) as [fx | e]; [| reflexivity].
  destruct (_ || _), (any_in _ _); eauto.
Qed.

Lemma scan_day_returns_iff (float_repr : float -> string) (today : Z)
    (acc : Scan) (d : DailyForecast) :
  (exists acc', scan_day float_repr today acc d = Ok acc') <-> readable_day d.
Proof.
  rewrite <- day_exn_None.
  pose proof (scan_day_step float_repr today acc d) as Hstep.
  destruct (day_exn d) as [e |].
  - rewrite Hstep. split; [intros [acc' H]; discriminate H | discriminate].
  - tauto.
Qed.

Lemma scan_day_lengths (float_repr : float -> string) (today : Z)
    (acc acc' : Scan) (d : DailyForecast) :
  scan_day float_repr today acc d = Ok acc' ->
  (length (rain_alerts acc) <= length (rain_alerts acc')
   <= S (length (rain_alerts acc)))%nat
  /\ (length (other_severe_alerts acc) <= length (other_severe_alerts acc')
      <= S (length (other_severe_alerts acc)))%nat
  /\ (length (rain_days_indices acc') + length (rain_alerts acc)
      <= length (rain_days_indices acc) + length (rain_alerts acc'))%nat
  /\ (length (severe_days_indices acc') + length (other_severe_alerts acc)
      <= length (severe_days_indices acc) + length (other_severe_alerts acc'))%nat.
Proof.
  intros H.
  assert (Hr : readable_day d) by (eapply scan_day_returns_iff; eauto).
  destruct Hr as [[p Hp] (raw & dt & Hd)].
  destruct (scan_day_readable float_repr today acc d p raw dt Hp Hd)
    as (acc1 & H1 & Ha & Hb & Hc & He).
  rewrite H1 in H. injection H as <-.
  rewrite Ha, Hb, Hc, He.
  destruct (is_rain_by_keyword (text_to_check d)
            || is_rain_by_precip p (text_to_check d));
    destruct (any_in other_severe_keywords (text_to_check d));
    destruct (in_day_map (dt - today)); cbn [andb];
    rewrite ?length_app; cbn [length]; lia.
Qed.

Lemma scan_forecast_returns_iff (float_repr : float -> string) (today : Z)
    (forecast_data : list DailyForecast) :
  forall acc : Scan,
    (exists s, scan_forecast float_repr today forecast_data acc = Ok s)
    <-> Forall readable_day forecast_data.
Proof.
  induction forecast_data as [| d rest IH]; intros acc.
  - split; [intros _; constructor | intros _; eexists; reflexivity].
  - cbn [scan_forecast]. rewrite Forall_cons.
    rewrite <- (scan_day_returns_iff float_repr today acc d).
    destruct (scan_day float_repr today acc d) as [acc' | e];
      cbv [mbind result_bind].
    + rewrite IH. split; [intros H; split; eauto | tauto].
    + split; [intros [s H]; discriminate H |].
      intros [[acc' H] _]. discriminate H.
Qed.

Lemma scan_forecast_first_failure (float_repr : float -> string) (today : Z)
    (before : list DailyForecast) (d : DailyForecast)
    (after : list DailyForecast) (e : exn) :
  Forall readable_day before ->
  day_exn d = Some e ->
  forall acc : Scan,
    scan_forecast float_repr today (before ++ d :: after) acc = Raise e.
Proof.
  intros Hb Hd. induction Hb as [| b before Hread _ IH]; intros acc.
  - cbn [app scan_forecast].
    pose proof (scan_day_step float_repr today acc d) as Hstep.
    rewrite Hd in Hstep. rewrite Hstep. reflexivity.
  - cbn [app scan_forecast].
    apply (scan_day_returns_iff float_repr today acc b) in Hread as [acc' ->].
    cbv [mbind result_bind]. apply IH.
Qed.

Lemma scan_forecast_lengths (float_repr : float -> string) (today : Z)
    (forecast_data : list DailyForecast) :
  forall acc s : Scan,
    scan_forecast float_repr today forecast_data acc = Ok s ->
    (length (rain_alerts s) <= length (rain_alerts acc) + length forecast_data)%nat
    /\ (length (other_severe_alerts s)
        <= length (other_severe_alerts acc) + length forecast_data)%nat
    /\ (length (rain_days_indices s) + length (rain_alerts acc)
        <= length (rain_days_indices acc) + length (rain_alerts s))%nat
    /\ (length (severe_days_indices s) + length (other_severe_alerts acc)
        <= length (severe_days_indices acc) + length (other_severe_alerts s))%nat.
Proof.
  induction forecast_data as [| d rest IH]; intros acc s H.
  - injection H as <-. cbn [length]. lia.
  - cbn [scan_forecast] in H.
    destruct (scan_day float_repr today acc d) as [acc' | e] eqn:Ed;
      cbv [mbind result_bind] in H; [| discriminate H].
    pose proof (scan_day_lengths float_repr today acc acc' d Ed).
    pose proof (IH acc' s H). cbn [length]. lia.
Qed.

(** X10. The loop over the daily forecast returns normally only if the
    precipitation and the date of every day convert.  A day for which one
    does not, the days before it being read, makes the loop raise what that
    conversion raises, the precipitation being converted before the date:
    [TypeError] for a day without [fxDate], [ValueError] for a precipitation
    or a date that is a string of the wrong form.  One such day, even one
    beyond the three the title looks at, costs the whole digest: in the
    trigger minute [_handle_daily_push] raises the same, pushes nothing and
    leaves the date unmarked.  When the loop returns, each day has at most
    one line in the rain section and at most one line in the severe section,
    however many keywords its text contains, and no offset is recorded
    without a line. *)
Theorem unreadable_day_costs_the_digest (float_repr : float -> string)
    (today : Z) (forecast_data : list DailyForecast) :
  ((exists s, scan_forecast float_repr today forecast_data empty_scan = Ok s)
   -> Forall readable_day forecast_data)
  /\ (forall (before : list DailyForecast) (d : DailyForecast)
             (after : list DailyForecast) (e : exn),
        forecast_data = before ++ d :: after ->
        Forall readable_day before ->
        day_exn d = Some e ->
        scan_forecast float_repr today forecast_data empty_scan = Raise e)
  /\ (forall d : DailyForecast,
        (forall e : exn, convert_or 0%float (precip d) = Raise e -> day_exn d = Some e)
        /\ (forall p : float,
              convert_or 0%float (precip d) = Ok p ->
              (fxDate d = Absent -> day_exn d = Some TypeError)
              /\ (forall raw : string,
                    fxDate d = Present raw None -> day_exn d = Some ValueError)))
  /\ (forall (cfg : Config) (w : World) (now : datetime) (st : MonitorState)
             (e : exn),
        today = date now ->
        daily_trigger cfg now st = true ->
        get_daily_weather cfg w = Some forecast_data ->
        scan_forecast float_repr today forecast_data empty_scan = Raise e ->
        _handle_daily_push float_repr cfg w now st = (Raise e, st, []))
  /\ (forall s : Scan,
        scan_forecast float_repr today forecast_data empty_scan = Ok s ->
        (length (rain_alerts s) <= length forecast_data)%nat
        /\ (length (other_severe_alerts s) <= length forecast_data)%nat
        /\ (length (rain_days_indices s) <= length (rain_alerts s))%nat
        /\ (length (severe_days_indices s) <= length (other_severe_alerts s))%nat).
Proof.
  split; [apply scan_forecast_returns_iff |].
  split.
  { intros before d after e -> Hb Hd.
    apply scan_forecast_first_failure; assumption. }
  split.
  { intros d. unfold day_exn, read_fxDate.
    split; [intros e ->; reflexivity |].
    intros p ->. split; [intros ->; reflexivity | intros raw ->; reflexivity]. }
  split.
  { intros cfg w now st e -> Ht Hg Hs.
    rewrite _handle_daily_push_cases, Ht, Hg.
    destruct forecast_data as [| today_data rest]; [discriminate Hs |].
    rewrite Hs. reflexivity. }
  intros s H.
  pose proof (scan_forecast_lengths float_repr today forecast_data empty_scan s H)
    as Hl.
  cbn [empty_scan rain_alerts other_severe_alerts rain_days_indices
         severe_days_indices length] in Hl.
  lia.
Qed.

Lemma unreadable_day_costs_the_digest_witness :
  scan_forecast (fun _ => "12.0") 739007
    (example_triple ++ [undated_day] ++ example_triple) empty_scan
  = Raise TypeError.
Proof.
  apply (proj1 (proj2 (unreadable_day_costs_the_digest (fun _ => "12.0") 739007
                         (example_triple ++ [undated_day] ++ example_triple)))
           example_triple undated_day example_triple TypeError eq_refl).
  - repeat constructor; eexists; try eexists; reflexivity.
  - reflexivity.
Defined.

(** ** The state along a run *)

Lemma tick_state (float_repr : float -> string) (cfg : Config) (w : World)
    (now : datetime) (st : MonitorState) :
  last_daily_push_date (state_after (tick float_repr cfg w now st))
  = last_daily_push_date st
  \/ hour now = daily_push_hour cfg
     /\ minute now = daily_push_minute cfg
     /\ last_daily_push_date (state_after (tick float_repr cfg w now st))
        = Some (date now).
Proof.
  rewrite tick_last_daily_push_date.
  destruct (daily_push_effect float_repr cfg w now st)
    as [_ [[_ ->] | (p & _ & _ & Htr & ->)]]; [left; reflexivity |].
  apply daily_trigger_true in Htr as (Hh & Hm & _). right. auto.
Qed.

(** X12. The two handlers keep to their own field: [_handle_daily_push]
    never changes [rain_active] and [_handle_rain_alert] never changes
    [last_daily_push_date].  Along a run [last_daily_push_date] is never
    cleared: at the end it is what it was at the start, or the date of a
    tick of the run that fell in the configured hour and minute. *)
Theorem state_fields_are_independent (float_repr : float -> string)
    (cfg : Config) :
  (forall (w : World) (now : datetime) (st : MonitorState),
      rain_active (state_after (_handle_daily_push float_repr cfg w now st))
      = rain_active st)
  /\ (forall (w : World) (now : datetime) (st : MonitorState),
        last_daily_push_date (state_after (_handle_rain_alert cfg w now st))
        = last_daily_push_date st)
  /\ (forall (ticks : list (datetime * World)) (st : MonitorState),
        last_daily_push_date (state_after (run float_repr cfg ticks st))
        = last_daily_push_date st
        \/ exists (now : datetime) (w : World),
             In (now, w) ticks
             /\ hour now = daily_push_hour cfg
             /\ minute now = daily_push_minute cfg
             /\ last_daily_push_date (state_after (run float_repr cfg ticks st))
                = Some (date now)).
Proof.
  split; [intros w now st; apply daily_push_effect |].
  split; [intros w now st; apply rain_alert_effect |].
  intros ticks. induction ticks as [| [now w] rest IH]; intros st.
  - left. reflexivity.
  - rewrite run_cons.
    pose proof (tick_state float_repr cfg w now st) as Ht.
    destruct (outcome (tick float_repr cfg w now st)) as [s | e];
      cbn [state_after fst snd].
    + destruct (IH (state_after (tick float_repr cfg w now st)))
        as [Hsame | (now' & w' & Hin & Hh & Hm & Hl)].
      * rewrite Hsame. destruct Ht as [Ht | (Hh & Hm & Ht)]; [left; exact Ht |].
        right. exists now, w. split; [left; reflexivity | auto].
      * right. exists now', w'. split; [right; exact Hin | auto].
    + destruct Ht as [Ht | (Hh & Hm & Ht)]; [left; exact Ht |].
      right. exists now, w. split; [left; reflexivity | auto].
Qed.

(** ** The end of a tick *)

Lemma tick_ok_sleep (float_repr : float -> string) (cfg : Config) (w : World)
    (now : datetime) (st : MonitorState) (s : Z) :
  outcome (tick float_repr cfg w now st) = Ok s ->
  sleep_seconds cfg now = Ok s /\ time_sleep s = Ok tt.
Proof.
  unfold tick. cbv [mbind M_bind mret M_ret lift].
  destruct (_handle_daily_push float_repr cfg w now st) as [[[[] | e] st1] out1];
    cbn [outcome fst snd]; [| discriminate].
  destruct (_handle_rain_alert cfg w now st1) as [[[[] | e] st2] out2];
    cbn [outcome fst snd]; [| discriminate].
  destruct (sleep_seconds cfg now) as [s' | e]; cbn [fst snd]; [| discriminate].
  destruct (time_sleep s') as [[] | e] eqn:Es; cbn [fst snd]; [| discriminate].
  intros [= <-]. auto.
Qed.

(** X13. A tick ends normally only if the interval is at least one minute:
    with an interval of zero [_handle_rain_alert] divides by zero, and with a
    negative interval the sleep computed is negative and [time.sleep]
    refuses it.  The time it then sleeps is the rest of the interval in
    minutes, less the seconds already gone. *)
Theorem tick_ends_only_with_positive_interval (float_repr : float -> string)
    (cfg : Config) (w : World) (now : datetime) (st : MonitorState) (s : Z) :
  0 <= second now ->
  outcome (tick float_repr cfg w now st) = Ok s ->
  1 <= check_interval_minutes cfg
  /\ s = (check_interval_minutes cfg
          - minute now mod check_interval_minutes cfg) * 60 - second now
  /\ 0 <= s.
Proof.
  intros Hsec Hok.
  destruct (tick_ok_sleep float_repr cfg w now st s Hok) as [Hs Ht].
  unfold time_sleep in Ht.
  destruct (Z.ltb_spec s 0) as [Hneg | Hpos]; [discriminate Ht |].
  set (c := check_interval_minutes cfg) in *.
  destruct (Z.lt_trichotomy c 0) as [Hc | [Hc | Hc]].
  - exfalso. unfold sleep_seconds, next_minute in Hs. fold c in Hs.
    rewrite py_mod_ok in Hs by lia. cbv [mbind result_bind] in Hs.
    rewrite py_mod_ok in Hs by lia.
    cbv [mbind result_bind mret result_ret] in Hs. injection Hs as Hs.
    pose proof (Z.mod_neg_bound (c - minute now mod c) c Hc) as Hb.
    destruct (Z.eqb_spec ((c - minute now mod c) mod c) 0); lia.
  - exfalso. unfold sleep_seconds, next_minute in Hs. fold c in Hs.
    rewrite Hc in Hs. discriminate Hs.
  - assert (H1 : 1 <= c) by lia.
    unfold sleep_seconds in Hs. rewrite (next_minute_pos cfg now H1) in Hs.
    cbv [mbind result_bind mret result_ret] in Hs. injection Hs as Hs.
    fold c in Hs. auto.
Qed.

Lemma tick_ends_only_with_positive_interval_witness :
  1 <= check_interval_minutes sample_config
  /\ 297 = (check_interval_minutes sample_config
            - minute (mkDatetime 739007 8 0 3)
              mod check_interval_minutes sample_config) * 60
           - second (mkDatetime 739007 8 0 3)
  /\ 0 <= 297.
Proof.
  apply (tick_ends_only_with_positive_interval (fun _ => "12.0") sample_config
           accepting_world (mkDatetime 739007 8 0 3) initial_state 297).
  - cbn. lia.
  - vm_compute. reflexivity.
Defined.


(** ** The alerts of a sequence of ticks *)

Lemma clear_tickb_true (cfg : Config) (t : datetime * World) :
  clear_tickb cfg t = true <-> clear_tick cfg t.
Proof.
  unfold clear_tickb, clear_tick, check_runs.
  destruct (py_mod (minute t.1) (check_interval_minutes cfg)) as [r | e].
  - destruct (Z.eqb_spec r 0) as [-> | Hr]; cbn [andb].
    + destruct (get_hourly_weather cfg t.2) as [hf | e].
      * rewrite negb_true_iff, truthy_false. split.
        -- intros H. split; [reflexivity |]. eauto.
        -- intros [_ (hf' & [= <-] & H)]. exact H.
      * split; [discriminate |]. intros [_ (hf' & H & _)]. discriminate H.
    + split; [discriminate |]. intros [[= H] _]. contradiction.
  - split; [discriminate |]. intros [H _]. discriminate H.
Qed.


(** ** The configuration file and the supervisor *)

Ltac text_case H f :=
  match type of H with
  | context [f] => destruct f as [| | ?] eqn:?; cbv beta iota in H; try discriminate H
  | _ => idtac
  end.

Ltac number_case H f :=
  match type of H with
  | context [f] =>
      destruct f as [| | [? |]] eqn:?; cbv beta iota in H; try discriminate H
  | _ => idtac
  end.

Ltac load_cases H ini :=
  text_case H (ini_feishu_webhook_url ini);
  text_case H (ini_qweather_key ini);
  text_case H (ini_api_host ini);
  text_case H (ini_location ini);
  text_case H (ini_name ini);
  number_case H (ini_daily_push_hour ini);
  number_case H (ini_daily_push_minute ini);
  number_case H (ini_check_interval_minutes ini);
  number_case H (ini_rain_threshold_precip ini);
  number_case H (ini_rain_threshold_pop ini).

Lemma load_config_Started (ini : Options) (cfg : Config) :
  _load_config ini = Started cfg ->
  ini_feishu_webhook_url ini = Found (feishu_webhook_url cfg)
  /\ ini_qweather_key ini = Found (qweather_key cfg)
  /\ ini_api_host ini = Found (api_host cfg)
  /\ ini_location ini = Found (location cfg)
  /\ ini_name ini = Found (location_name cfg)
  /\ ini_daily_push_hour ini = Found (Some (daily_push_hour cfg))
  /\ ini_daily_push_minute ini = Found (Some (daily_push_minute cfg))
  /\ ini_check_interval_minutes ini = Found (Some (check_interval_minutes cfg))
  /\ ini_rain_threshold_precip ini = Found (Some (rain_threshold_precip cfg))
  /\ ini_rain_threshold_pop ini = Found (Some (rain_threshold_pop cfg)).
Proof.
  intros H. unfold _load_config in H.
  cbv [mbind started_bind mret started_ret config_get config_getnumber] in H.
  load_cases H ini. injection H as <-. cbn.
  repeat split; reflexivity.
Qed.

Lemma load_config_texts_missing (ini : Options) :
  ~ texts_found ini -> _load_config ini = StartRaise configparser_Error.
Proof.
  unfold texts_found, found, _load_config. intros Hn.
  cbv [mbind started_bind mret started_ret config_get].
  destruct (ini_feishu_webhook_url ini); [reflexivity | reflexivity |].
  destruct (ini_qweather_key ini); [reflexivity | reflexivity |].
  destruct (ini_api_host ini); [reflexivity | reflexivity |].
  destruct (ini_location ini); [reflexivity | reflexivity |].
  destruct (ini_name ini); [reflexivity | reflexivity |].
  exfalso. apply Hn. repeat split; eauto.
Qed.

Lemma load_config_ValueError (ini : Options) :
  _load_config ini = StartRaise startup_ValueError ->
  texts_found ini /\ ~ numbers_convert ini.
Proof.
  intros H. unfold _load_config in H.
  cbv [mbind started_bind mret started_ret config_get config_getnumber] in H.
  unfold texts_found, numbers_convert, converts, found.
  load_cases H ini.
  all: split; [repeat split; eauto |].
  all: intros ((v1 & E1) & (v2 & E2) & (v3 & E3) & (v4 & E4) & (v5 & E5));
    congruence.
Qed.

Lemma load_config_configparser_Error (ini : Options) :
  _load_config ini = StartRaise configparser_Error ->
  ~ (texts_found ini /\ numbers_found ini).
Proof.
  intros H. unfold _load_config in H.
  cbv [mbind started_bind mret started_ret config_get config_getnumber] in H.
  unfold texts_found, numbers_found, found.
  load_cases H ini.
  all: intros [([x1 E1] & [x2 E2] & [x3 E3] & [x4 E4] & [x5 E5])
                 ([v1 F1] & [v2 F2] & [v3 F3] & [v4 F4] & [v5 F5])];
    congruence.
Qed.

Lemma load_config_total (ini : Options) :
  texts_found ini -> numbers_convert ini ->
  exists cfg, _load_config ini = Started cfg.
Proof.
  intros ([x1 H1] & [x2 H2] & [x3 H3] & [x4 H4] & [x5 H5])
         ([v6 H6] & [v7 H7] & [v8 H8] & [v9 H9] & [v10 H10]).
  unfold _load_config. rewrite H1, H2, H3, H4, H5, H6, H7, H8, H9, H10.
  eexists. reflexivity.
Qed.

(** X18. [_load_config] returns a configuration exactly when the ten options
    are found, their interpolation done, and the five numbers convert; the
    configuration holds the values found.  A text option that is missing, or
    whose interpolation fails, always gives a [configparser.Error], whatever
    the numbers are.  A [ValueError] means that every text option is found
    and some number does not convert, and it is what comes when all ten
    options are found and some number does not convert.  The options are
    read in the order of the source and the first failure decides, so a
    number that does not convert hides an option that is missing further
    down: the error is then a [ValueError], not a [configparser.Error].  A
    threshold written [50%] fails the interpolation and gives a
    [configparser.Error]. *)
Theorem load_config_outcomes (ini : Options) :
  ((exists cfg, _load_config ini = Started cfg)
   <-> texts_found ini /\ numbers_convert ini)
  /\ (forall cfg : Config,
        _load_config ini = Started cfg ->
        ini_feishu_webhook_url ini = Found (feishu_webhook_url cfg)
        /\ ini_qweather_key ini = Found (qweather_key cfg)
        /\ ini_api_host ini = Found (api_host cfg)
        /\ ini_location ini = Found (location cfg)
        /\ ini_name ini = Found (location_name cfg)
        /\ ini_daily_push_hour ini = Found (Some (daily_push_hour cfg))
        /\ ini_daily_push_minute ini = Found (Some (daily_push_minute cfg))
        /\ ini_check_interval_minutes ini
           = Found (Some (check_interval_minutes cfg))
        /\ ini_rain_threshold_precip ini
           = Found (Some (rain_threshold_precip cfg))
        /\ ini_rain_threshold_pop ini = Found (Some (rain_threshold_pop cfg)))
  /\ (~ texts_found ini -> _load_config ini = StartRaise configparser_Error)
  /\ (_load_config ini = StartRaise startup_ValueError ->
      texts_found ini /\ ~ numbers_convert ini)
  /\ (texts_found ini -> numbers_found ini -> ~ numbers_convert ini ->
      _load_config ini = StartRaise startup_ValueError)
  /\ (texts_found ini -> ini_daily_push_hour ini = Found None ->
      _load_config ini = StartRaise startup_ValueError)
  /\ (_load_config two_faults_options = StartRaise startup_ValueError
      /\ ini_rain_threshold_pop two_faults_options = NotFound)
  /\ (_load_config percent_options = StartRaise configparser_Error
      /\ texts_found percent_options).
Proof.
  split; [| split; [| split; [| split; [| split; [| split; [| split]]]]]].
  - split.
    + intros [cfg H]. apply load_config_Started in H
        as (H1 & H2 & H3 & H4 & H5 & H6 & H7 & H8 & H9 & H10).
      unfold texts_found, numbers_convert, converts, found.
      rewrite H1, H2, H3, H4, H5, H6, H7, H8, H9, H10. repeat split; eauto.
    + intros [Ht Hn]. apply load_config_total; assumption.
  - intros cfg H. apply load_config_Started. exact H.
  - apply load_config_texts_missing.
  - apply load_config_ValueError.
  - intros Ht Hf Hn.
    destruct (_load_config ini) as [cfg | [|]] eqn:El; [| | reflexivity].
    + exfalso. apply Hn. apply load_config_Started in El
        as (_ & _ & _ & _ & _ & H6 & H7 & H8 & H9 & H10).
      unfold numbers_convert, converts. rewrite H6, H7, H8, H9, H10.
      repeat split; eauto.
    + exfalso. apply (load_config_configparser_Error ini El). auto.
  - intros ([x1 H1] & [x2 H2] & [x3 H3] & [x4 H4] & [x5 H5]) H6.
    unfold _load_config. rewrite H1, H2, H3, H4, H5, H6. reflexivity.
  - split; reflexivity.
  - split; [reflexivity |]. unfold texts_found, found. cbn. repeat split; eauto.
Qed.

Lemma load_config_outcomes_witness :
  exists cfg, _load_config sample_options = Started cfg.
Proof.
  apply (proj1 (load_config_outcomes sample_options)).
  unfold texts_found, numbers_convert, converts, found. cbn.
  repeat split; eauto.
Defined.

Lemma run_test_push_length (cfg : Config) (w : World) (st : MonitorState) :
  length (pushes (run_test_push cfg w st)) = 1%nat.
Proof. reflexivity. Qed.

Lemma init_state (file : ConfigFile) (cfg : Config) (st : MonitorState) :
  __init__ file = Started (cfg, st) ->
  st = initial_state
  /\ exists ini, file = Readable ini /\ _load_config ini = Started cfg.
Proof.
  unfold __init__, config_read.
  destruct file as [| | ini]; cbv [mbind started_bind mret started_ret];
    try discriminate.
  destruct (_load_config ini) as [cfg' | e] eqn:El; [| discriminate].
  intros [= <- <-]. split; [reflexivity | eauto].
Qed.

Lemma main_normal_ending (float_repr : float -> string) (sessions : list Session) :
  (fst (main float_repr false sessions) = FatalConfigError
   /\ Exists (fun s => __init__ (session_ini s) = StartRaise configparser_Error)
        sessions)
  \/ fst (main float_repr false sessions) = StillLooping.
Proof.
  induction sessions as [| s rest IH]; [right; reflexivity |].
  cbn [main].
  destruct (__init__ (session_ini s)) as [[cfg st] | [|]] eqn:Ei.
  - destruct (run float_repr cfg (session_ticks s) st) as [[[u | e] st'] out];
      [right; reflexivity |].
    cbn [fst]. destruct IH as [[H1 H2] | H]; [left | right; exact H].
    split; [exact H1 | apply Exists_cons_tl; exact H2].
  - left. split; [reflexivity |]. apply Exists_cons_hd. exact Ei.
  - destruct IH as [[H1 H2] | H]; [left | right; exact H].
    split; [exact H1 | apply Exists_cons_tl; exact H2].
Qed.

(** X19. The supervisor.  In normal mode [main] leaves its loop only on a
    [configparser.Error] raised while a monitor is set up: by [config.read]
    on a file it cannot parse, or by [_load_config] on an option that is
    missing or fails its interpolation.  Any other exception only makes the
    loop start over: a file that is not UTF-8, a number that does not
    convert, an exception in a tick; if every start fails that way nothing
    is ever pushed.  After a monitor has raised, the next one starts from
    the first state, with [last_daily_push_date] forgotten: the pushes of
    [main] are those of the run that raised followed by those of the rest,
    and a crash in the trigger minute makes the restarted monitor push the
    digest of that date a second time.  In test mode [main] never starts
    over and pushes at most one card. *)
Theorem supervisor_restarts_from_scratch (float_repr : float -> string) :
  (forall sessions : list Session,
      fst (main float_repr false sessions) = FatalConfigError
      /\ Exists (fun s => __init__ (session_ini s) = StartRaise configparser_Error)
           sessions
      \/ fst (main float_repr false sessions) = StillLooping)
  /\ (forall sessions : list Session,
        Forall (fun s => __init__ (session_ini s)
                         = StartRaise startup_ValueError) sessions ->
        main float_repr false sessions = (StillLooping, []))
  /\ (forall (s : Session) (rest : list Session) (cfg : Config)
             (st : MonitorState) (e : exn),
        __init__ (session_ini s) = Started (cfg, st) ->
        outcome (run float_repr cfg (session_ticks s) initial_state) = Raise e ->
        st = initial_state
        /\ main float_repr false (s :: rest)
           = (fst (main float_repr false rest),
              pushes (run float_repr cfg (session_ticks s) initial_state)
              ++ snd (main float_repr false rest)))
  /\ (fst (main float_repr false crash_and_restart) = StillLooping
      /\ Forall (fun s => Forall (fun t => date t.1 = 739007) (session_ticks s))
           crash_and_restart
      /\ length (List.filter is_digest (snd (main float_repr false crash_and_restart)))
         = 2%nat)
  /\ (forall (s : Session) (rest : list Session),
        main float_repr true (s :: rest) = main float_repr true [s]
        /\ fst (main float_repr true (s :: rest)) <> StillLooping
        /\ (length (snd (main float_repr true (s :: rest))) <= 1)%nat)
  /\ (__init__ Malformed = StartRaise configparser_Error
      /\ __init__ Undecodable = StartRaise startup_ValueError
      /\ __init__ misspelt_ini = StartRaise startup_ValueError
      /\ __init__ (Readable two_faults_options) = StartRaise startup_ValueError
      /\ __init__ (Readable percent_options) = StartRaise configparser_Error).
Proof.
  split; [apply main_normal_ending |].
  split.
  { intros sessions Hall. induction Hall as [| s rest Hs _ IH]; [reflexivity |].
    cbn [main]. rewrite Hs. exact IH. }
  split.
  { intros s rest cfg st e Hi Hr.
    destruct (init_state _ _ _ Hi) as [-> _]. split; [reflexivity |].
    cbn [main]. rewrite Hi.
    destruct (run float_repr cfg (session_ticks s) initial_state)
      as [[[u | e'] st'] out]; [discriminate Hr | reflexivity]. }
  split.
  { split; [vm_compute; reflexivity |].
    split; [repeat constructor | vm_compute; reflexivity]. }
  split.
  { intros s rest. cbn [main].
    destruct (__init__ (session_ini s)) as [[cfg st] | [|]].
    - pose proof (run_test_push_length cfg (session_world s) st) as Hl.
      destruct (run_test_push cfg (session_world s) st) as [[[u | e] st'] out];
        cbn [pushes snd] in Hl; cbn [fst snd];
        (split; [reflexivity |]); (split; [discriminate | lia]).
    - split; [reflexivity |]. split; [discriminate |]. cbn. lia.
    - split; [reflexivity |]. split; [discriminate |]. cbn. lia. }
  repeat split.
Qed.

Lemma supervisor_restarts_from_scratch_witness :
  main (fun _ => "12.0") false
    [ {| session_ini := misspelt_ini; session_ticks := double_tick;
         session_world := accepting_world |} ]
  = (StillLooping, []).
Proof.
  apply (proj1 (proj2 (supervisor_restarts_from_scratch (fun _ => "12.0")))).
  repeat constructor.
Defined.

(** ** Edge cases of the digest *)

(** X20. A daily fetch that succeeds but brings no day, because the
    ["daily"] array is missing or empty, is treated as a failed fetch:
    nothing is pushed and the date is not marked. *)
Theorem empty_daily_array_is_skipped (float_repr : float -> string)
    (cfg : Config) (w : World) (now : datetime) (st : MonitorState)
    (r : Response) :
  _request_with_retry w (daily_url cfg) = Some r ->
  code r = Some "200" ->
  daily r = None \/ daily r = Some [] ->
  get_daily_weather cfg w = Some []
  /\ _handle_daily_push float_repr cfg w now st = (Ok tt, st, []).
Proof.
  intros Hreq Hcode Hd.
  assert (Hg : get_daily_weather cfg w = Some []).
  { apply get_daily_weather_Some. exists r. split; [exact Hreq |].
    split; [exact Hcode |]. destruct Hd as [-> | ->]; reflexivity. }
  split; [exact Hg |].
  rewrite _handle_daily_push_cases, Hg.
  destruct (daily_trigger cfg now st); reflexivity.
Qed.

Lemma empty_daily_array_is_skipped_witness :
  get_daily_weather sample_config untimed_item_world = Some []
  /\ _handle_daily_push (fun _ => "12.0") sample_config untimed_item_world
       (mkDatetime 739007 8 0 0) initial_state
     = (Ok tt, initial_state, []).
Proof.
  apply (empty_daily_array_is_skipped (fun _ => "12.0") sample_config
           untimed_item_world (mkDatetime 739007 8 0 0) initial_state
           untimed_response eq_refl eq_refl).
  left. reflexivity.
Defined.

Lemma in_day_map_false (z : Z) : in_day_map z = false -> day_map !! z = None.
Proof.
  unfold in_day_map. rewrite bool_decide_eq_false. intros H.
  destruct (day_map !! z) as [x |]; [| reflexivity].
  exfalso. apply H. eauto.
Qed.

(** The offsets recorded do not depend on the days out of range, nor on the
    lines collected. *)
Lemma scan_forecast_filter (float_repr : float -> string) (today : Z)
    (forecast_data : list DailyForecast) :
  forall acc acc2 s : Scan,
    rain_days_indices acc2 = rain_days_indices acc ->
    severe_days_indices acc2 = severe_days_indices acc ->
    scan_forecast float_repr today forecast_data acc = Ok s ->
    exists s2 : Scan,
      scan_forecast float_repr today
        (List.filter (day_in_range today) forecast_data) acc2 = Ok s2
      /\ rain_days_indices s2 = rain_days_indices s
      /\ severe_days_indices s2 = severe_days_indices s.
Proof.
  induction forecast_data as [| d rest IH]; intros acc acc2 s Hr Hs H.
  - injection H as <-. exists acc2. auto.
  - cbn [scan_forecast] in H.
    destruct (scan_day float_repr today acc d) as [acc' | e] eqn:Ed;
      cbv [mbind result_bind] in H; [| discriminate H].
    assert (Hread : readable_day d) by (eapply scan_day_returns_iff; eauto).
    destruct Hread as [[p Hp] (raw & dt & Hdt)].
    destruct (scan_day_readable float_repr today acc d p raw dt Hp Hdt)
      as (acc1 & H1 & _ & Hri & _ & Hsi).
    rewrite H1 in Ed. injection Ed as <-.
    cbn [List.filter]. unfold day_in_range at 1. rewrite Hdt.
    destruct (in_day_map (dt - today)) eqn:Ein.
    + destruct (scan_day_readable float_repr today acc2 d p raw dt Hp Hdt)
        as (acc3 & H3 & _ & Hri3 & _ & Hsi3).
      cbn [scan_forecast]. rewrite H3. cbv [mbind result_bind].
      rewrite Ein in Hri3, Hsi3.
      apply (IH acc1 acc3 s); [| | exact H].
      * rewrite Hri3, Hri, Hr. reflexivity.
      * rewrite Hsi3, Hsi, Hs. reflexivity.
    + rewrite !andb_false_r in Hri, Hsi.
      apply (IH acc1 acc2 s); [| | exact H]; congruence.
Qed.

(** The lines collected stay, and every day adds the lines its texts call
    for. *)
Lemma scan_forecast_lines (float_repr : float -> string) (today : Z)
    (forecast_data : list DailyForecast) :
  forall acc s : Scan,
    scan_forecast float_repr today forecast_data acc = Ok s ->
    (forall l : string, In l (rain_alerts acc) -> In l (rain_alerts s))
    /\ (forall l : string,
          In l (other_severe_alerts acc) -> In l (other_severe_alerts s))
    /\ (forall (d : DailyForecast) (p : float) (raw : string) (dt : Z),
          In d forecast_data ->
          convert_or 0%float (precip d) = Ok p ->
          fxDate d = Present raw (Some dt) ->
          (rain_rule p (text_to_check d) ->
           In (rain_line float_repr today d raw dt p) (rain_alerts s))
          /\ (any_in other_severe_keywords (text_to_check d) = true ->
              In ("∙ **" +:+ default raw (day_map !! (dt - today)) +:+ "**: "
                  +:+ default "" (textDay d))
                 (other_severe_alerts s))).
Proof.
  induction forecast_data as [| d rest IH]; intros acc s H.
  - injection H as <-. split; [auto |]. split; [auto |].
    intros d p raw dt [].
  - cbn [scan_forecast] in H.
    destruct (scan_day float_repr today acc d) as [acc' | e] eqn:Ed;
      cbv [mbind result_bind] in H; [| discriminate H].
    assert (Hread : readable_day d) by (eapply scan_day_returns_iff; eauto).
    destruct Hread as [[p Hp] (raw & dt & Hdt)].
    destruct (scan_day_readable float_repr today acc d p raw dt Hp Hdt)
      as (acc1 & H1 & Hra & _ & Hsa & _).
    rewrite H1 in Ed. injection Ed as <-.
    destruct (IH acc1 s H) as (IHr & IHs & IHd).
    split; [| split].
    + intros l Hl. apply IHr. rewrite Hra.
      destruct (_ || _); [apply in_or_app; left |]; exact Hl.
    + intros l Hl. apply IHs. rewrite Hsa.
      destruct (any_in _ _); [apply in_or_app; left |]; exact Hl.
    + intros d' p' raw' dt' [<- | Hin] Hp' Hdt'; [| eapply IHd; eassumption].
      assert (p' = p) by congruence. assert (raw' = raw) by congruence.
      assert (dt' = dt) by congruence. subst p' raw' dt'.
      split.
      * intros Hrule. apply rain_rule_decides in Hrule.
        apply IHr. rewrite Hra, Hrule. apply in_or_app. right. left. reflexivity.
      * intros Hsev. apply IHs. rewrite Hsa, Hsev.
        apply in_or_app. right. left. reflexivity.
Qed.

(** X21. Days that are not today, tomorrow or the day after never change
    the title: whatever else the forecast holds, the offsets recorded and
    the title are those of the forecast without these days.  They do get
    their lines: a rainy one a line in the rain section and a severe one a
    line in the severe section, under their date as the provider wrote it.
    So a digest may list rain or severe weather under a title that does not
    warn of it, and a digest whose days all lie outside these three days
    carries the plain title whatever it lists. *)
Theorem days_out_of_range_never_change_title (float_repr : float -> string)
    (today : Z) (forecast_data : list DailyForecast) (s : Scan) :
  scan_forecast float_repr today forecast_data empty_scan = Ok s ->
  (exists s2 : Scan,
      scan_forecast float_repr today
        (List.filter (day_in_range today) forecast_data) empty_scan = Ok s2
      /\ rain_days_indices s2 = rain_days_indices s
      /\ severe_days_indices s2 = severe_days_indices s
      /\ daily_title (severe_days_indices s2) (rain_days_indices s2)
         = daily_title (severe_days_indices s) (rain_days_indices s))
  /\ (forall (d : DailyForecast) (precip_mm : float) (raw : string) (dt : Z),
        In d forecast_data ->
        convert_or 0%float (precip d) = Ok precip_mm ->
        fxDate d = Present raw (Some dt) ->
        ~ 0 <= dt - today <= 2 ->
        (rain_rule precip_mm (text_to_check d) ->
         In ("∙ **" +:+ raw +:+ "**: " +:+ default "" (textDay d)
             +:+ "，预计降水 " +:+ float_repr precip_mm +:+ "mm")
            (rain_alerts s))
        /\ (any_in other_severe_keywords (text_to_check d) = true ->
            In ("∙ **" +:+ raw +:+ "**: " +:+ default "" (textDay d))
               (other_severe_alerts s)))
  /\ (Forall (fun d => day_in_range today d = false) forecast_data ->
      rain_days_indices s = []
      /\ severe_days_indices s = []
      /\ daily_title (severe_days_indices s) (rain_days_indices s) = "📢 今日天气").
Proof.
  intros H.
  destruct (scan_forecast_filter float_repr today forecast_data
              empty_scan empty_scan s eq_refl eq_refl H) as (s2 & H2 & Hr & Hs).
  split; [| split].
  - exists s2. rewrite Hr, Hs. auto.
  - intros d p raw dt Hin Hp Hdt Hout.
    destruct (scan_forecast_lines float_repr today forecast_data empty_scan s H)
      as (_ & _ & Hd).
    destruct (Hd d p raw dt Hin Hp Hdt) as [Hrain Hsev].
    assert (Hmap : day_map !! (dt - today) = None).
    { apply in_day_map_false, not_true_iff_false. intros Hin'.
      apply in_day_map_spec in Hin'. lia. }
    unfold rain_line in Hrain. rewrite Hmap in Hrain, Hsev. split; assumption.
  - intros Hall.
    assert (Hnil : List.filter (day_in_range today) forecast_data = []).
    { clear H H2. induction Hall as [| d rest Hd _ IH]; [reflexivity |].
      cbn [List.filter]. rewrite Hd. exact IH. }
    rewrite Hnil in H2. injection H2 as <-.
    rewrite <- Hr, <- Hs. auto.
Qed.

Lemma days_out_of_range_never_change_title_witness :
  exists s2 : Scan,
    scan_forecast (fun _ => "12.0") 739007
      (List.filter (day_in_range 739007) week_later_forecast) empty_scan = Ok s2
    /\ rain_days_indices s2 = [1]
    /\ severe_days_indices s2 = []
    /\ daily_title (severe_days_indices s2) (rain_days_indices s2)
       = "⚠️ 今日天气-明天有雨".
Proof.
  apply (proj1 (days_out_of_range_never_change_title (fun _ => "12.0") 739007
                  week_later_forecast
                  {| rain_alerts := ["∙ **明天**: 中雨，预计降水 12.0mm";
                                     "∙ **2024-05-09**: 中雨，预计降水 12.0mm"];
                     other_severe_alerts := [];
                     rain_days_indices := [1];
                     severe_days_indices := [] |}
                  ltac:(vm_compute; reflexivity))).
Defined.
